(** * goreq: the fluent HTTP request builder of gobars/hebe

    A shallow embedding of [langs/goreq/goreq.go].  The builder
    ([SuperAgent]) is a record; every chained method is a function from
    builder to builder.  Go maps are [gmap]s, [url.Values] is a map from keys
    to lists of strings, [interface{}] values are the inductive [value].

    The functions of the Go standard library that the package calls
    (encoding/json, encoding/base64, net/url, net/http, strings) are the
    fields of the class [GoStd]: the theorems hold whatever they compute.
    One fact is asked of them, [canon_names]: the three header names that
    the package writes itself are canonical.  The module [Std] gives
    executable reference models of them, used to run the builder on concrete
    inputs.

    A [for k, v := range m] loop is a left fold over [range m], the entries
    of [m] in the order the runtime picks; [range] is a field of [GoStd] as
    well, and the only thing assumed of it, where a theorem needs it, is
    [range_enumerates]: it lists the entries of the map.  The runtime draws
    an order for every loop, [range] has one order for a map: the model is
    that of one draw for each map.  No theorem here follows a builder through
    two dispatches that both reach the loops; where two builders are
    compared (the debug and curl switches, the builders that agree on the
    fields a request is made of) they are compared under the same draws.

    A call that panics (a failed type assertion, a nil dereference) has the
    [outcome] [Panicked].  What a dispatch does outside the builder (log
    lines, the exchange on the network, the callback) is the list of [event]s
    it returns. *)

From Stdlib Require Import Ascii String.
From stdpp Require Import gmap strings list fin_maps.

Set Warnings "-register-all".

(** ** Values *)

(** Go [error] values, by their message. *)
Definition error : Type := string.

(** A call that returns a value and an [error]: [Err e] when [err != nil]. *)
Inductive res (A : Type) : Type :=
  | Ok (a : A)
  | Err (e : error).
Arguments Ok {A} a.
Arguments Err {A} e.

(** A method call either returns or panics (a failed type assertion, a nil
    dereference). *)
Inductive outcome (A : Type) : Type :=
  | Returned (a : A)
  | Panicked.
Arguments Returned {A} a.
Arguments Panicked {A}.

Definition obind {A B : Type} (o : outcome A) (f : A → outcome B) : outcome B :=
  match o with
  | Returned a => f a
  | Panicked => Panicked
  end.

(** What [json.Decoder.Decode] (with [UseNumber]) stores in an [interface{}]:
    nil, bool, json.Number, string, []interface{}, map[string]interface{}.
    An object is given by its entries. *)
Inductive json : Type :=
  | JNull
  | JBool (b : bool)
  | JNumber (n : string)
  | JString (s : string)
  | JArray (l : list json)
  | JObject (m : list (string * json)).

(** The dynamically typed values held by [Data] and [SliceData].  Besides the
    decoded JSON values there is [[]string], which [SendString] builds for a
    repeated form key. *)
Inductive value : Type :=
  | VNil
  | VBool (b : bool)
  | VNumber (n : string)
  | VString (s : string)
  | VStrings (l : list string)
  | VSlice (l : list value)
  | VMap (m : list (string * value)).

Fixpoint of_json (j : json) : value :=
  match j with
  | JNull => VNil
  | JBool b => VBool b
  | JNumber n => VNumber n
  | JString s => VString s
  | JArray l => VSlice (map of_json l)
  | JObject m => VMap (map (λ kv, (kv.1, of_json kv.2)) m)
  end.

(** The Go map of a decoded object: a key that occurs twice keeps its last
    value. *)
Definition json_object_map (m : list (string * json)) : gmap string value :=
  foldl (λ acc kv, <[kv.1 := of_json kv.2]> acc) ∅ m.

(** [url.Values]: [map[string][]string]. *)
Abbreviation Values := (gmap string (list string)).

(** [v.Add(key, value)]. *)
Definition Values_Add (key val : string) (v : Values) : Values :=
  <[key := default [] (v !! key) ++ [val]]> v.

(** [v.Get(key)]: the first value of the key, or the empty string. *)
Definition Values_Get (v : Values) (key : string) : string :=
  match v !! key with
  | Some (x :: _) => x
  | _ => EmptyString
  end.

Record Cookie : Type := mkCookie { Cookie_Name : string; Cookie_Value : string }.

(** ** The builder *)

Definition POST : string := "POST".
Definition GET : string := "GET".
Definition HEAD : string := "HEAD".
Definition PUT : string := "PUT".
Definition DELETE : string := "DELETE".
Definition PATCH : string := "PATCH".
Definition OPTIONS : string := "OPTIONS".

(** [SuperAgent].  Of [Transport] the record keeps the proxy and the [Dial]
    hook: [Transport_Dial] is [Some timeout] once [Timeout] has installed its
    closure, which appends to [Errors] whenever a dial fails while
    [Client.Do] runs.  [Client], [logger] and the TLS configuration are left
    out with the three methods that only write them ([TLSClientConfig],
    [RedirectPolicy], [SetLogger]). *)
Record SuperAgent : Type := mkSuperAgent {
  Url : string;
  Method : string;
  Header : gmap string string;
  TargetType : string;
  ForceType : string;
  Data : gmap string value;
  SliceData : list value;
  FormData : Values;
  QueryData : Values;
  BounceToRawString : bool;
  RawString : string;
  Proxy_url : option string;
  Cookies : list Cookie;
  Errors : list error;
  BasicAuth : string * string;
  Debug : bool;
  CurlCommand : bool;
  Transport_Dial : option Z
}.

(** Field assignments [s.F = x]. *)
Definition with_Url (x : string) (s : SuperAgent) : SuperAgent :=
  mkSuperAgent x (Method s) (Header s) (TargetType s) (ForceType s) (Data s)
    (SliceData s) (FormData s) (QueryData s) (BounceToRawString s)
    (RawString s) (Proxy_url s) (Cookies s) (Errors s) (BasicAuth s) (Debug s)
    (CurlCommand s) (Transport_Dial s).
Definition with_Method (x : string) (s : SuperAgent) : SuperAgent :=
  mkSuperAgent (Url s) x (Header s) (TargetType s) (ForceType s) (Data s)
    (SliceData s) (FormData s) (QueryData s) (BounceToRawString s)
    (RawString s) (Proxy_url s) (Cookies s) (Errors s) (BasicAuth s) (Debug s)
    (CurlCommand s) (Transport_Dial s).
Definition with_Header (x : gmap string string) (s : SuperAgent) : SuperAgent :=
  mkSuperAgent (Url s) (Method s) x (TargetType s) (ForceType s) (Data s)
    (SliceData s) (FormData s) (QueryData s) (BounceToRawString s)
    (RawString s) (Proxy_url s) (Cookies s) (Errors s) (BasicAuth s) (Debug s)
    (CurlCommand s) (Transport_Dial s).
Definition with_TargetType (x : string) (s : SuperAgent) : SuperAgent :=
  mkSuperAgent (Url s) (Method s) (Header s) x (ForceType s) (Data s)
    (SliceData s) (FormData s) (QueryData s) (BounceToRawString s)
    (RawString s) (Proxy_url s) (Cookies s) (Errors s) (BasicAuth s) (Debug s)
    (CurlCommand s) (Transport_Dial s).
Definition with_ForceType (x : string) (s : SuperAgent) : SuperAgent :=
  mkSuperAgent (Url s) (Method s) (Header s) (TargetType s) x (Data s)
    (SliceData s) (FormData s) (QueryData s) (BounceToRawString s)
    (RawString s) (Proxy_url s) (Cookies s) (Errors s) (BasicAuth s) (Debug s)
    (CurlCommand s) (Transport_Dial s).
Definition with_Data (x : gmap string value) (s : SuperAgent) : SuperAgent :=
  mkSuperAgent (Url s) (Method s) (Header s) (TargetType s) (ForceType s) x
    (SliceData s) (FormData s) (QueryData s) (BounceToRawString s)
    (RawString s) (Proxy_url s) (Cookies s) (Errors s) (BasicAuth s) (Debug s)
    (CurlCommand s) (Transport_Dial s).
Definition with_SliceData (x : list value) (s : SuperAgent) : SuperAgent :=
  mkSuperAgent (Url s) (Method s) (Header s) (TargetType s) (ForceType s)
    (Data s) x (FormData s) (QueryData s) (BounceToRawString s)
    (RawString s) (Proxy_url s) (Cookies s) (Errors s) (BasicAuth s) (Debug s)
    (CurlCommand s) (Transport_Dial s).
Definition with_FormData (x : Values) (s : SuperAgent) : SuperAgent :=
  mkSuperAgent (Url s) (Method s) (Header s) (TargetType s) (ForceType s)
    (Data s) (SliceData s) x (QueryData s) (BounceToRawString s)
    (RawString s) (Proxy_url s) (Cookies s) (Errors s) (BasicAuth s) (Debug s)
    (CurlCommand s) (Transport_Dial s).
Definition with_QueryData (x : Values) (s : SuperAgent) : SuperAgent :=
  mkSuperAgent (Url s) (Method s) (Header s) (TargetType s) (ForceType s)
    (Data s) (SliceData s) (FormData s) x (BounceToRawString s)
    (RawString s) (Proxy_url s) (Cookies s) (Errors s) (BasicAuth s) (Debug s)
    (CurlCommand s) (Transport_Dial s).
Definition with_BounceToRawString (x : bool) (s : SuperAgent) : SuperAgent :=
  mkSuperAgent (Url s) (Method s) (Header s) (TargetType s) (ForceType s)
    (Data s) (SliceData s) (FormData s) (QueryData s) x
    (RawString s) (Proxy_url s) (Cookies s) (Errors s) (BasicAuth s) (Debug s)
    (CurlCommand s) (Transport_Dial s).
Definition with_RawString (x : string) (s : SuperAgent) : SuperAgent :=
  mkSuperAgent (Url s) (Method s) (Header s) (TargetType s) (ForceType s)
    (Data s) (SliceData s) (FormData s) (QueryData s) (BounceToRawString s)
    x (Proxy_url s) (Cookies s) (Errors s) (BasicAuth s) (Debug s)
    (CurlCommand s) (Transport_Dial s).
Definition with_Proxy_url (x : option string) (s : SuperAgent) : SuperAgent :=
  mkSuperAgent (Url s) (Method s) (Header s) (TargetType s) (ForceType s)
    (Data s) (SliceData s) (FormData s) (QueryData s) (BounceToRawString s)
    (RawString s) x (Cookies s) (Errors s) (BasicAuth s) (Debug s)
    (CurlCommand s) (Transport_Dial s).
Definition with_Cookies (x : list Cookie) (s : SuperAgent) : SuperAgent :=
  mkSuperAgent (Url s) (Method s) (Header s) (TargetType s) (ForceType s)
    (Data s) (SliceData s) (FormData s) (QueryData s) (BounceToRawString s)
    (RawString s) (Proxy_url s) x (Errors s) (BasicAuth s) (Debug s)
    (CurlCommand s) (Transport_Dial s).
Definition with_Errors (x : list error) (s : SuperAgent) : SuperAgent :=
  mkSuperAgent (Url s) (Method s) (Header s) (TargetType s) (ForceType s)
    (Data s) (SliceData s) (FormData s) (QueryData s) (BounceToRawString s)
    (RawString s) (Proxy_url s) (Cookies s) x (BasicAuth s) (Debug s)
    (CurlCommand s) (Transport_Dial s).
Definition with_BasicAuth (x : string * string) (s : SuperAgent) : SuperAgent :=
  mkSuperAgent (Url s) (Method s) (Header s) (TargetType s) (ForceType s)
    (Data s) (SliceData s) (FormData s) (QueryData s) (BounceToRawString s)
    (RawString s) (Proxy_url s) (Cookies s) (Errors s) x (Debug s)
    (CurlCommand s) (Transport_Dial s).
Definition with_Debug (x : bool) (s : SuperAgent) : SuperAgent :=
  mkSuperAgent (Url s) (Method s) (Header s) (TargetType s) (ForceType s)
    (Data s) (SliceData s) (FormData s) (QueryData s) (BounceToRawString s)
    (RawString s) (Proxy_url s) (Cookies s) (Errors s) (BasicAuth s) x
    (CurlCommand s) (Transport_Dial s).
Definition with_CurlCommand (x : bool) (s : SuperAgent) : SuperAgent :=
  mkSuperAgent (Url s) (Method s) (Header s) (TargetType s) (ForceType s)
    (Data s) (SliceData s) (FormData s) (QueryData s) (BounceToRawString s)
    (RawString s) (Proxy_url s) (Cookies s) (Errors s) (BasicAuth s) (Debug s)
    x (Transport_Dial s).

Definition with_Transport_Dial (x : option Z) (s : SuperAgent) : SuperAgent :=
  mkSuperAgent (Url s) (Method s) (Header s) (TargetType s) (ForceType s)
    (Data s) (SliceData s) (FormData s) (QueryData s) (BounceToRawString s)
    (RawString s) (Proxy_url s) (Cookies s) (Errors s) (BasicAuth s) (Debug s)
    (CurlCommand s) x.

(** [New()]. *)
Definition New : SuperAgent :=
  {| Url := EmptyString; Method := EmptyString; Header := ∅;
     TargetType := "json"; ForceType := EmptyString; Data := ∅;
     SliceData := []; FormData := ∅; QueryData := ∅;
     BounceToRawString := false; RawString := EmptyString;
     Proxy_url := None; Cookies := []; Errors := [];
     BasicAuth := (EmptyString, EmptyString); Debug := false;
     CurlCommand := false; Transport_Dial := None |}.

Definition SetDebug (enable : bool) (s : SuperAgent) : SuperAgent :=
  with_Debug enable s.

Definition SetCurlCommand (enable : bool) (s : SuperAgent) : SuperAgent :=
  with_CurlCommand enable s.

(** [ClearSuperAgent]: thirteen assignments, in the order of the source. *)
Definition ClearSuperAgent (s : SuperAgent) : SuperAgent :=
  let s := with_Url EmptyString s in
  let s := with_Method EmptyString s in
  let s := with_Header ∅ s in
  let s := with_Data ∅ s in
  let s := with_SliceData [] s in
  let s := with_FormData ∅ s in
  let s := with_QueryData ∅ s in
  let s := with_BounceToRawString false s in
  let s := with_RawString EmptyString s in
  let s := with_ForceType EmptyString s in
  let s := with_TargetType "json" s in
  let s := with_Cookies [] s in
  with_Errors [] s.

(** The body shared by the seven verb methods and by the default case of
    [CustomMethod]. *)
Definition setVerb (method targetUrl : string) (s : SuperAgent) : SuperAgent :=
  let s := ClearSuperAgent s in
  let s := with_Method method s in
  let s := with_Url targetUrl s in
  with_Errors [] s.

Definition Get (targetUrl : string) := setVerb GET targetUrl.
Definition Post (targetUrl : string) := setVerb POST targetUrl.
Definition Head (targetUrl : string) := setVerb HEAD targetUrl.
Definition Put (targetUrl : string) := setVerb PUT targetUrl.
Definition Delete (targetUrl : string) := setVerb DELETE targetUrl.
Definition Patch (targetUrl : string) := setVerb PATCH targetUrl.
Definition Options (targetUrl : string) := setVerb OPTIONS targetUrl.

Definition CustomMethod (method targetUrl : string) (s : SuperAgent) : SuperAgent :=
  if decide (method = POST) then Post targetUrl s
  else if decide (method = GET) then Get targetUrl s
  else if decide (method = HEAD) then Head targetUrl s
  else if decide (method = PUT) then Put targetUrl s
  else if decide (method = DELETE) then Delete targetUrl s
  else if decide (method = PATCH) then Patch targetUrl s
  else if decide (method = OPTIONS) then Options targetUrl s
  else setVerb method targetUrl s.

Definition Set_ (param val : string) (s : SuperAgent) : SuperAgent :=
  with_Header (<[param := val]> (Header s)) s.

Definition SetBasicAuth (username password : string) (s : SuperAgent) : SuperAgent :=
  with_BasicAuth (username, password) s.

Definition AddCookie (c : Cookie) (s : SuperAgent) : SuperAgent :=
  with_Cookies (Cookies s ++ [c]) s.

Definition AddCookies (cookies : list Cookie) (s : SuperAgent) : SuperAgent :=
  with_Cookies (Cookies s ++ cookies) s.

(** The package variable [Types], entry by entry. *)
Definition Types_entries : list (string * string) :=
  [ ("html", "text/html");
    ("json", "application/json");
    ("xml", "application/xml");
    ("text", "text/plain");
    ("urlencoded", "application/x-www-form-urlencoded");
    ("form", "application/x-www-form-urlencoded");
    ("form-data", "application/x-www-form-urlencoded") ].

Definition Types : gmap string string := list_to_map Types_entries.

(** The double quote, which the error message of [Type] contains. *)
Definition dquote : string := String (Ascii.ascii_of_nat 34) EmptyString.

Definition Type_ (typeStr : string) (s : SuperAgent) : SuperAgent :=
  match Types !! typeStr with
  | Some _ => with_ForceType typeStr s
  | None =>
      with_Errors
        (Errors s ++ ["Type func: incorrect type " +:+ dquote +:+ typeStr +:+ dquote]) s
  end.

Definition Param (key val : string) (s : SuperAgent) : SuperAgent :=
  with_QueryData (Values_Add key val (QueryData s)) s.

Definition SendSlice (content : list value) (s : SuperAgent) : SuperAgent :=
  with_SliceData (SliceData s ++ content) s.

(** [Timeout]: the closure is stored in [s.Transport.Dial]; what it does
    when a dial fails is in [EndBytes], where [Client.Do] runs it. *)
Definition Timeout (timeout : Z) (s : SuperAgent) : SuperAgent :=
  with_Transport_Dial (Some timeout) s.

(** ** Requests, responses and what a dispatch does to the outside *)

(** The [*http.Request] that [MakeRequest] builds.  [Request_Body] is [None]
    for a nil body.  The header holds what [Header.Set] stored, one value per
    canonical key: the package adds no second value to a key.  The
    credentials of [req.SetBasicAuth] and the cookies of [req.AddCookie] are
    in the header, under Authorization and Cookie. *)
Record Request : Type := mkRequest {
  Request_Method : string;
  Request_URL : string;
  Request_Body : option string;
  Request_Header : gmap string string;
  Request_RawQuery : string
}.

Record Response : Type := mkResponse {
  Response_StatusCode : nat;
  Response_Body : string
}.

(** What a dispatch does besides returning: the two log lines of the debug
    mode, the curl line, the exchange on the network, the callback. *)
Inductive event : Type :=
  | EvDumpRequest (req : Request)
  | EvCurl (req : Request)
  | EvDo (req : Request)
  | EvDumpResponse (resp : Response)
  | EvCallback (resp : Response) (body : string) (errs : list error).

(** The requests that went to the network. *)
Definition network_io (evs : list event) : list Request :=
  omap (λ e, match e with EvDo req => Some req | _ => None end) evs.

(** The standard library, as far as the package calls it. *)
Class GoStd : Type := {
  (** The struct values handed to [Send] and [Query]. *)
  Struct : Type;
  (** [for k, v := range m]: the entries of [m] in the order drawn for the
      loop; one order for a map, see the head of the file. *)
  range : ∀ A : Type, gmap string A → list (string * A);
  (** encoding/json.  [json_Decode] is [Decoder.Decode] into an
      [interface{}] after [UseNumber]; [json_Unmarshal] is [json.Unmarshal]
      into an [interface{}]; the others are [json.Marshal] of a struct, of
      [Data] and of [SliceData]. *)
  json_Decode : string → res json;
  json_Unmarshal : string → res json;
  json_Marshal_struct : Struct → res string;
  json_Marshal_map : gmap string value → res string;
  json_Marshal_slice : list value → res string;
  (** net/url.  [url_ParseQuery] returns the map and the first error;
      [url_Parse] the error of [url.Parse]; [url_Query] the values of the
      query string of a URL (the method [Query] of [url.URL]);
      [Values_Encode] is [Values.Encode]. *)
  url_ParseQuery : string → Values * option error;
  url_Parse : string → option error;
  url_Query : string → Values;
  Values_Encode : Values → string;
  (** net/http: the error of [http.NewRequest method url], the canonical
      form of a header key ([Header.Set]), and [Client.Do].  [Client_Do]
      gives the result of the call and, before it, the errors of the dials
      that failed while it ran, in order: the transport hands each of them to
      its [Dial] hook when one is installed.  It stands for one call on the
      client as [New] made it; what the client itself adds to a request from
      its cookie jar is inside it. *)
  http_NewRequest : string → string → option error;
  canon : string → string;
  Client_Do : Request → list error * res Response;
  (** The three header names that the package passes to [Header.Set] and
      [Header.Get] itself are in canonical form already. *)
  canon_names :
    canon "Content-Type" = "Content-Type" ∧
    canon "Authorization" = "Authorization" ∧ canon "Cookie" = "Cookie";
  (** What [req.SetBasicAuth] and [req.AddCookie] call: the encoding of
      [base64.StdEncoding], and the two functions that clean the name and
      the value of a cookie. *)
  base64_EncodeToString : string → string;
  sanitizeCookieName : string → string;
  sanitizeCookieValue : string → string;
  strings_ToLower : string → string
}.

(** All that is assumed of [range]: it lists the entries of the map, each
    once, in some order. *)
Definition range_enumerates `{GoStd} : Prop :=
  ∀ (A : Type) (m : gmap string A), range A m ≡ₚ map_to_list m.

Section GoReq.

Context `{GoStd}.

(** The argument of [Send] and [Query], by its [reflect.Kind]. *)
Inductive content : Type :=
  | CString (str : string)
  | CStruct (x : Struct)
  | CSlice (l : list value)
  | COther.

(** Decoding into a [map[string]interface{}] variable: an object fills the
    map, null leaves it nil, anything else is an UnmarshalTypeError. *)
Definition into_map (j : json) : res (gmap string value) :=
  match j with
  | JObject m => Ok (json_object_map m)
  | JNull => Ok ∅
  | _ => Err "json: cannot unmarshal into Go value of type map[string]interface {}"
  end.

(** Decoding into a [map[string]string] variable: every value must be a
    string (or null, which stores the empty string). *)
Definition into_string_map (j : json) : res (gmap string string) :=
  match j with
  | JObject m =>
      foldl (λ acc kv,
        match acc, kv.2 with
        | Ok r, JString v => Ok (<[kv.1 := v]> r)
        | Ok r, JNull => Ok (<[kv.1 := EmptyString]> r)
        | Ok _, _ => Err "json: cannot unmarshal into Go value of type string"
        | Err e, _ => Err e
        end) (Ok ∅) m
  | JNull => Ok ∅
  | _ => Err "json: cannot unmarshal into Go value of type map[string]string"
  end.

(** One round of the loop of [queryStruct]; [v.(string)] panics when [v] is
    no string. *)
Definition queryStruct_round (s : SuperAgent) (kv : string * value) : outcome SuperAgent :=
  let k := strings_ToLower kv.1 in
  match kv.2 with
  | VString v => Returned (with_QueryData (Values_Add k v (QueryData s)) s)
  | _ => Panicked
  end.

Definition queryStruct (x : Struct) (s : SuperAgent) : outcome SuperAgent :=
  match json_Marshal_struct x with
  | Err err => Returned (with_Errors (Errors s ++ [err]) s)
  | Ok marshalContent =>
      match json_Unmarshal marshalContent with
      | Err err => Returned (with_Errors (Errors s ++ [err]) s)
      | Ok j =>
          match into_map j with
          | Err err => Returned (with_Errors (Errors s ++ [err]) s)
          | Ok val =>
              foldl (λ acc kv, obind acc (λ s, queryStruct_round s kv))
                (Returned s) (range _ val)
          end
      end
  end.

Definition queryString (str : string) (s : SuperAgent) : SuperAgent :=
  match match json_Unmarshal str with Ok j => into_string_map j | Err e => Err e end with
  | Ok val =>
      foldl (λ s kv, with_QueryData (Values_Add kv.1 kv.2 (QueryData s)) s) s (range _ val)
  | Err _ =>
      match url_ParseQuery str with
      | (queryVal, None) =>
          foldl (λ s kv, with_QueryData (Values_Add kv.1 (Values_Get queryVal kv.1) (QueryData s)) s)
            s (range _ queryVal)
      | (_, Some err) => with_Errors (Errors s ++ [err]) s
      end
  end.

Definition Query (c : content) (s : SuperAgent) : outcome SuperAgent :=
  match c with
  | CString str => Returned (queryString str s)
  | CStruct x => queryStruct x s
  | _ => Returned s
  end.

Definition Proxy (proxyUrl : string) (s : SuperAgent) : SuperAgent :=
  match url_Parse proxyUrl with
  | Some err => with_Errors (Errors s ++ [err]) s
  | None =>
      if decide (proxyUrl = EmptyString) then with_Proxy_url None s
      else with_Proxy_url (Some proxyUrl) s
  end.

Definition SendStruct (x : Struct) (s : SuperAgent) : SuperAgent :=
  match json_Marshal_struct x with
  | Err err => with_Errors (Errors s ++ [err]) s
  | Ok marshalContent =>
      match match json_Decode marshalContent with Ok j => into_map j | Err e => Err e end with
      | Err err => with_Errors (Errors s ++ [err]) s
      | Ok val =>
          with_Data (foldl (λ d kv, <[kv.1 := kv.2]> d) (Data s) (range _ val)) s
      end
  end.

(** One round of the loop of the form branch of [SendString]: key [k] of the
    parsed form [formVal] goes into [data]. *)
Definition merge_form_key (formVal : Values) (data : gmap string value) (k : string)
    : gmap string value :=
  match data !! k with
  | Some val =>
      let strArray := [Values_Get formVal k] in
      let strArray :=
        match val with
        | VStrings oldValue => strArray ++ oldValue
        | VString oldValue => strArray ++ [oldValue]
        | _ => strArray
        end in
      <[k := VStrings strArray]> data
  | None => <[k := VString (Values_Get formVal k)]> data
  end.

(** The value that the form branch stores under a key: [new] is the value
    sent, [old] what [Data] held. *)
Definition merged_value (new : string) (old : option value) : value :=
  match old with
  | None => VString new
  | Some (VString oldValue) => VStrings [new; oldValue]
  | Some (VStrings oldValue) => VStrings (new :: oldValue)
  | Some _ => VStrings [new]
  end.

(** A decoded value that is neither an object nor an array. *)
Definition is_scalar (j : json) : Prop :=
  match j with
  | JObject _ | JArray _ => False
  | _ => True
  end.

Definition SendString (str : string) (s : SuperAgent) : SuperAgent :=
  let s :=
    if BounceToRawString s then s
    else
      match json_Decode str with
      | Ok val =>
          match val with
          | JObject m =>
              with_Data
                (foldl (λ d kv, <[kv.1 := kv.2]> d) (Data s) (range _ (json_object_map m))) s
          | JArray l => SendSlice (map of_json l) s
          | _ => with_BounceToRawString true s
          end
      | Err _ =>
          match url_ParseQuery str with
          | (formVal, None) =>
              let s :=
                with_Data
                  (foldl (merge_form_key formVal) (Data s) (range _ formVal).*1) s in
              with_TargetType "form" s
          | (_, Some _) => with_BounceToRawString true s
          end
      end in
  with_RawString (RawString s +:+ str) s.

Definition Send (c : content) (s : SuperAgent) : SuperAgent :=
  match c with
  | CString str => SendString str s
  | CStruct x => SendStruct x s
  | CSlice l => SendSlice l s
  | COther => s
  end.

(** [changeMapToURLValues]. *)
Definition changeMapToURLValues (data : gmap string value) : Values :=
  foldl (λ newUrlValues kv,
    match kv.2 with
    | VString val => Values_Add kv.1 val newUrlValues
    | VStrings val => foldl (λ acc element, Values_Add kv.1 element acc) newUrlValues val
    | VNumber val => Values_Add kv.1 val newUrlValues
    | _ => newUrlValues
    end) ∅ (range _ data).

(** ** Materialization and dispatch *)

(** [req.Header.Set(k, v)]. *)
Definition Header_Set (k v : string) (h : gmap string string) : gmap string string :=
  <[canon k := v]> h.

(** [http.NewRequest(method, url, body)]. *)
Definition NewRequest (method url : string) (body : option string) : res Request :=
  match http_NewRequest method url with
  | Some err => Err err
  | None =>
      Ok {| Request_Method := method; Request_URL := url; Request_Body := body;
            Request_Header := ∅; Request_RawQuery := Values_Encode (url_Query url) |}
  end.

Definition with_Request_Header (h : gmap string string) (req : Request) : Request :=
  mkRequest (Request_Method req) (Request_URL req) (Request_Body req) h
    (Request_RawQuery req).

(** [req.Header.Get(k)]: the empty string when the key has no value. *)
Definition Header_Get (k : string) (h : gmap string string) : string :=
  default EmptyString (h !! canon k).

(** [req.SetBasicAuth(username, password)], on the header. *)
Definition Request_SetBasicAuth (username password : string) (h : gmap string string)
    : gmap string string :=
  Header_Set "Authorization"
    ("Basic " +:+ base64_EncodeToString (username +:+ ":" +:+ password)) h.

(** The text of one cookie in the Cookie header. *)
Definition cookie_pair (c : Cookie) : string :=
  sanitizeCookieName (Cookie_Name c) +:+ "=" +:+ sanitizeCookieValue (Cookie_Value c).

(** [req.AddCookie(c)], on the header: the cookie goes after what the Cookie
    header holds, with a semicolon between them. *)
Definition Request_AddCookie (c : Cookie) (h : gmap string string) : gmap string string :=
  let s := cookie_pair c in
  let c := Header_Get "Cookie" h in
  if decide (c ≠ EmptyString) then Header_Set "Cookie" (c +:+ "; " +:+ s) h
  else Header_Set "Cookie" s h.

(** [MakeRequest], lines 797 to 800: the credentials, unless both are
    empty. *)
Definition with_credentials (auth : string * string) (h : gmap string string)
    : gmap string string :=
  if decide (auth ≠ (EmptyString, EmptyString)) then Request_SetBasicAuth auth.1 auth.2 h
  else h.

(** The bytes of a [json.Marshal] whose error is dropped: nil on failure. *)
Definition bytes_of (r : res string) : string :=
  match r with
  | Ok b => b
  | Err _ => EmptyString
  end.

(** The [switch s.Method] of [MakeRequest].  [Returned (Ok None)] is the nil
    request that the empty last [else] leaves behind. *)
Definition MakeRequest_switch (s : SuperAgent) : outcome (res (option Request)) :=
  if bool_decide (Method s ∈ [POST; PUT; PATCH]) then
    if decide (TargetType s = "json") then
      let contentJson :=
        if BounceToRawString s then RawString s
        else if bool_decide (Data s ≠ ∅) then bytes_of (json_Marshal_map (Data s))
        else if bool_decide (SliceData s ≠ []) then bytes_of (json_Marshal_slice (SliceData s))
        else EmptyString in
      match NewRequest (Method s) (Url s) (Some contentJson) with
      | Err err => Returned (Err err)
      | Ok req =>
          Returned (Ok (Some
            (with_Request_Header (Header_Set "Content-Type" "application/json" (Request_Header req)) req)))
      end
    else if decide (TargetType s = "form") then
      let contentForm :=
        if BounceToRawString s || bool_decide (SliceData s ≠ []) then RawString s
        else Values_Encode (changeMapToURLValues (Data s)) in
      match NewRequest (Method s) (Url s) (Some contentForm) with
      | Err err => Returned (Err err)
      | Ok req =>
          Returned (Ok (Some
            (with_Request_Header
               (Header_Set "Content-Type" "application/x-www-form-urlencoded" (Request_Header req)) req)))
      end
    else if decide (TargetType s = "text") then
      match NewRequest (Method s) (Url s) (Some (RawString s)) with
      | Err _ => Panicked (* req is nil, err is not looked at *)
      | Ok req =>
          Returned (Ok (Some
            (with_Request_Header (Header_Set "Content-Type" "text/plain" (Request_Header req)) req)))
      end
    else if decide (TargetType s = "xml") then
      match NewRequest (Method s) (Url s) (Some (RawString s)) with
      | Err _ => Panicked
      | Ok req =>
          Returned (Ok (Some
            (with_Request_Header (Header_Set "Content-Type" "application/xml" (Request_Header req)) req)))
      end
    else Returned (Ok None)
  else if decide (Method s = EmptyString) then Returned (Err "No method specified")
  else
    match NewRequest (Method s) (Url s) None with
    | Err err => Returned (Err err)
    | Ok req => Returned (Ok (Some req))
    end.

(** What follows the switch: headers, query string, credentials, cookies. *)
Definition MakeRequest_finish (s : SuperAgent) (req : Request) : Request :=
  let header :=
    foldl (λ h kv, Header_Set kv.1 kv.2 h) (Request_Header req) (range _ (Header s)) in
  let q :=
    foldl (λ q kv, foldl (λ q vv, Values_Add kv.1 vv q) q kv.2)
      (url_Query (Request_URL req)) (range _ (QueryData s)) in
  let header := with_credentials (BasicAuth s) header in
  let header := foldl (λ h cookie, Request_AddCookie cookie h) header (Cookies s) in
  {| Request_Method := Request_Method req; Request_URL := Request_URL req;
     Request_Body := Request_Body req; Request_Header := header;
     Request_RawQuery := Values_Encode q |}.

Definition MakeRequest (s : SuperAgent) : outcome (res Request) :=
  match MakeRequest_switch s with
  | Panicked => Panicked
  | Returned (Err err) => Returned (Err err)
  | Returned (Ok None) => Panicked (* req.Header of a nil req *)
  | Returned (Ok (Some req)) => Returned (Ok (MakeRequest_finish s req))
  end.

(** [EndBytes], lines 645 to 657: the forced type, else the Content-Type
    header looked up in [Types]. *)
Definition resolveTargetType (s : SuperAgent) : SuperAgent :=
  if bool_decide (ForceType s ∈ ["json"; "form"; "xml"; "text"]) then
    with_TargetType (ForceType s) s
  else
    foldl (λ s kv,
      if decide (default EmptyString (Header s !! "Content-Type") = kv.2)
      then with_TargetType kv.1 s else s) s (range _ Types).

(** [EndBytes], lines 659 to 662. *)
Definition bounceMixed (s : SuperAgent) : SuperAgent :=
  if bool_decide (Data s ≠ ∅) && bool_decide (SliceData s ≠ []) then
    with_BounceToRawString true s
  else s.

(** The builder that [EndBytes] hands to [MakeRequest]. *)
Definition prepared (s : SuperAgent) : SuperAgent := bounceMixed (resolveTargetType s).

(** What [EndBytes] leaves: the builder, what happened outside, and the three
    returned values (a nil response and a nil body are [None]). *)
Record dispatched : Type := mkDispatched {
  after : SuperAgent;
  events : list event;
  resp_ret : option Response;
  body_ret : option string;
  errs_ret : list error
}.

(** The closure of [Timeout], lines 371 to 379, run by the transport for
    the dials of one [Client.Do]: it appends the error of every failed dial
    to [s.Errors].  Without [Timeout] there is no hook.  ([EndBytes] hands
    [s.Transport] to the client: the package variable [DisableTransportSwap]
    is taken at its initial value.) *)
Definition dial_hook (dialed : list error) (s : SuperAgent) : SuperAgent :=
  match Transport_Dial s with
  | Some _ => foldl (λ s err, with_Errors (Errors s ++ [err]) s) s dialed
  | None => s
  end.

(** The failed dials that the builder gets to see: all of them with the
    hook of [Timeout], none without. *)
Definition seen_by_hook (dialed : list error) (s : SuperAgent) : list error :=
  match Transport_Dial s with
  | Some _ => dialed
  | None => []
  end.

Definition EndBytes (callback : bool) (s : SuperAgent) : outcome dispatched :=
  if bool_decide (Errors s ≠ []) then
    Returned (mkDispatched s [] None None (Errors s))
  else
    let s := resolveTargetType s in
    let s := bounceMixed s in
    match MakeRequest s with
    | Panicked => Panicked
    | Returned (Err err) =>
        let s := with_Errors (Errors s ++ [err]) s in
        Returned (mkDispatched s [] None None (Errors s))
    | Returned (Ok req) =>
        let evs := if Debug s then [EvDumpRequest req] else [] in
        let evs := if CurlCommand s then evs ++ [EvCurl req] else evs in
        let evs := evs ++ [EvDo req] in
        let '(dialed, result) := Client_Do req in
        let s := dial_hook dialed s in
        match result with
        | Err err =>
            let s := with_Errors (Errors s ++ [err]) s in
            Returned (mkDispatched s evs None None (Errors s))
        | Ok resp =>
            let evs := if Debug s then evs ++ [EvDumpResponse resp] else evs in
            let body := Response_Body resp in
            let evs :=
              if callback then evs ++ [EvCallback resp body (Errors s)] else evs in
            Returned (mkDispatched s evs (Some resp) (Some body) [])
        end
    end.

(** [End]: the body as a string, the empty string for a nil body. *)
Definition End (callback : bool) (s : SuperAgent)
    : outcome (SuperAgent * list event * (option Response * string * list error)) :=
  obind (EndBytes callback s) (λ d,
    Returned (after d, events d, (resp_ret d, default EmptyString (body_ret d), errs_ret d))).

(** ** Chains of configuration calls *)

Inductive op : Type :=
  | OSetDebug (enable : bool)
  | OSetCurlCommand (enable : bool)
  | OSet (param val : string)
  | OSetBasicAuth (username password : string)
  | OAddCookie (c : Cookie)
  | OAddCookies (cookies : list Cookie)
  | OType (typeStr : string)
  | OQuery (c : content)
  | OParam (key val : string)
  | OProxy (proxyUrl : string)
  | OTimeout (timeout : Z)
  | OSend (c : content).

Definition step (o : op) (s : SuperAgent) : outcome SuperAgent :=
  match o with
  | OSetDebug b => Returned (SetDebug b s)
  | OSetCurlCommand b => Returned (SetCurlCommand b s)
  | OSet k v => Returned (Set_ k v s)
  | OSetBasicAuth u p => Returned (SetBasicAuth u p s)
  | OAddCookie c => Returned (AddCookie c s)
  | OAddCookies cs => Returned (AddCookies cs s)
  | OType t => Returned (Type_ t s)
  | OQuery c => Query c s
  | OParam k v => Returned (Param k v s)
  | OProxy u => Returned (Proxy u s)
  | OTimeout t => Returned (Timeout t s)
  | OSend c => Returned (Send c s)
  end.

(** A chain [s.op1(..).op2(..)...]. *)
Definition run (ops : list op) (s : SuperAgent) : outcome SuperAgent :=
  foldl (λ acc o, obind acc (step o)) (Returned s) ops.

(** The string arguments of the [Send] calls of a chain, in call order. *)
Definition sent_strings (ops : list op) : list string :=
  omap (λ o, match o with OSend (CString str) => Some str | _ => None end) ops.

(** A chain of [Send] calls with string arguments. *)
Definition send_all (strs : list string) (s : SuperAgent) : SuperAgent :=
  foldl (λ s str, Send (CString str) s) s strs.

(** The string a call of a chain appends to the raw string. *)
Definition appended (o : op) : string :=
  match o with
  | OSend (CString str) => str
  | _ => EmptyString
  end.

End GoReq.

(** The strings of [l], one after the other. *)
Definition concat_all (l : list string) : string := foldr String.append EmptyString l.

(** [s'] has the body of [s]: both bodies, the raw string and its flag, the
    target type, and the method and URL. *)
Definition same_body (s s' : SuperAgent) : Prop :=
  Method s' = Method s ∧ Url s' = Url s ∧ RawString s' = RawString s ∧
  BounceToRawString s' = BounceToRawString s ∧ Data s' = Data s ∧
  SliceData s' = SliceData s ∧ TargetType s' = TargetType s.

(** * Reference models of the standard library

    Executable models of the library functions of [GoStd], written from the
    documented behaviour of Go's encoding/json, net/url and net/http, for
    byte strings that are valid UTF-8.  They serve to run the builder on
    concrete inputs; no theorem about the builder depends on them. *)
Module Std.

Definition code (c : ascii) : N := N_of_ascii c.

Definition between (lo hi : N) (c : ascii) : bool :=
  ((lo <=? code c) && (code c <=? hi))%N.

Definition is_digit : ascii → bool := between 48 57.
Definition is_upper : ascii → bool := between 65 90.
Definition is_lower : ascii → bool := between 97 122.
Definition is_alnum (c : ascii) : bool := is_digit c || is_upper c || is_lower c.

Definition is_one_of (set : string) (c : ascii) : bool :=
  bool_decide (c ∈ list_ascii_of_string set).

(** The four white space bytes of JSON. *)
Definition is_space (c : ascii) : bool :=
  bool_decide (code c ∈ [32; 9; 13; 10]%N).

Fixpoint skip_space (s : string) : string :=
  match s with
  | String c r => if is_space c then skip_space r else s
  | EmptyString => s
  end.

Fixpoint all_chars (p : ascii → bool) (s : string) : bool :=
  match s with
  | String c r => p c && all_chars p r
  | EmptyString => true
  end.

(** The longest prefix of digits, and what follows it. *)
Fixpoint digits (s : string) : string * string :=
  match s with
  | String c r =>
      if is_digit c then let '(d, r') := digits r in (String c d, r')
      else (EmptyString, s)
  | EmptyString => (EmptyString, s)
  end.

Definition hex_val (c : ascii) : option N :=
  if is_digit c then Some (code c - 48)%N
  else if between 97 102 c then Some (code c - 87)%N
  else if between 65 70 c then Some (code c - 55)%N
  else None.

Definition hex4 (a b c d : ascii) : option N :=
  x1 ← hex_val a; x2 ← hex_val b; x3 ← hex_val c; x4 ← hex_val d;
  Some (((x1 * 16 + x2) * 16 + x3) * 16 + x4)%N.

Definition byte (n : N) : string := String (ascii_of_N n) EmptyString.

(** UTF-8 of a code point. *)
Definition utf8 (r : N) : string :=
  if (r <? 128)%N then byte r
  else if (r <? 2048)%N then byte (192 + r / 64) +:+ byte (128 + r mod 64)
  else if (r <? 65536)%N then
    byte (224 + r / 4096) +:+ byte (128 + (r / 64) mod 64) +:+ byte (128 + r mod 64)
  else
    byte (240 + r / 262144) +:+ byte (128 + (r / 4096) mod 64)
      +:+ byte (128 + (r / 64) mod 64) +:+ byte (128 + r mod 64).

Definition is_surrogate (r : N) : bool := ((55296 <=? r) && (r <? 57344))%N.

(** The rest of a string literal after its opening quote: the unquoted
    text and what follows the closing quote.  A lone surrogate escape decodes
    to U+FFFD. *)
Fixpoint string_body (s : string) : option (string * string) :=
  match s with
  | EmptyString => None
  | String c r =>
      if decide (code c = 34%N) then Some (EmptyString, r)
      else if decide (code c = 92%N) then
        match r with
        | String e r1 =>
            let simple (x : N) :=
              '(body, rest) ← string_body r1; Some (byte x +:+ body, rest) in
            if is_one_of "u" e then
              match r1 with
              | String h1 (String h2 (String h3 (String h4 r2))) =>
                  hi ← hex4 h1 h2 h3 h4;
                  if is_surrogate hi then
                    match r2 with
                    | String b (String u (String l1 (String l2 (String l3 (String l4 r3))))) =>
                        let low :=
                          if bool_decide (code b = 92%N) && is_one_of "u" u
                          then hex4 l1 l2 l3 l4 else None in
                        match low with
                        | Some lo =>
                            if ((hi <? 56320) && (56320 <=? lo) && (lo <? 57344))%N then
                              '(body, rest) ← string_body r3;
                              Some (utf8 (65536 + (hi - 55296) * 1024 + (lo - 56320)) +:+ body, rest)
                            else
                              '(body, rest) ← string_body r2; Some (utf8 65533 +:+ body, rest)
                        | None =>
                            '(body, rest) ← string_body r2; Some (utf8 65533 +:+ body, rest)
                        end
                    | _ => '(body, rest) ← string_body r2; Some (utf8 65533 +:+ body, rest)
                    end
                  else '(body, rest) ← string_body r2; Some (utf8 hi +:+ body, rest)
              | _ => None
              end
            else if is_one_of "b" e then simple 8%N
            else if is_one_of "f" e then simple 12%N
            else if is_one_of "n" e then simple 10%N
            else if is_one_of "r" e then simple 13%N
            else if is_one_of "t" e then simple 9%N
            else if is_one_of "/" e then simple 47%N
            else if decide (code e = 92%N) then simple 92%N
            else if decide (code e = 34%N) then simple 34%N
            else None
        | EmptyString => None
        end
      else if (code c <? 32)%N then None
      else '(body, rest) ← string_body r; Some (String c body, rest)
  end.

(** A number literal at the head of [s]: an optional minus sign; a zero, or
    digits that start with no zero; then maybe a dot and digits; then maybe
    e or E, a sign, and digits. *)
Definition number (s : string) : option (string * string) :=
  let '(sign, s) :=
    match s with
    | String c r => if is_one_of "-" c then ("-", r) else (EmptyString, s)
    | EmptyString => (EmptyString, s)
    end in
  '(int, s) ←
    match s with
    | String c r =>
        if is_one_of "0" c then Some ("0", r)
        else if is_digit c then let '(d, r') := digits r in Some (String c d, r')
        else None
    | EmptyString => None
    end;
  '(frac, s) ←
    match s with
    | String c r =>
        if is_one_of "." c then
          let '(d, r') := digits r in
          if decide (d = EmptyString) then None else Some ("." +:+ d, r')
        else Some (EmptyString, s)
    | EmptyString => Some (EmptyString, s)
    end;
  '(exp, s) ←
    match s with
    | String c r =>
        if is_one_of "eE" c then
          let '(sg, r) :=
            match r with
            | String c' r' =>
                if is_one_of "+-" c' then (String c' EmptyString, r') else (EmptyString, r)
            | EmptyString => (EmptyString, r)
            end in
          let '(d, r') := digits r in
          if decide (d = EmptyString) then None
          else Some (String c EmptyString +:+ sg +:+ d, r')
        else Some (EmptyString, s)
    | EmptyString => Some (EmptyString, s)
    end;
  Some (sign +:+ int +:+ frac +:+ exp, s).

(** [lit] at the head of [s]. *)
Fixpoint literal (lit s : string) : option string :=
  match lit, s with
  | EmptyString, _ => Some s
  | String a lit', String b s' => if decide (a = b) then literal lit' s' else None
  | _, EmptyString => None
  end.

(** One JSON value at the head of [s], after white space, and the rest of
    [s].  [elements] and [members] read what follows an opening bracket or
    brace; [first] tells that the closing one may come at once. *)
Fixpoint parse_value (fuel : nat) (s : string) : option (json * string) :=
  match fuel with
  | O => None
  | S fuel =>
      match skip_space s with
      | EmptyString => None
      | String c r =>
          if is_one_of "{" c then
            '(m, rest) ← members fuel true r; Some (JObject m, rest)
          else if is_one_of "[" c then
            '(l, rest) ← elements fuel true r; Some (JArray l, rest)
          else if bool_decide (code c = 34%N) then
            '(str, rest) ← string_body r; Some (JString str, rest)
          else if is_one_of "t" c then
            rest ← literal "true" (String c r); Some (JBool true, rest)
          else if is_one_of "f" c then
            rest ← literal "false" (String c r); Some (JBool false, rest)
          else if is_one_of "n" c then
            rest ← literal "null" (String c r); Some (JNull, rest)
          else
            '(n, rest) ← number (String c r); Some (JNumber n, rest)
      end
  end
with elements (fuel : nat) (first : bool) (s : string) : option (list json * string) :=
  match fuel with
  | O => None
  | S fuel =>
      let item (s : string) :=
        '(v, rest) ← parse_value fuel s;
        match skip_space rest with
        | String c r =>
            if is_one_of "]" c then Some ([v], r)
            else if is_one_of "," c then
              '(l, rest') ← elements fuel false r; Some (v :: l, rest')
            else None
        | EmptyString => None
        end in
      match skip_space s with
      | String c r => if first && is_one_of "]" c then Some ([], r) else item s
      | EmptyString => None
      end
  end
with members (fuel : nat) (first : bool) (s : string)
    : option (list (string * json) * string) :=
  match fuel with
  | O => None
  | S fuel =>
      let item (s : string) :=
        match skip_space s with
        | String q r =>
            if bool_decide (code q = 34%N) then
              '(k, rest) ← string_body r;
              match skip_space rest with
              | String c r =>
                  if is_one_of ":" c then
                    '(v, rest) ← parse_value fuel r;
                    match skip_space rest with
                    | String c r =>
                        if is_one_of "}" c then Some ([(k, v)], r)
                        else if is_one_of "," c then
                          '(m, rest') ← members fuel false r; Some ((k, v) :: m, rest')
                        else None
                    | EmptyString => None
                    end
                  else None
              | EmptyString => None
              end
            else None
        | EmptyString => None
        end in
      match skip_space s with
      | String c r => if first && is_one_of "}" c then Some ([], r) else item s
      | EmptyString => None
      end
  end.

(** The entries of the Go map of an object: of two entries with one key the
    later one stays. *)
Fixpoint last_wins {A : Type} (m : list (string * A)) : list (string * A) :=
  match m with
  | [] => []
  | kv :: m' =>
      if bool_decide (kv.1 ∈ m'.*1) then last_wins m' else kv :: last_wins m'
  end.

Fixpoint go_maps (j : json) : json :=
  match j with
  | JArray l => JArray (map go_maps l)
  | JObject m => JObject (last_wins (map (λ kv, (kv.1, go_maps kv.2)) m))
  | _ => j
  end.

(** [Decoder.Decode] after [UseNumber]: the first value of the input, what
    follows it is not looked at. *)
Definition json_Decode (s : string) : res json :=
  let fuel := 2 * String.length s + 2 in
  match parse_value fuel s with
  | Some (j, _) => Ok (go_maps j)
  | None =>
      if decide (skip_space s = EmptyString) then Err "EOF"
      else Err "invalid character in JSON input"
  end.

(** [json.Unmarshal]: the input is one value and white space. *)
Definition json_Unmarshal (s : string) : res json :=
  let fuel := 2 * String.length s + 2 in
  match parse_value fuel s with
  | Some (j, rest) =>
      if decide (skip_space rest = EmptyString) then Ok (go_maps j)
      else Err "invalid character after top-level value"
  | None => Err "unexpected end of JSON input"
  end.

(** *** Writing JSON *)

Definition hex_digit (upper : bool) (n : N) : ascii :=
  if (n <? 10)%N then ascii_of_N (48 + n)
  else ascii_of_N ((if upper then 55 else 87) + n).

Definition hex2 (upper : bool) (c : ascii) : string :=
  String (hex_digit upper (code c / 16)) (String (hex_digit upper (code c mod 16)) EmptyString).

Definition backslash : string := byte 92.

(** One byte of a string as [json.Marshal] writes it (with its HTML
    escaping): the quote and the backslash take a backslash, control bytes
    and the three bytes less-than, greater-than and ampersand are written by
    their code. *)
Definition escaped_byte (c : ascii) : string :=
  if bool_decide (code c ∈ [34; 92]%N) then backslash +:+ String c EmptyString
  else if bool_decide (code c = 8%N) then backslash +:+ "b"
  else if bool_decide (code c = 12%N) then backslash +:+ "f"
  else if bool_decide (code c = 10%N) then backslash +:+ "n"
  else if bool_decide (code c = 13%N) then backslash +:+ "r"
  else if bool_decide (code c = 9%N) then backslash +:+ "t"
  else if (code c <? 32)%N || is_one_of "<>&" c then backslash +:+ "u00" +:+ hex2 false c
  else String c EmptyString.

(** The text of a string between its quotes; U+2028 and U+2029 (three bytes
    each) are written by their code as well. *)
Fixpoint escaped (s : string) : string :=
  match s with
  | EmptyString => EmptyString
  | String c r =>
      match r with
      | String c2 (String c3 r') =>
          if bool_decide (code c = 226%N) && bool_decide (code c2 = 128%N)
             && bool_decide (code c3 ∈ [168; 169]%N)
          then
            backslash +:+ "u202" +:+ (if bool_decide (code c3 = 168%N) then "8" else "9")
              +:+ escaped r'
          else escaped_byte c +:+ escaped r
      | _ => escaped_byte c +:+ escaped r
      end
  end.

Definition quoted (s : string) : string := dquote +:+ escaped s +:+ dquote.

(** [sep] between the strings of [l]. *)
Fixpoint join (sep : string) (l : list string) : string :=
  match l with
  | [] => EmptyString
  | [x] => x
  | x :: l' => x +:+ sep +:+ join sep l'
  end.

Fixpoint insert_by_key {A : Type} (kv : string * A) (l : list (string * A))
    : list (string * A) :=
  match l with
  | [] => [kv]
  | x :: l' => if String.leb kv.1 x.1 then kv :: l else x :: insert_by_key kv l'
  end.

(** The entries in the byte order of their keys. *)
Definition sort_by_key {A : Type} (l : list (string * A)) : list (string * A) :=
  foldr insert_by_key [] l.

Definition member (kv : string * string) : string := quoted kv.1 +:+ ":" +:+ kv.2.

(** [json.Marshal] of a value.  The members of an object are written in the
    order of their keys. *)
Fixpoint marshal (v : value) : res string :=
  match v with
  | VNil => Ok "null"
  | VBool b => Ok (if b then "true" else "false")
  | VNumber n =>
      let n := if decide (n = EmptyString) then "0" else n in
      match number n with
      | Some (_, EmptyString) => Ok n
      | _ => Err "json: invalid number literal"
      end
  | VString s => Ok (quoted s)
  | VStrings l => Ok ("[" +:+ join "," (map quoted l) +:+ "]")
  | VSlice l =>
      match
        (fix items (l : list value) : res (list string) :=
           match l with
           | [] => Ok []
           | x :: l' =>
               match marshal x, items l' with
               | Ok a, Ok b => Ok (a :: b)
               | Err e, _ => Err e
               | _, Err e => Err e
               end
           end) l
      with
      | Ok strs => Ok ("[" +:+ join "," strs +:+ "]")
      | Err e => Err e
      end
  | VMap m =>
      match
        (fix entries (m : list (string * value)) : res (list (string * string)) :=
           match m with
           | [] => Ok []
           | kv :: m' =>
               match marshal kv.2, entries m' with
               | Ok a, Ok b => Ok ((kv.1, a) :: b)
               | Err e, _ => Err e
               | _, Err e => Err e
               end
           end) m
      with
      | Ok kvs => Ok ("{" +:+ join "," (map member (sort_by_key kvs)) +:+ "}")
      | Err e => Err e
      end
  end.

Definition json_Marshal_map (data : gmap string value) : res string :=
  marshal (VMap (map_to_list data)).

Definition json_Marshal_slice (l : list value) : res string :=
  marshal (VSlice l).

(** A struct value, by its exported fields in the order of their
    declaration, each with the name it has in JSON. *)
Definition Struct : Type := list (string * value).

Definition json_Marshal_struct (x : Struct) : res string :=
  match
    (fix fields (m : list (string * value)) : res (list string) :=
       match m with
       | [] => Ok []
       | kv :: m' =>
           match marshal kv.2, fields m' with
           | Ok a, Ok b => Ok (member (kv.1, a) :: b)
           | Err e, _ => Err e
           | _, Err e => Err e
           end
       end) x
  with
  | Ok strs => Ok ("{" +:+ join "," strs +:+ "}")
  | Err e => Err e
  end.

(** *** net/url *)

(** The pieces of [s] between the occurrences of [sep]. *)
Fixpoint split_on (sep : ascii) (s : string) : list string :=
  match s with
  | EmptyString => [EmptyString]
  | String c r =>
      if decide (c = sep) then EmptyString :: split_on sep r
      else
        match split_on sep r with
        | x :: l => String c x :: l
        | [] => [String c EmptyString]
        end
  end.

(** [strings.Cut(s, sep)], without its third result. *)
Fixpoint cut (sep : ascii) (s : string) : string * string :=
  match s with
  | EmptyString => (EmptyString, EmptyString)
  | String c r =>
      if decide (c = sep) then (EmptyString, r)
      else let '(a, b) := cut sep r in (String c a, b)
  end.

(** [url.QueryUnescape]: [None] for a percent sign that two hexadecimal
    digits do not follow. *)
Fixpoint QueryUnescape (s : string) : option string :=
  match s with
  | EmptyString => Some EmptyString
  | String c r =>
      if is_one_of "%" c then
        match r with
        | String a (String b r') =>
            x ← hex_val a; y ← hex_val b; u ← QueryUnescape r';
            Some (byte (16 * x + y) +:+ u)
        | _ => None
        end
      else
        u ← QueryUnescape r;
        Some (String (if is_one_of "+" c then " "%char else c) u)
  end.

(** [url.ParseQuery] (Go 1.17 and later, where a semicolon is an error). *)
Definition url_ParseQuery (query : string) : Values * option error :=
  foldl (λ '(m, err) key,
    if bool_decide (";"%char ∈ list_ascii_of_string key) then
      (m, Some "invalid semicolon separator in query")
    else if decide (key = EmptyString) then (m, err)
    else
      let '(key, val) := cut "=" key in
      match QueryUnescape key, QueryUnescape val with
      | Some key, Some val => (Values_Add key val m, err)
      | _, _ => (m, Some (default "invalid URL escape" err))
      end) (∅, None) (split_on "&" query).

Definition is_unreserved (c : ascii) : bool := is_alnum c || is_one_of "-_.~" c.

(** [url.QueryEscape]. *)
Fixpoint QueryEscape (s : string) : string :=
  match s with
  | EmptyString => EmptyString
  | String c r =>
      (if is_unreserved c then String c EmptyString
       else if is_one_of " " c then "+"
       else "%" +:+ hex2 true c) +:+ QueryEscape r
  end.

(** [Values.Encode]: the keys in byte order, each value of a key in turn. *)
Definition Values_Encode (v : Values) : string :=
  join "&"
    (concat (map (λ kv, map (λ val, QueryEscape kv.1 +:+ "=" +:+ QueryEscape val) kv.2)
       (sort_by_key (map_to_list v)))).

(** The longest prefix of bytes with [p], and what follows it. *)
Fixpoint span (p : ascii → bool) (s : string) : string * string :=
  match s with
  | String c r =>
      if p c then let '(a, b) := span p r in (String c a, b) else (EmptyString, s)
  | EmptyString => (EmptyString, s)
  end.

(** What may follow the scheme in the URLs accepted here: a host of letters,
    digits and the bytes [-._~], then maybe a colon and a port of digits,
    then maybe a path or a query, which starts with a slash or a question
    mark and holds letters, digits and the bytes [-._~/?=&,:;+@!$']. *)
Definition authority_and_path (rest : string) : bool :=
  let plain (r : string) :=
    match r with
    | EmptyString => true
    | String c _ =>
        is_one_of "/?" c &&
        all_chars (λ c, is_unreserved c || is_one_of "/?=&,:;+@!$'" c) r
    end in
  let '(host, r) := span is_unreserved rest in
  negb (bool_decide (host = EmptyString)) &&
  match r with
  | String c r' => if is_one_of ":" c then plain (digits r').2 else plain r
  | EmptyString => true
  end.

(** The error of [url.Parse], on a fragment of its domain only: the empty
    string, and http:// or https:// followed by what [authority_and_path]
    admits, are accepted, as [url.Parse] accepts them; a space in the host
    and a port that is no number are errors, as with [url.Parse]; every
    other string is reported as an error here, though [url.Parse] accepts
    many of them. *)
Definition url_Parse (rawurl : string) : option error :=
  let ok :=
    bool_decide (rawurl = EmptyString)
    || match literal "http://" rawurl with
       | Some rest => authority_and_path rest
       | None => false
       end
    || match literal "https://" rawurl with
       | Some rest => authority_and_path rest
       | None => false
       end in
  if ok then None else Some "parse: outside the modelled URLs".

(** The values of the query string of a URL: what follows the first
    question mark, parsed, with the error dropped. *)
Definition url_Query (rawurl : string) : Values :=
  (url_ParseQuery (cut "?" (cut "#" rawurl).1).2).1.

(** *** net/http and strings *)

(** The bytes of an HTTP token. *)
Definition is_token_byte (c : ascii) : bool :=
  is_alnum c || is_one_of "!#$%&'*+-.^_`|~" c.

(** The error of [http.NewRequest]: the method is a token and the URL
    parses. *)
Definition http_NewRequest (method rawurl : string) : option error :=
  if all_chars is_token_byte method && negb (bool_decide (method = EmptyString)) then
    url_Parse rawurl
  else Some "net/http: invalid method".

Definition to_upper (c : ascii) : ascii :=
  if is_lower c then ascii_of_N (code c - 32) else c.

Definition to_lower (c : ascii) : ascii :=
  if is_upper c then ascii_of_N (code c + 32) else c.

Fixpoint canon_from (upper : bool) (s : string) : string :=
  match s with
  | EmptyString => EmptyString
  | String c r =>
      String (if upper then to_upper c else to_lower c) (canon_from (is_one_of "-" c) r)
  end.

(** [textproto.CanonicalMIMEHeaderKey]: a key made of token bytes has its
    first letter and the letters after a hyphen in upper case and the others
    in lower case; any other key is left as it is. *)
Definition canon (key : string) : string :=
  if all_chars is_token_byte key then canon_from true key else key.

(** [strings.ToLower], for ASCII text. *)
Fixpoint strings_ToLower (s : string) : string :=
  match s with
  | EmptyString => EmptyString
  | String c r => String (to_lower c) (strings_ToLower r)
  end.

(** *** encoding/base64 and the cookies of net/http *)

Definition base64_alphabet : list ascii :=
  list_ascii_of_string
    "ABCDEFGHIJKLMNOPQRSTUVWXYZabcdefghijklmnopqrstuvwxyz0123456789+/".

Definition base64_digit (n : N) : ascii :=
  default "="%char (base64_alphabet !! N.to_nat n).

(** Three bytes give four digits; one or two bytes at the end give two or
    three digits and the padding. *)
Fixpoint base64_groups (l : list N) : string :=
  match l with
  | a :: b :: c :: r =>
      let n := (a * 65536 + b * 256 + c)%N in
      String (base64_digit (n / 262144))
        (String (base64_digit ((n / 4096) mod 64))
           (String (base64_digit ((n / 64) mod 64))
              (String (base64_digit (n mod 64)) (base64_groups r))))
  | [a; b] =>
      let n := (a * 65536 + b * 256)%N in
      String (base64_digit (n / 262144))
        (String (base64_digit ((n / 4096) mod 64))
           (String (base64_digit ((n / 64) mod 64)) "="))
  | [a] =>
      let n := (a * 65536)%N in
      String (base64_digit (n / 262144)) (String (base64_digit ((n / 4096) mod 64)) "==")
  | [] => EmptyString
  end%N.

Definition base64_EncodeToString (s : string) : string :=
  base64_groups (map code (list_ascii_of_string s)).

(** [sanitizeCookieName]: a dash for every line feed and carriage return. *)
Fixpoint sanitizeCookieName (n : string) : string :=
  match n with
  | EmptyString => EmptyString
  | String c r =>
      String (if bool_decide (code c = 10%N ∨ code c = 13%N) then "-"%char else c)
        (sanitizeCookieName r)
  end.

(** The bytes that a cookie value keeps: printable ASCII but the double
    quote, the semicolon and the backslash. *)
Definition validCookieValueByte (c : ascii) : bool :=
  between 32 126 c && negb (bool_decide (code c = 34%N ∨ code c = 59%N ∨ code c = 92%N)).

Fixpoint keep_chars (p : ascii → bool) (s : string) : string :=
  match s with
  | EmptyString => EmptyString
  | String c r => if p c then String c (keep_chars p r) else keep_chars p r
  end.

(** [sanitizeCookieValue]: the valid bytes, between double quotes when a
    space or a comma is among them. *)
Definition sanitizeCookieValue (v : string) : string :=
  let v := keep_chars validCookieValueByte v in
  if all_chars (λ c, negb (is_one_of " ," c)) v then v
  else String (ascii_of_N 34) (v +:+ String (ascii_of_N 34) EmptyString).

(** A peer for [Client.Do]: it answers every request with status 200 and
    the body it was sent. *)
Definition Client_Do (req : Request) : list error * res Response :=
  ([], Ok (mkResponse 200 (default EmptyString (Request_Body req)))).

(** The order of [range]: that of [map_to_list]. *)
Definition range (A : Type) (m : gmap string A) : list (string * A) := map_to_list m.

End Std.

(** The library, by its reference models. *)
Definition std : GoStd :=
  {| Struct := Std.Struct;
     range := Std.range;
     json_Decode := Std.json_Decode;
     json_Unmarshal := Std.json_Unmarshal;
     json_Marshal_struct := Std.json_Marshal_struct;
     json_Marshal_map := Std.json_Marshal_map;
     json_Marshal_slice := Std.json_Marshal_slice;
     url_ParseQuery := Std.url_ParseQuery;
     url_Parse := Std.url_Parse;
     url_Query := Std.url_Query;
     Values_Encode := Std.Values_Encode;
     http_NewRequest := Std.http_NewRequest;
     canon := Std.canon;
     Client_Do := Std.Client_Do;
     canon_names := conj eq_refl (conj eq_refl eq_refl);
     base64_EncodeToString := Std.base64_EncodeToString;
     sanitizeCookieName := Std.sanitizeCookieName;
     sanitizeCookieValue := Std.sanitizeCookieValue;
     strings_ToLower := Std.strings_ToLower |}.

(** Text with a double quote for each apostrophe, to write JSON inputs. *)
Fixpoint dq (s : string) : string :=
  match s with
  | EmptyString => EmptyString
  | String c r =>
      if bool_decide (c = "'"%char) then String (ascii_of_nat 34) (dq r)
      else String c (dq r)
  end.

(** * The caller: cmd/es/utils.go *)

Section Callers.

Context `{GoStd}.

(** The URI that [callCatRequest] builds: [fmt.Sprintf] of the endpoint and
    the API, then the options, joined by ampersands ([strings.Join]). *)
Definition cat_uri (endpoint api : string) (options : list string) : string :=
  let uri := "http://" +:+ endpoint +:+ "/_cat/" +:+ api +:+ "?v" in
  if bool_decide (options ≠ []) then uri +:+ "&" +:+ Std.join "&" options else uri.

(** [callCatRequest]: the body of the response and what happened outside; it
    panics with the first error when [End] returns any. *)
Definition callCatRequest (endpoint api : string) (options : list string)
    : outcome (string * list event) :=
  let uri := cat_uri endpoint api options in
  let r := New in
  obind (End false (Get uri r)) (λ '(_, evs, (_, body, errs)),
    if bool_decide (errs ≠ []) then Panicked else Returned (body, evs)).

(** The request that [callCatRequest] makes for a URI: a GET with no body,
    no header, no credentials and no cookies, whose query is the one of the
    URI, encoded again. *)
Definition cat_request (uri : string) : Request :=
  {| Request_Method := GET; Request_URL := uri; Request_Body := None;
     Request_Header := ∅; Request_RawQuery := Values_Encode (url_Query uri) |}.

End Callers.

(** * Notions used to state properties *)

(** [v[key]]: the values of a key, nil for a missing key. *)
Definition values_at (v : Values) (key : string) : list string := default [] (v !! key).

(** [v.Add(key, x)] for each [x] of a list in turn. *)
Definition add_all (key : string) (vals : list string) (v : Values) : Values :=
  foldl (λ acc element, Values_Add key element acc) v vals.

(** What [changeMapToURLValues] adds for one value of [Data]. *)
Definition url_values_of (v : value) : list string :=
  match v with
  | VString val => [val]
  | VStrings val => val
  | VNumber val => [val]
  | _ => []
  end.

(** The first value of every key. *)
Definition first_values (v : Values) : Values :=
  (λ l, [default EmptyString (head l)]) <$> v.

(** [s'] has the errors of [s], and maybe more after them. *)
Definition errors_extend (s s' : SuperAgent) : Prop :=
  ∃ more : list error, Errors s' = Errors s ++ more.

(** The strings that [queryStruct] adds for one field. *)
Definition field_strings (v : value) : list string :=
  match v with
  | VString str => [str]
  | _ => []
  end.



(** [json.Unmarshal] into a [map[string]string], as [queryString] calls it. *)
Definition Unmarshal_string_map `{GoStd} (str : string) : res (gmap string string) :=
  match json_Unmarshal str with
  | Ok j => into_string_map j
  | Err e => Err e
  end.

(** The reference library with a network that refuses every connection. *)
Definition std_offline : GoStd :=
  {| Struct := Std.Struct;
     range := Std.range;
     json_Decode := Std.json_Decode;
     json_Unmarshal := Std.json_Unmarshal;
     json_Marshal_struct := Std.json_Marshal_struct;
     json_Marshal_map := Std.json_Marshal_map;
     json_Marshal_slice := Std.json_Marshal_slice;
     url_ParseQuery := Std.url_ParseQuery;
     url_Parse := Std.url_Parse;
     url_Query := Std.url_Query;
     Values_Encode := Std.Values_Encode;
     http_NewRequest := Std.http_NewRequest;
     canon := Std.canon;
     Client_Do := λ req,
       (["dial tcp: connection refused"],
        Err (Request_Method req +:+ " " +:+ Request_URL req +:+
             ": dial tcp: connection refused"));
     canon_names := conj eq_refl (conj eq_refl eq_refl);
     base64_EncodeToString := Std.base64_EncodeToString;
     sanitizeCookieName := Std.sanitizeCookieName;
     sanitizeCookieValue := Std.sanitizeCookieValue;
     strings_ToLower := Std.strings_ToLower |}.

(** * Example builders, run with the reference library *)

Definition ex_url : string := "http://example.com/items".

(** A builder with a configuration error. *)
Definition ex_bad_type : SuperAgent := Type_ "bogus" (Get ex_url New).

(** An object, then an array: both bodies are filled. *)
Definition ex_mixed_ops : list (@op std) :=
  [OSend (CString (dq "{'a':1}")); OSend (CString "[1,2]")].

Definition ex_mixed : SuperAgent :=
  @Send std (CString "[1,2]") (@Send std (CString (dq "{'a':1}")) (Post ex_url New)).

(** The example string of C3. *)
Definition ex_hello : SuperAgent :=
  @Send std (CString "hello world") (Post ex_url New).

(** A number. *)
Definition ex_scalar : SuperAgent := @Send std (CString "123") (Post ex_url New).

(** An object with an array and a number, then a form with the same keys. *)
Definition ex_before_form : SuperAgent :=
  @Send std (CString (dq "{'a':['x','y'],'n':1}")) (Post ex_url New).

Definition ex_after_form : SuperAgent := @Send std (CString "a=2&n=3") ex_before_form.

(** A form, then a form with the same key. *)
Definition ex_form_once : SuperAgent := @Send std (CString "a=1") (Post ex_url New).

(** A struct with one field, a number. *)
Definition ex_page : @Struct std := [("Page", VNumber "1")].

(** A forced type that [Type] accepts and dispatch does not honour, and a
    form string sent with no type forced and no header. *)
Definition ex_html : SuperAgent := Type_ "html" (Post ex_url New).

(** A Content-Type header and no forced type. *)
Definition ex_plain : SuperAgent := Set_ "Content-Type" "text/plain" (Post ex_url New).

(** Credentials set before the verb call. *)
Definition ex_auth : SuperAgent := Get ex_url (SetBasicAuth "user" "secret" New).

(** A GET with a body sent. *)
Definition ex_get : SuperAgent := @Send std (CString (dq "{'a':1}")) (Get ex_url New).

(** A chain of calls on the builder with a configuration error, and the
    builder it leaves. *)
Definition ex_bad_ops : list (@op std) :=
  [OSet "Accept" "text/html"; OSend (CString "x=1")].

Definition ex_bad_sent : SuperAgent :=
  @Send std (CString "x=1") (Set_ "Accept" "text/html" ex_bad_type).

(** Two objects with a key in common, and what they decode to. *)
Definition ex_objects : list string := [dq "{'a':1}"; dq "{'b':'x','a':2}"].

Definition ex_objects_decoded : list (list (string * json)) :=
  [[("a", JNumber "1")]; [("b", JString "x"); ("a", JNumber "2")]].

(** Two arrays, and what they decode to. *)
Definition ex_arrays : list string := ["[1,2]"; dq "['x']"].

Definition ex_arrays_decoded : list (list json) :=
  [[JNumber "1"; JNumber "2"]; [JString "x"]].

(** A structured body with a value of each kind. *)
Definition ex_data : gmap string value :=
  {["a" := VString "1"; "n" := VNumber "2"; "l" := VStrings ["x"; "y"];
    "b" := VBool true; "e" := VStrings []]}.


(** A POST with the hook of [Timeout]. *)
Definition ex_timeout : SuperAgent := Timeout 1000000000 (Post ex_url New).

(** A Content-Type header that [Types] does not know. *)
Definition ex_vendor : SuperAgent :=
  Set_ "Content-Type" "application/vnd.api+json" (Post ex_url New).

(** A URL with a query, and a parameter of the same key. *)
Definition ex_paged : SuperAgent :=
  Param "page" "2" (Get "http://example.com/items?page=1" New).

(** A struct of two strings. *)
Definition ex_person : @Struct std := [("Name", VString "Ann"); ("City", VString "Rome")].

(** A Content-Type header text/html on a POST. *)
Definition ex_html_header : SuperAgent := Set_ "Content-Type" "text/html" (Post ex_url New).

(** A URL that [http.NewRequest] refuses, with the type json and with the
    type text. *)
Definition ex_bad_url : SuperAgent := Post "http://exa mple.com" New.

Definition ex_bad_url_text : SuperAgent := Type_ "text" ex_bad_url.

(** A form, then an array. *)
Definition ex_form_array : SuperAgent := @send_all std ["a=1"; "[1]"] (Post ex_url New).

(** The forced type xml and a document. *)
Definition ex_xml : SuperAgent := @Send std (CString "<a/>") (Type_ "xml" (Post ex_url New)).

(** * Properties *)

(** ** Strings and folds *)

Lemma append_cons (c : ascii) (s t : string) : String c s +:+ t = String c (s +:+ t).
Proof. reflexivity. Qed.

Lemma append_nil_r (s : string) : s +:+ EmptyString = s.
Proof. induction s as [|c s IH]; [reflexivity | now rewrite append_cons, IH]. Qed.

Lemma append_assoc (a b c : string) : (a +:+ b) +:+ c = a +:+ (b +:+ c).
Proof. induction a as [|x a IH]; [reflexivity | now rewrite !append_cons, IH]. Qed.

Lemma foldl_invariant {A B : Type} (P : A → Prop) (f : A → B → A) (l : list B) (a : A) :
  P a → (∀ a b, P a → P (f a b)) → P (foldl f a l).
Proof.
  intros Ha Hf. revert a Ha.
  induction l as [|b l IH]; intros a Ha; simpl; [assumption | apply IH, Hf, Ha].
Qed.

Lemma foldl_obind_Panicked {A B : Type} (f : A → B → outcome A) (l : list B) :
  foldl (λ acc b, obind acc (λ a, f a b)) Panicked l = Panicked.
Proof. induction l as [|b l IH]; simpl; [reflexivity | exact IH]. Qed.

Lemma foldl_obind_invariant {A B : Type} (P : A → Prop) (f : A → B → outcome A)
    (l : list B) (a r : A) :
  P a → (∀ a b a', P a → f a b = Returned a' → P a') →
  foldl (λ acc b, obind acc (λ a, f a b)) (Returned a) l = Returned r → P r.
Proof.
  intros Ha Hf. revert a Ha.
  induction l as [|b l IH]; intros a Ha; simpl.
  - intros [= <-]. exact Ha.
  - destruct (f a b) as [a'|] eqn:E.
    + apply IH. eapply Hf; eassumption.
    + rewrite foldl_obind_Panicked. discriminate.
Qed.

(** ** The fields a call leaves alone *)

Lemma same_body_refl (s : SuperAgent) : same_body s s.
Proof. repeat split. Qed.

Lemma with_TargetType_same (s : SuperAgent) : with_TargetType (TargetType s) s = s.
Proof. destruct s; reflexivity. Qed.

Section Facts.

Context `{GoStd}.

Lemma run_cons (o : op) (ops : list op) (s : SuperAgent) :
  run (o :: ops) s = obind (step o s) (run ops).
Proof.
  unfold run. simpl. destruct (step o s) as [s'|]; simpl; [reflexivity |].
  apply (foldl_obind_Panicked (λ a o, step o a)).
Qed.

Lemma queryStruct_same_body (x : Struct) (s s' : SuperAgent) :
  queryStruct x s = Returned s' → same_body s s'.
Proof.
  unfold queryStruct.
  destruct (json_Marshal_struct x) as [b|e]; [|intros [= <-]; repeat split].
  destruct (json_Unmarshal b) as [j|e]; [|intros [= <-]; repeat split].
  destruct (into_map j) as [val|e]; [|intros [= <-]; repeat split].
  apply (foldl_obind_invariant (same_body s) queryStruct_round).
  - apply same_body_refl.
  - intros a [k v] a' Ha. unfold queryStruct_round. simpl. destruct v; try discriminate.
    intros [= <-]. exact Ha.
Qed.

Lemma queryString_same_body (str : string) (s : SuperAgent) :
  same_body s (queryString str s).
Proof.
  unfold queryString.
  destruct (match json_Unmarshal str with Ok j => into_string_map j | Err e => Err e end)
    as [val|e].
  - apply (foldl_invariant (same_body s)); [apply same_body_refl | intros a b Ha; exact Ha].
  - destruct (url_ParseQuery str) as [queryVal [err|]]; [repeat split |].
    apply (foldl_invariant (same_body s)); [apply same_body_refl | intros a b Ha; exact Ha].
Qed.

(** Every call of a chain but [Send] leaves the body alone. *)
Lemma step_same_body (o : op) (s s' : SuperAgent) :
  (∀ c, o ≠ OSend c) → step o s = Returned s' → same_body s s'.
Proof.
  intros Ho.
  destruct o as [b|b|k v|u p|ck|cks|t|c|k v|u|tm|c]; simpl;
    try (intros [= <-]; repeat split; fail).
  - intros [= <-]. unfold Type_. destruct (Types !! t); repeat split.
  - destruct c; simpl.
    + intros [= <-]. apply queryString_same_body.
    + apply queryStruct_same_body.
    + intros [= <-]. apply same_body_refl.
    + intros [= <-]. apply same_body_refl.
  - intros [= <-]. unfold Proxy. destruct (url_Parse u); [repeat split |].
    destruct (decide (u = EmptyString)); repeat split.
  - now destruct (Ho c).
Qed.

(** ** Send *)

Lemma SendString_RawString (str : string) (s : SuperAgent) :
  RawString (SendString str s) = RawString s +:+ str.
Proof.
  unfold SendString. destruct (BounceToRawString s); [reflexivity |].
  destruct (json_Decode str) as [[| | | | |]|]; try reflexivity.
  destruct (url_ParseQuery str) as [formVal [err|]]; reflexivity.
Qed.

Lemma SendString_Method_Url (str : string) (s : SuperAgent) :
  Method (SendString str s) = Method s ∧ Url (SendString str s) = Url s.
Proof.
  unfold SendString. destruct (BounceToRawString s); [split; reflexivity |].
  destruct (json_Decode str) as [[| | | | |]|]; try (split; reflexivity).
  destruct (url_ParseQuery str) as [formVal [err|]]; split; reflexivity.
Qed.

(** In raw-string mode [SendString] parses nothing: it appends. *)
Lemma SendString_raw (str : string) (s : SuperAgent) :
  BounceToRawString s = true →
  SendString str s = with_RawString (RawString s +:+ str) s.
Proof. intros Hb. unfold SendString. now rewrite Hb. Qed.

Lemma SendStruct_same_body_but_Data (x : Struct) (s : SuperAgent) :
  Method (SendStruct x s) = Method s ∧ Url (SendStruct x s) = Url s ∧
  RawString (SendStruct x s) = RawString s ∧
  BounceToRawString (SendStruct x s) = BounceToRawString s.
Proof.
  unfold SendStruct. destruct (json_Marshal_struct x) as [b|e]; [|repeat split].
  destruct (match json_Decode b with Ok j => into_map j | Err e => Err e end);
    repeat split.
Qed.

(** What one call of a chain does to the method, the URL, the raw string and
    its flag. *)
Lemma step_raw (o : op) (s s' : SuperAgent) :
  step o s = Returned s' →
  Method s' = Method s ∧ Url s' = Url s ∧
  RawString s' = RawString s +:+ appended o ∧
  (BounceToRawString s = true → BounceToRawString s' = true).
Proof.
  intros Hstep.
  destruct o as [b|b|k v|u p|ck|cks|t|c|k v|u|tm|c];
    try (apply step_same_body in Hstep as (-> & -> & -> & -> & _);
         [| intros c'; discriminate];
         simpl; rewrite append_nil_r; now repeat split).
  injection Hstep as <-. destruct c as [str|x|l|]; cbn [Send appended].
  - destruct (SendString_Method_Url str s) as [-> ->].
    rewrite SendString_RawString. repeat split.
    intros Hb. now rewrite (SendString_raw str s Hb).
  - destruct (SendStruct_same_body_but_Data x s) as (-> & -> & -> & ->).
    now rewrite append_nil_r.
  - now rewrite append_nil_r.
  - now rewrite append_nil_r.
Qed.

Lemma run_raw (ops : list op) (s s' : SuperAgent) :
  run ops s = Returned s' →
  Method s' = Method s ∧ Url s' = Url s ∧
  RawString s' = RawString s +:+ concat_all (sent_strings ops) ∧
  (BounceToRawString s = true → BounceToRawString s' = true).
Proof.
  revert s. induction ops as [|o ops IH]; intros s.
  - intros [= <-]. simpl. now rewrite append_nil_r.
  - rewrite run_cons. destruct (step o s) as [s1|] eqn:E; [simpl | discriminate].
    intros Hrun. destruct (step_raw o s s1 E) as (Hm & Hu & Hr & Hb).
    destruct (IH s1 Hrun) as (-> & -> & -> & Hb').
    rewrite Hm, Hu, Hr, append_assoc. repeat split; [|tauto].
    f_equal. destruct o as [| | | | | | | | | | |[str| | |]]; reflexivity.
Qed.

(** ** The verbs *)

Lemma setVerb_fields (m u : string) (s : SuperAgent) :
  setVerb m u s =
    {| Url := u; Method := m; Header := ∅; TargetType := "json";
       ForceType := EmptyString; Data := ∅; SliceData := []; FormData := ∅;
       QueryData := ∅; BounceToRawString := false; RawString := EmptyString;
       Proxy_url := Proxy_url s; Cookies := []; Errors := [];
       BasicAuth := BasicAuth s; Debug := Debug s; CurlCommand := CurlCommand s;
       Transport_Dial := Transport_Dial s |}.
Proof. reflexivity. Qed.

Lemma CustomMethod_setVerb (m u : string) (s : SuperAgent) :
  CustomMethod m u s = setVerb m u s.
Proof.
  unfold CustomMethod, Post, Get, Head, Put, Delete, Patch, Options.
  repeat (case_decide; [subst m; reflexivity |]). reflexivity.
Qed.

(** C9, as amended.  A verb method ([CustomMethod] with any method string, and
    each of [Get], [Post], [Put], [Patch], [Delete], [Head], [Options], which
    are [CustomMethod] at their constant) sets the method and the URL and
    resets the headers, both bodies, the raw string and its flag, the form
    and query data, the forced and target content types, the cookies and the
    errors to their empty or default values.  It leaves the basic-auth
    credentials, the debug and curl switches, the proxy and the dial hook of
    [Timeout] as they were; the builder after the call is a function of the
    method, the URL and these five, so what a later chain or dispatch does
    depends on the earlier configuration through them only. *)
Theorem verb_resets_request_state (m u : string) (s : SuperAgent) :
  let s' := CustomMethod m u s in
  (Method s' = m ∧ Url s' = u ∧ Header s' = ∅ ∧ Data s' = ∅ ∧ SliceData s' = [] ∧
   RawString s' = EmptyString ∧ FormData s' = ∅ ∧ QueryData s' = ∅ ∧
   BounceToRawString s' = false ∧ ForceType s' = EmptyString ∧
   TargetType s' = "json" ∧ Cookies s' = [] ∧ Errors s' = []) ∧
  (BasicAuth s' = BasicAuth s ∧ Debug s' = Debug s ∧
   CurlCommand s' = CurlCommand s ∧ Proxy_url s' = Proxy_url s ∧
   Transport_Dial s' = Transport_Dial s) ∧
  (Get u s = CustomMethod GET u s ∧ Post u s = CustomMethod POST u s ∧
   Put u s = CustomMethod PUT u s ∧ Patch u s = CustomMethod PATCH u s ∧
   Delete u s = CustomMethod DELETE u s ∧ Head u s = CustomMethod HEAD u s ∧
   Options u s = CustomMethod OPTIONS u s) ∧
  (∀ s2 : SuperAgent,
     BasicAuth s2 = BasicAuth s → Debug s2 = Debug s →
     CurlCommand s2 = CurlCommand s → Proxy_url s2 = Proxy_url s →
     Transport_Dial s2 = Transport_Dial s →
     CustomMethod m u s2 = s').
Proof.
  cbv zeta. rewrite CustomMethod_setVerb, setVerb_fields.
  split; [repeat split |]. split; [repeat split |]. split.
  - rewrite !CustomMethod_setVerb. repeat split.
  - intros s2 Ha Hd Hc Hp Ht.
    rewrite CustomMethod_setVerb, setVerb_fields, Ha, Hd, Hc, Hp, Ht. reflexivity.
Qed.

Lemma send_all_cons (str : string) (strs : list string) (s : SuperAgent) :
  send_all (str :: strs) s = send_all strs (SendString str s).
Proof. reflexivity. Qed.

(** C8.  After a sequence of [Send] calls with string arguments the raw
    string is what it was before, followed by the arguments in call order;
    on a builder fresh from a verb call it is their concatenation.  The same
    holds when other configuration calls stand between the [Send] calls.  No
    branch of [SendString] is excluded: nothing is assumed of the parsers. *)
Theorem send_all_RawString (strs : list string) (s : SuperAgent) :
  RawString (send_all strs s) = RawString s +:+ concat_all strs ∧
  (∀ m u : string, RawString (send_all strs (CustomMethod m u s)) = concat_all strs) ∧
  (∀ (m u : string) (ops : list op) (s' : SuperAgent),
     run ops (CustomMethod m u s) = Returned s' →
     RawString s' = concat_all (sent_strings ops)).
Proof.
  assert (∀ s0, RawString (send_all strs s0) = RawString s0 +:+ concat_all strs) as Hgen.
  { induction strs as [|str strs IH]; intros s0.
    - simpl. now rewrite append_nil_r.
    - rewrite send_all_cons, IH, SendString_RawString, append_assoc. reflexivity. }
  split; [apply Hgen |]. split.
  - intros m u. rewrite Hgen, CustomMethod_setVerb. reflexivity.
  - intros m u ops s' Hrun. destruct (run_raw _ _ _ Hrun) as (_ & _ & -> & _).
    rewrite CustomMethod_setVerb. reflexivity.
Qed.

(** ** Dispatch *)

(** C2.  With a recorded error, [EndBytes] returns at once: a nil response,
    a nil body and the error list as it stands; the builder is unchanged and
    nothing happens outside (no log line, no exchange, no callback).  [End]
    returns the same with the empty string for the body. *)
Theorem EndBytes_errors_short_circuit (callback : bool) (s : SuperAgent) :
  Errors s ≠ [] →
  ∃ d : dispatched,
    EndBytes callback s = Returned d ∧
    resp_ret d = None ∧ body_ret d = None ∧ errs_ret d = Errors s ∧
    events d = [] ∧ network_io (events d) = [] ∧ after d = s ∧
    End callback s = Returned (s, [], (None, EmptyString, Errors s)).
Proof.
  intros He. exists (mkDispatched s [] None None (Errors s)).
  unfold End, EndBytes. rewrite (bool_decide_eq_true_2 _ He). repeat split.
Qed.

(** The loop of [resolveTargetType] over some entries: only the target type
    changes, and it is the key of an entry whose value is the Content-Type
    header, or it is unchanged when there is no such entry. *)
Lemma resolve_loop (l : list (string * string)) (s : SuperAgent) :
  let ct := default EmptyString (Header s !! "Content-Type") in
  let r :=
    foldl (λ s kv,
      if decide (default EmptyString (Header s !! "Content-Type") = kv.2)
      then with_TargetType kv.1 s else s) s l in
  r = with_TargetType (TargetType r) s ∧
  ((∃ kv, kv ∈ l ∧ kv.2 = ct ∧ TargetType r = kv.1) ∨
   ((∀ kv, kv ∈ l → kv.2 ≠ ct) ∧ TargetType r = TargetType s)).
Proof.
  cbv zeta. induction l as [|x l IH] using rev_ind.
  - simpl. split; [now rewrite with_TargetType_same |].
    right. split; [|reflexivity]. intros kv Hin. inversion Hin.
  - rewrite foldl_app. simpl.
    set (r := foldl _ s l) in *. destruct IH as [Hr IH].
    assert (Header r = Header s) as HH by now rewrite Hr.
    rewrite HH. case_decide as Hx.
    + split.
      { transitivity (with_TargetType x.1 (with_TargetType (TargetType r) s));
          [now rewrite <- Hr | reflexivity]. }
      left. exists x. split; [| now split].
      apply elem_of_app. right. now apply list_elem_of_singleton.
    + split; [exact Hr |].
      destruct IH as [(kv & Hin & Hkv & Ht)|[Hno Ht]].
      * left. exists kv. split; [| now split].
        apply elem_of_app. now left.
      * right. split; [|exact Ht].
        intros kv [Hin| ->%list_elem_of_singleton]%elem_of_app; [now apply Hno | congruence].
Qed.

Lemma resolveTargetType_only_TargetType (s : SuperAgent) :
  resolveTargetType s = with_TargetType (TargetType (resolveTargetType s)) s.
Proof.
  unfold resolveTargetType. case_bool_decide; [reflexivity |].
  apply (resolve_loop (range _ Types) s).
Qed.

Lemma bounceMixed_cases (s : SuperAgent) :
  bounceMixed s = s ∨ bounceMixed s = with_BounceToRawString true s.
Proof.
  unfold bounceMixed.
  destruct (bool_decide (Data s ≠ ∅) && bool_decide (SliceData s ≠ [])); auto.
Qed.

Lemma bounceMixed_mixed (s : SuperAgent) :
  Data s ≠ ∅ → SliceData s ≠ [] → bounceMixed s = with_BounceToRawString true s.
Proof.
  intros Hd Hl. unfold bounceMixed.
  now rewrite (bool_decide_eq_true_2 _ Hd), (bool_decide_eq_true_2 _ Hl).
Qed.

Lemma prepared_fields (s : SuperAgent) :
  Method (prepared s) = Method s ∧ Url (prepared s) = Url s ∧
  Header (prepared s) = Header s ∧ QueryData (prepared s) = QueryData s ∧
  BasicAuth (prepared s) = BasicAuth s ∧ Cookies (prepared s) = Cookies s ∧
  RawString (prepared s) = RawString s ∧ Errors (prepared s) = Errors s ∧
  TargetType (prepared s) = TargetType (resolveTargetType s) ∧
  (BounceToRawString s = true → BounceToRawString (prepared s) = true).
Proof.
  unfold prepared.
  destruct (bounceMixed_cases (resolveTargetType s)) as [-> | ->];
    rewrite (resolveTargetType_only_TargetType s); repeat split; auto.
Qed.

Lemma range_keys (A : Type) (m : gmap string A) :
  range_enumerates →
  NoDup (range _ m).*1 ∧ ∀ k, k ∈ (range _ m).*1 ↔ k ∈ dom m.
Proof.
  intros Hrange.
  assert ((range _ m).*1 ≡ₚ (map_to_list m).*1) as Hperm
    by apply fmap_Permutation, Hrange.
  split.
  - rewrite Hperm. apply NoDup_fst_map_to_list.
  - intros k. rewrite Hperm, elem_of_dom. unfold is_Some.
    rewrite list_elem_of_fmap. split.
    + intros ([k' v] & -> & Hin). exists v. apply elem_of_map_to_list in Hin. exact Hin.
    + intros [v Hv]. exists (k, v). split; [reflexivity | now apply elem_of_map_to_list].
Qed.

Lemma elem_of_range_Types (kv : string * string) :
  range_enumerates → kv ∈ range _ Types ↔ Types !! kv.1 = Some kv.2.
Proof.
  intros Hrange. rewrite (Hrange _ Types). destruct kv as [k v].
  apply elem_of_map_to_list.
Qed.

(** The dial hook writes [Errors] only. *)
Lemma dial_hook_Errors (dialed : list error) (s : SuperAgent) :
  ∃ errs : list error, dial_hook dialed s = with_Errors errs s.
Proof.
  unfold dial_hook. destruct (Transport_Dial s); [|exists (Errors s); now destruct s].
  revert s. induction dialed as [|e dialed IH]; intros s; cbn [foldl].
  - exists (Errors s). now destruct s.
  - destruct (IH (with_Errors (Errors s ++ [e]) s)) as [errs ->]. now exists errs.
Qed.

Lemma dial_hook_Debug (dialed : list error) (s : SuperAgent) :
  Debug (dial_hook dialed s) = Debug s.
Proof. now destruct (dial_hook_Errors dialed s) as [errs ->]. Qed.

(** The errors after the hook: those before it, then the failed dials when
    [Timeout] was called. *)
Lemma dial_hook_appends (dialed : list error) (s : SuperAgent) :
  Errors (dial_hook dialed s) = Errors s ++ seen_by_hook dialed s.
Proof.
  unfold dial_hook, seen_by_hook.
  destruct (Transport_Dial s) as [t|]; [|now rewrite app_nil_r].
  revert s. induction dialed as [|e dialed IH]; intros s; cbn [foldl].
  - now rewrite app_nil_r.
  - rewrite IH. cbn [Errors with_Errors]. now rewrite <- app_assoc.
Qed.

(** What [EndBytes] does once [MakeRequest] has returned a request. *)
Lemma EndBytes_sends (callback : bool) (s : SuperAgent) (req : Request) :
  Errors s = [] →
  MakeRequest (prepared s) = Returned (Ok req) →
  ∃ d : dispatched,
    EndBytes callback s = Returned d ∧ network_io (events d) = [req] ∧
    BounceToRawString (after d) = BounceToRawString (prepared s).
Proof.
  intros He Hreq. unfold EndBytes.
  rewrite bool_decide_eq_false_2 by (rewrite He; auto).
  fold (prepared s). rewrite Hreq.
  destruct (Client_Do req) as [dialed [resp|err]]; eexists; (split; [reflexivity |]);
    cbn [events after]; rewrite ?dial_hook_Debug;
    (split; [|now destruct (dial_hook_Errors dialed (prepared s)) as [errs ->]]);
    destruct (Debug (prepared s)), (CurlCommand (prepared s)), callback; reflexivity.
Qed.

(** With raw-string mode on, a POST, PUT or PATCH of type json carries the
    raw string. *)
Lemma MakeRequest_json_raw (s : SuperAgent) :
  Method s ∈ [POST; PUT; PATCH] → TargetType s = "json" →
  BounceToRawString s = true → http_NewRequest (Method s) (Url s) = None →
  ∃ req : Request,
    MakeRequest s = Returned (Ok req) ∧ Request_Method req = Method s ∧
    Request_URL req = Url s ∧ Request_Body req = Some (RawString s).
Proof.
  intros Hm Ht Hb Hn. unfold MakeRequest, MakeRequest_switch, NewRequest.
  rewrite (bool_decide_eq_true_2 _ Hm), Ht, Hb, Hn.
  rewrite decide_True by reflexivity.
  eexists. split; [reflexivity |]. repeat split.
Qed.

(** The builder that [EndBytes] leaves is the one it was given when an
    error was recorded, and else the prepared one, with or without one more
    error. *)
Lemma EndBytes_after (callback : bool) (s : SuperAgent) (d : dispatched) :
  EndBytes callback s = Returned d →
  (Errors s ≠ [] ∧ after d = s) ∨
  (Errors s = [] ∧ ∃ errs, after d = with_Errors errs (prepared s)).
Proof.
  unfold EndBytes. case_bool_decide as He.
  - intros [= <-]. now left.
  - fold (prepared s). intros Hret. right. split; [exact He |]. revert Hret.
    destruct (MakeRequest (prepared s)) as [[req|err]|]; [| | discriminate].
    + destruct (Client_Do req) as [dialed [resp|err]];
        destruct (dial_hook_Errors dialed (prepared s)) as [errs Hh];
        rewrite Hh; intros [= <-]; cbn [after]; eexists; reflexivity.
    + intros [= <-]. eexists. reflexivity.
Qed.

(** C7, as amended.  A dispatch without recorded errors resolves one target
    type.  It is the forced type when that is json, form, xml or text.  With
    no type forced, it is the alias of the value of the Content-Type header
    when [Types] has that value under one alias, and it is the target type
    the builder had when [Types] has not that value (so also when the header
    is not set): json by default, form after a form string was sent.
    Dispatch hands [MakeRequest] the builder with that target type, does
    what the outcome of [MakeRequest] there commands (it panics with it,
    returns its error, or sends its request), and leaves the type in the
    builder.  Nothing is said here of a forced type that is none of the
    four, nor of a header value with several aliases. *)
Theorem dispatch_resolves_target_type (callback : bool) (s : SuperAgent) :
  range_enumerates → Errors s = [] →
  let ct := default EmptyString (Header s !! "Content-Type") in
  ∃ t : string,
    (ForceType s ∈ ["json"; "form"; "xml"; "text"] → t = ForceType s) ∧
    (ForceType s = EmptyString →
     ∀ k, Types !! k = Some ct → (∀ k', Types !! k' = Some ct → k' = k) → t = k) ∧
    (ForceType s = EmptyString → (∀ k, Types !! k ≠ Some ct) → t = TargetType s) ∧
    prepared s = bounceMixed (with_TargetType t s) ∧
    (∀ d : dispatched, EndBytes callback s = Returned d → TargetType (after d) = t) ∧
    match MakeRequest (bounceMixed (with_TargetType t s)) with
    | Panicked => EndBytes callback s = Panicked
    | Returned (Err err) =>
        ∃ d : dispatched,
          EndBytes callback s = Returned d ∧ events d = [] ∧ errs_ret d = [err]
    | Returned (Ok req) =>
        ∃ d : dispatched,
          EndBytes callback s = Returned d ∧ network_io (events d) = [req]
    end.
Proof.
  intros Hrange He. cbv zeta. exists (TargetType (resolveTargetType s)).
  assert (ForceType s = EmptyString → ForceType s ∉ ["json"; "form"; "xml"; "text"])
    as Hnot.
  { intros -> Hin.
    repeat (apply elem_of_cons in Hin as [Heq|Hin]; [discriminate Heq |]).
    inversion Hin. }
  assert (prepared s = bounceMixed (with_TargetType (TargetType (resolveTargetType s)) s))
    as Hp by (unfold prepared; now rewrite <- resolveTargetType_only_TargetType).
  destruct (prepared_fields s) as (_ & _ & _ & _ & _ & _ & _ & Pe & Pt & _).
  split; [|split; [|split; [|split; [exact Hp |split]]]].
  - intros Hf. unfold resolveTargetType. now rewrite (bool_decide_eq_true_2 _ Hf).
  - intros Hf k Hk Hone. unfold resolveTargetType.
    rewrite (bool_decide_eq_false_2 _ (Hnot Hf)).
    destruct (resolve_loop (range _ Types) s) as [_ [(kv & Hin & Hkv & ->)|[Hno _]]].
    + apply Hone. apply elem_of_range_Types in Hin; [|exact Hrange].
      now rewrite Hin, Hkv.
    + destruct (Hno (k, default EmptyString (Header s !! "Content-Type")));
        [|reflexivity].
      now apply elem_of_range_Types.
  - intros Hf Hnone. unfold resolveTargetType.
    rewrite (bool_decide_eq_false_2 _ (Hnot Hf)).
    destruct (resolve_loop (range _ Types) s) as [_ [(kv & Hin & Hkv & _)|[_ Ht]]];
      [|exact Ht].
    apply elem_of_range_Types in Hin; [|exact Hrange].
    destruct (Hnone kv.1). now rewrite Hin, Hkv.
  - intros d [[Hne _]|[_ [errs ->]]]%EndBytes_after; [now destruct Hne |].
    cbn [TargetType with_Errors]. exact Pt.
  - rewrite <- Hp.
    destruct (MakeRequest (prepared s)) as [[req|err]|] eqn:Hreq.
    + destruct (EndBytes_sends callback s req He Hreq) as (d & Hret & Hio & _).
      now exists d.
    + unfold EndBytes. rewrite bool_decide_eq_false_2 by (rewrite He; auto).
      fold (prepared s). rewrite Hreq. eexists. split; [reflexivity |].
      cbn [events errs_ret Errors with_Errors]. now rewrite Pe, He.
    + unfold EndBytes. rewrite bool_decide_eq_false_2 by (rewrite He; auto).
      fold (prepared s). now rewrite Hreq.
Qed.

(** C1.  Take a builder with no recorded error whose [Data] and [SliceData]
    are both non-empty.  Dispatch turns raw-string mode on before it makes
    the request, and the mode is on in the builder it leaves.  If moreover
    the method is POST, PUT or PATCH, the resolved type is json and
    [http.NewRequest] accepts the method and URL, one request goes out and its
    body is the raw string: for a builder reached from a verb call by a
    chain of configuration calls, the string arguments of the [Send] calls of
    the chain, concatenated in call order. *)
Theorem mixed_bodies_dispatch_raw (callback : bool) (s : SuperAgent) :
  Errors s = [] → Data s ≠ ∅ → SliceData s ≠ [] →
  BounceToRawString (prepared s) = true ∧
  (∀ d : dispatched,
     EndBytes callback s = Returned d → BounceToRawString (after d) = true) ∧
  (Method s ∈ [POST; PUT; PATCH] →
   TargetType (resolveTargetType s) = "json" →
   http_NewRequest (Method s) (Url s) = None →
   ∃ (d : dispatched) (req : Request),
     EndBytes callback s = Returned d ∧
     network_io (events d) = [req] ∧
     Request_Method req = Method s ∧ Request_URL req = Url s ∧
     Request_Body req = Some (RawString s) ∧
     ∀ (m u : string) (s0 : SuperAgent) (ops : list op),
       run ops (CustomMethod m u s0) = Returned s →
       Request_Body req = Some (concat_all (sent_strings ops))).
Proof.
  intros He Hd Hl.
  assert (BounceToRawString (prepared s) = true) as Hb.
  { unfold prepared.
    pose proof (resolveTargetType_only_TargetType s) as Hres.
    rewrite bounceMixed_mixed; [reflexivity | |]; rewrite Hres; assumption. }
  split; [exact Hb |]. split.
  - intros d Hret.
    destruct (EndBytes_after callback s d Hret) as [[Hne _]|[_ [errs ->]]];
      [now destruct Hne | exact Hb].
  - intros Hm Ht Hn.
    destruct (prepared_fields s) as (Pm & Pu & _ & _ & _ & _ & Pr & _ & Pt & _).
    destruct (MakeRequest_json_raw (prepared s)) as (req & Hreq & Rm & Ru & Rb).
    { now rewrite Pm. }
    { now rewrite Pt. }
    { exact Hb. }
    { now rewrite Pm, Pu. }
    destruct (EndBytes_sends callback s req He Hreq) as (d & Hret & Hio & _).
    rewrite Pm in Rm. rewrite Pu in Ru. rewrite Pr in Rb.
    exists d, req. repeat split; try assumption.
    intros m u s0 ops Hrun.
    destruct (run_raw _ _ _ Hrun) as (_ & _ & HR & _).
    rewrite CustomMethod_setVerb, setVerb_fields in HR. simpl in HR.
    now rewrite Rb, HR.
Qed.

(** The header loop of [MakeRequest] leaves a canonical key unset when no
    key of the builder has that canonical form. *)
Lemma Header_Set_loop_None (l : list (string * string)) (h : gmap string string)
    (c : string) :
  h !! c = None → (∀ kv, kv ∈ l → canon kv.1 ≠ c) →
  foldl (λ h kv, Header_Set kv.1 kv.2 h) h l !! c = None.
Proof.
  revert h. induction l as [|x l IH]; intros h Hh Hl; cbn [foldl]; [exact Hh |].
  apply IH.
  - unfold Header_Set. rewrite lookup_insert_ne; [exact Hh |].
    apply Hl, list_elem_of_here.
  - intros kv Hin. now apply Hl, list_elem_of_further.
Qed.

(** The credentials and the cookies write the Authorization and the Cookie
    header and no other; Content-Type is neither. *)
Lemma canon_Content_Type_ne :
  canon "Content-Type" ≠ canon "Authorization" ∧ canon "Content-Type" ≠ canon "Cookie" ∧
  canon "Authorization" ≠ canon "Cookie".
Proof.
  destruct canon_names as (-> & -> & ->). repeat split; discriminate.
Qed.

Lemma with_credentials_lookup_ne (auth : string * string) (h : gmap string string)
    (c : string) :
  c ≠ canon "Authorization" → with_credentials auth h !! c = h !! c.
Proof.
  intros Hc. unfold with_credentials, Request_SetBasicAuth, Header_Set.
  case_decide; [|reflexivity]. now rewrite lookup_insert_ne.
Qed.

Lemma AddCookie_lookup_ne (cookie : Cookie) (h : gmap string string) (c : string) :
  c ≠ canon "Cookie" → Request_AddCookie cookie h !! c = h !! c.
Proof.
  intros Hc. unfold Request_AddCookie, Header_Set.
  case_decide; now rewrite lookup_insert_ne.
Qed.

Lemma AddCookie_loop_lookup_ne (cookies : list Cookie) (h : gmap string string)
    (c : string) :
  c ≠ canon "Cookie" →
  foldl (λ h cookie, Request_AddCookie cookie h) h cookies !! c = h !! c.
Proof.
  intros Hc. revert h. induction cookies as [|x l IH]; intros h; cbn [foldl];
    [reflexivity |].
  now rewrite IH, AddCookie_lookup_ne.
Qed.

(** A key other than these two has in the request the value that the header
    loop left. *)
Lemma finish_lookup_other (s : SuperAgent) (req0 : Request) (c : string) :
  c ≠ canon "Authorization" → c ≠ canon "Cookie" →
  Request_Header (MakeRequest_finish s req0) !! c =
    foldl (λ h kv, Header_Set kv.1 kv.2 h) (Request_Header req0) (range _ (Header s)) !! c.
Proof.
  intros Ha Hc. cbn [MakeRequest_finish Request_Header].
  now rewrite AddCookie_loop_lookup_ne, with_credentials_lookup_ne.
Qed.

(** For a method that is neither POST, PUT nor PATCH, nor empty,
    [MakeRequest] builds the request from the method, the URL, the headers,
    the query data, the credentials and the cookies. *)
Lemma MakeRequest_bodyless (s : SuperAgent) :
  Method s ∉ [POST; PUT; PATCH] → Method s ≠ EmptyString →
  MakeRequest s =
    match NewRequest (Method s) (Url s) None with
    | Err err => Returned (Err err)
    | Ok req => Returned (Ok (MakeRequest_finish s req))
    end.
Proof.
  intros Hm He. unfold MakeRequest, MakeRequest_switch.
  rewrite (bool_decide_eq_false_2 _ Hm), decide_False by exact He.
  now destruct (NewRequest (Method s) (Url s) None).
Qed.

(** C10.  Let the method be none of POST, PUT and PATCH.  If it is not empty
    and [http.NewRequest] accepts it with the URL, [MakeRequest] returns a
    request with no body whose header holds the builder's own headers,
    then its credentials and its cookies, and nothing else (so no
    Content-Type unless the caller set one), and a
    dispatch without recorded errors sends exactly that request; the request
    is the same for every builder with the same method, URL, headers, query
    data, credentials and cookies, whatever its bodies, raw string, flag and
    content types.  If [http.NewRequest] refuses, its error is returned and
    there is no request.  If the method is empty, dispatch returns a nil
    response, a nil body and a non-empty error list (the error No method
    specified when none was recorded before), and nothing happens outside. *)
Theorem bodyless_methods_send_no_body (callback : bool) (s : SuperAgent) :
  Method s ∉ [POST; PUT; PATCH] →
  (Method s ≠ EmptyString → http_NewRequest (Method s) (Url s) = None →
     ∃ req : Request,
       MakeRequest s = Returned (Ok req) ∧
       Request_Body req = None ∧
       Request_Header req =
         foldl (λ h cookie, Request_AddCookie cookie h)
           (with_credentials (BasicAuth s)
              (foldl (λ h kv, Header_Set kv.1 kv.2 h) ∅ (range _ (Header s))))
           (Cookies s) ∧
       (range_enumerates →
        (∀ k, k ∈ dom (Header s) → canon k ≠ canon "Content-Type") →
        Request_Header req !! canon "Content-Type" = None) ∧
       (Errors s = [] →
          ∃ d : dispatched,
            EndBytes callback s = Returned d ∧ network_io (events d) = [req]) ∧
       (∀ s' : SuperAgent,
          Method s' = Method s → Url s' = Url s → Header s' = Header s →
          QueryData s' = QueryData s → BasicAuth s' = BasicAuth s →
          Cookies s' = Cookies s → MakeRequest s' = Returned (Ok req))) ∧
  (∀ err : error,
     Method s ≠ EmptyString → http_NewRequest (Method s) (Url s) = Some err →
     MakeRequest s = Returned (Err err)) ∧
  (Method s = EmptyString →
     ∃ d : dispatched,
       EndBytes callback s = Returned d ∧
       resp_ret d = None ∧ body_ret d = None ∧ errs_ret d ≠ [] ∧
       (Errors s = [] → errs_ret d = ["No method specified"]) ∧
       events d = [] ∧ network_io (events d) = []).
Proof.
  intros Hm. split; [|split].
  - intros He Hn.
    assert (∀ s', Method s' = Method s → Url s' = Url s → Header s' = Header s →
              QueryData s' = QueryData s → BasicAuth s' = BasicAuth s →
              Cookies s' = Cookies s →
              MakeRequest s' = MakeRequest s) as Hsame.
    { intros s' EM EU EH EQ EB EC.
      rewrite !MakeRequest_bodyless; rewrite ?EM; try assumption.
      rewrite EU. destruct (NewRequest (Method s) (Url s) None) as [req|]; [|reflexivity].
      unfold MakeRequest_finish. now rewrite EH, EQ, EB, EC. }
    rewrite (MakeRequest_bodyless s Hm He) in *. unfold NewRequest in *.
    rewrite Hn in *. eexists. split; [reflexivity |].
    split; [reflexivity |]. split; [reflexivity |]. split; [|split].
    + intros Hrange Hkeys.
      destruct canon_Content_Type_ne as (Ha & Hc & _).
      rewrite (finish_lookup_other s _ _ Ha Hc). cbn [Request_Header].
      apply Header_Set_loop_None; [apply lookup_empty |].
      intros kv Hin. apply Hkeys, (range_keys _ (Header s) Hrange).
      apply list_elem_of_fmap. now exists kv.
    + intros Herr.
      destruct (prepared_fields s) as (Pm & Pu & Ph & Pq & Pb & Pc & _).
      destruct (EndBytes_sends callback s _ Herr (Hsame (prepared s) Pm Pu Ph Pq Pb Pc))
        as (d & Hd & Hio & _).
      now exists d.
    + intros s' EM EU EH EQ EB EC. now rewrite Hsame.
  - intros err He Hn. rewrite (MakeRequest_bodyless s Hm He).
    unfold NewRequest. now rewrite Hn.
  - intros He. unfold EndBytes. case_bool_decide as Herr.
    + eexists. split; [reflexivity |]. repeat split; [exact Herr |].
      intros Hnil. now destruct Herr.
    + fold (prepared s).
      destruct (prepared_fields s) as (Pm & _ & _ & _ & _ & _ & _ & Pe & _).
      assert (MakeRequest (prepared s) = Returned (Err "No method specified")) as ->.
      { unfold MakeRequest, MakeRequest_switch. rewrite Pm, He.
        rewrite bool_decide_eq_false_2 by (rewrite <- He; exact Hm).
        now rewrite decide_True. }
      eexists. split; [reflexivity |]. cbn [resp_ret body_ret errs_ret events Errors with_Errors].
      repeat split.
      * intros Hnil. now destruct (Errors (prepared s)).
      * intros _. now rewrite Pe, Herr.
Qed.

(** ** The cascade of SendString *)

Lemma SendString_form (str : string) (s : SuperAgent) (e : error) (formVal : Values) :
  BounceToRawString s = false → json_Decode str = Err e →
  url_ParseQuery str = (formVal, None) →
  SendString str s =
    with_RawString (RawString s +:+ str)
      (with_TargetType "form"
         (with_Data (foldl (merge_form_key formVal) (Data s) (range _ formVal).*1) s)).
Proof. intros Hb Hj Hq. unfold SendString. now rewrite Hb, Hj, Hq. Qed.

Lemma SendString_unparsable (str : string) (s : SuperAgent) (e e' : error)
    (formVal : Values) :
  json_Decode str = Err e → url_ParseQuery str = (formVal, Some e') →
  SendString str s = with_RawString (RawString s +:+ str) (with_BounceToRawString true s).
Proof.
  intros Hj Hq. unfold SendString. destruct (BounceToRawString s) eqn:Hb.
  - destruct s; simpl in *; now subst.
  - now rewrite Hj, Hq.
Qed.

Lemma SendString_scalar (str : string) (s : SuperAgent) (j : json) :
  json_Decode str = Ok j → is_scalar j →
  SendString str s = with_RawString (RawString s +:+ str) (with_BounceToRawString true s).
Proof.
  intros Hj Hs. unfold SendString. destruct (BounceToRawString s) eqn:Hb.
  - destruct s; simpl in *; now subst.
  - rewrite Hj. now destruct j.
Qed.

Lemma merge_form_key_self (formVal : Values) (data : gmap string value) (k : string) :
  merge_form_key formVal data k !! k =
    Some (merged_value (Values_Get formVal k) (data !! k)).
Proof.
  unfold merge_form_key, merged_value.
  destruct (data !! k) as [[]|]; now rewrite lookup_insert_eq.
Qed.

Lemma merge_form_key_other (formVal : Values) (data : gmap string value) (k k' : string) :
  k ≠ k' → merge_form_key formVal data k !! k' = data !! k'.
Proof.
  intros Hne. unfold merge_form_key.
  destruct (data !! k) as [[]|]; now rewrite lookup_insert_ne.
Qed.

(** The loop of the form branch over keys that are all different. *)
Lemma merge_form_keys (formVal : Values) (l : list string) (data : gmap string value)
    (k : string) :
  NoDup l →
  foldl (merge_form_key formVal) data l !! k =
    if decide (k ∈ l) then Some (merged_value (Values_Get formVal k) (data !! k))
    else data !! k.
Proof.
  intros Hnd. revert data.
  induction Hnd as [|x l Hx Hnd IH]; intros data; cbn [foldl].
  - destruct (decide (k ∈ [])) as [Hin|_]; [inversion Hin | reflexivity].
  - rewrite IH. destruct (decide (k = x)) as [->|Hne].
    + rewrite (decide_False _ _ Hx), decide_True by apply list_elem_of_here.
      apply merge_form_key_self.
    + rewrite (merge_form_key_other _ _ _ _ (not_eq_sym Hne)).
      destruct (decide (k ∈ l)) as [Hin|Hin].
      * rewrite decide_True; [reflexivity | now apply list_elem_of_further].
      * rewrite decide_False; [reflexivity |].
        intros [?|?]%elem_of_cons; contradiction.
Qed.


(** C5, as amended.  A string is sent that the JSON decoder refuses and that
    parses as a form, raw-string mode being off.  For each key of the form,
    with [new] the first value of the key in the string: a new key gets the
    string [new]; a key that held a string gets the list of [new] and that
    string; a key that held a list of strings ([[]string]) gets [new]
    followed by that list; a key that held a value of any other type (a
    number, a bool, null, a decoded array or object) gets the list of [new]
    alone, and the value it held is gone. *)
Theorem form_key_merge (str : string) (s : SuperAgent) (e : error)
    (formVal : Values) (k : string) :
  range_enumerates →
  BounceToRawString s = false → json_Decode str = Err e →
  url_ParseQuery str = (formVal, None) → k ∈ dom formVal →
  let new := Values_Get formVal k in
  Data (Send (CString str) s) !! k =
    Some match Data s !! k with
         | None => VString new
         | Some (VString oldValue) => VStrings [new; oldValue]
         | Some (VStrings oldValue) => VStrings (new :: oldValue)
         | Some _ => VStrings [new]
         end.
Proof.
  intros Hrange Hb Hj Hq Hk. cbv zeta. cbn [Send].
  rewrite (SendString_form str s e formVal Hb Hj Hq). cbn [Data with_RawString with_TargetType with_Data].
  destruct (range_keys _ formVal Hrange) as [Hnd Hdom].
  rewrite (merge_form_keys formVal _ _ k Hnd).
  rewrite decide_True by now apply Hdom.
  reflexivity.
Qed.

(** C4, as amended.  With raw-string mode off: a string that the JSON
    decoder refuses is parsed as a form; when that succeeds every key of the
    form is stored in [Data] (with the value that C5 describes), the other
    keys keep their values, the target type becomes form and raw-string mode
    stays off; when it fails too, raw-string mode is turned on and nothing
    else but the raw string changes.  A string that decodes to a JSON value
    that is neither an object nor an array turns raw-string mode on at once,
    whatever the form parser would say, and nothing else but the raw string
    changes. *)
Theorem SendString_cascade (str : string) (s : SuperAgent) :
  range_enumerates →
  BounceToRawString s = false →
  let s' := Send (CString str) s in
  (∀ (e : error) (formVal : Values),
     json_Decode str = Err e → url_ParseQuery str = (formVal, None) →
     TargetType s' = "form" ∧ BounceToRawString s' = false ∧
     (∀ k, k ∈ dom formVal →
        Data s' !! k = Some (merged_value (Values_Get formVal k) (Data s !! k))) ∧
     (∀ k, k ∉ dom formVal → Data s' !! k = Data s !! k) ∧
     SliceData s' = SliceData s) ∧
  (∀ (e e' : error) (formVal : Values),
     json_Decode str = Err e → url_ParseQuery str = (formVal, Some e') →
     s' = with_RawString (RawString s +:+ str) (with_BounceToRawString true s)) ∧
  (∀ j : json,
     json_Decode str = Ok j → is_scalar j →
     s' = with_RawString (RawString s +:+ str) (with_BounceToRawString true s)).
Proof.
  intros Hrange Hb. cbv zeta. cbn [Send]. split; [|split].
  - intros e formVal Hj Hq. rewrite (SendString_form str s e formVal Hb Hj Hq).
    cbn [TargetType BounceToRawString Data SliceData with_RawString with_TargetType with_Data].
    destruct (range_keys _ formVal Hrange) as [Hnd Hdom].
    split; [reflexivity |]. split; [exact Hb |]. split; [|split; [|reflexivity]].
    + intros k Hk. rewrite (merge_form_keys formVal _ _ k Hnd).
      rewrite decide_True by now apply Hdom. reflexivity.
    + intros k Hk. rewrite (merge_form_keys formVal _ _ k Hnd).
      rewrite decide_False; [reflexivity | now rewrite Hdom].
  - intros e e' formVal. apply SendString_unparsable.
  - intros j. apply SendString_scalar.
Qed.


Lemma EndBytes_keeps_raw (callback : bool) (s : SuperAgent) (d : dispatched) :
  BounceToRawString s = true → EndBytes callback s = Returned d →
  BounceToRawString (after d) = true.
Proof.
  intros Hb. unfold EndBytes. case_bool_decide.
  - now intros [= <-].
  - fold (prepared s).
    destruct (prepared_fields s) as (_ & _ & _ & _ & _ & _ & _ & _ & _ & Hp).
    specialize (Hp Hb).
    destruct (MakeRequest (prepared s)) as [[req|err]|]; [| now intros [= <-] | discriminate].
    destruct (Client_Do req) as [dialed [resp|err]];
      destruct (dial_hook_Errors dialed (prepared s)) as [errs Hh];
      rewrite Hh; now intros [= <-].
Qed.

(** C3, as amended (the example string of the claim, which the form parser
    accepts, left out).  A [Send] of a string that both the JSON decoder and
    the form parser refuse turns raw-string mode on.  After any chain of
    configuration calls that follows (no verb call among them) the mode is
    still on, a dispatch leaves it on, and a [Send] of a string, whatever the
    string, appends it to the raw string and changes nothing else: no parser
    is consulted. *)
Theorem raw_mode_is_permanent (str : string) (s : SuperAgent) (e e' : error)
    (formVal : Values) :
  json_Decode str = Err e → url_ParseQuery str = (formVal, Some e') →
  let s1 := Send (CString str) s in
  BounceToRawString s1 = true ∧
  ∀ (ops : list op) (s2 : SuperAgent),
    run ops s1 = Returned s2 →
    BounceToRawString s2 = true ∧
    (∀ str' : string,
       Send (CString str') s2 = with_RawString (RawString s2 +:+ str') s2) ∧
    (∀ (callback : bool) (d : dispatched),
       EndBytes callback s2 = Returned d → BounceToRawString (after d) = true).
Proof.
  intros Hj Hq. cbv zeta. cbn [Send].
  rewrite (SendString_unparsable str s e e' formVal Hj Hq).
  split; [reflexivity |].
  intros ops s2 Hrun.
  destruct (run_raw _ _ _ Hrun) as (_ & _ & _ & Hb). specialize (Hb eq_refl).
  split; [exact Hb |]. split.
  - intros str'. now apply SendString_raw.
  - intros callback d. now apply EndBytes_keeps_raw.
Qed.

(** ** Query with a struct *)

Lemma queryStruct_loop_panics (l : list (string * value)) (acc : outcome SuperAgent) :
  (∃ kv, kv ∈ l ∧ ∀ v, kv.2 ≠ VString v) →
  foldl (λ acc kv, obind acc (λ s, queryStruct_round s kv)) acc l = Panicked.
Proof.
  revert acc. induction l as [|x l IH]; intros acc (kv & Hin & Hkv).
  - inversion Hin.
  - cbn [foldl]. apply elem_of_cons in Hin as [->|Hin].
    + assert (obind acc (λ s, queryStruct_round s x) = Panicked) as ->.
      { destruct acc as [a|]; [|reflexivity]. unfold queryStruct_round. simpl.
        destruct x.2 as [| | |v| | |]; try reflexivity. now destruct (Hkv v). }
      apply (foldl_obind_Panicked queryStruct_round).
    + apply IH. now exists kv.
Qed.

(** What the code does where C6 says an error is appended: when a field of
    the struct does not come back from JSON as a string, [Query] panics. *)
Lemma Query_struct_non_string_panics (x : Struct) (s : SuperAgent) (b : string)
    (j : json) (val : gmap string value) (k : string) (v : value) :
  range_enumerates →
  json_Marshal_struct x = Ok b → json_Unmarshal b = Ok j → into_map j = Ok val →
  val !! k = Some v → (∀ str, v ≠ VString str) →
  Query (CStruct x) s = Panicked.
Proof.
  intros Hrange Hm Hu Hi Hk Hv. cbn [Query]. unfold queryStruct.
  rewrite Hm, Hu, Hi. apply queryStruct_loop_panics.
  exists (k, v). split; [|exact Hv].
  rewrite (Hrange _ val). now apply elem_of_map_to_list.
Qed.

End Facts.

(** * Concrete runs, with the reference library *)

Lemma std_range_enumerates : @range_enumerates std.
Proof. intros A m. reflexivity. Qed.

(** C2 at [ex_bad_type]. *)
Lemma EndBytes_errors_short_circuit_witness :
  Errors ex_bad_type ≠ [] ∧
  ∃ d : dispatched,
    @EndBytes std false ex_bad_type = Returned d ∧
    resp_ret d = None ∧ body_ret d = None ∧ errs_ret d = Errors ex_bad_type ∧
    events d = [] ∧ network_io (events d) = [] ∧ after d = ex_bad_type ∧
    @End std false ex_bad_type =
      Returned (ex_bad_type, [], (None, EmptyString, Errors ex_bad_type)).
Proof.
  assert (Errors ex_bad_type ≠ []) as He by (vm_compute; discriminate).
  split; [exact He |].
  exact (@EndBytes_errors_short_circuit std false ex_bad_type He).
Defined.

(** C1 at [ex_mixed]: the body is the two strings, one after the other. *)
Lemma mixed_bodies_dispatch_raw_witness :
  (Errors ex_mixed = [] ∧ Data ex_mixed ≠ ∅ ∧ SliceData ex_mixed ≠ []) ∧
  BounceToRawString ex_mixed = false ∧
  BounceToRawString (@prepared std ex_mixed) = true ∧
  ∃ (d : dispatched) (req : Request),
    @EndBytes std false ex_mixed = Returned d ∧
    network_io (events d) = [req] ∧
    Request_Method req = POST ∧ Request_URL req = ex_url ∧
    Request_Body req = Some (dq "{'a':1}[1,2]") ∧
    BounceToRawString (after d) = true.
Proof.
  assert (Errors ex_mixed = []) as H1 by reflexivity.
  assert (Data ex_mixed ≠ ∅) as H2 by (vm_compute; discriminate).
  assert (SliceData ex_mixed ≠ []) as H3 by (vm_compute; discriminate).
  assert (Method ex_mixed ∈ [POST; PUT; PATCH]) as H4 by apply list_elem_of_here.
  assert (TargetType (@resolveTargetType std ex_mixed) = "json") as H5 by reflexivity.
  assert (@http_NewRequest std (Method ex_mixed) (Url ex_mixed) = None) as H6
    by reflexivity.
  assert (@run std ex_mixed_ops (CustomMethod POST ex_url New) = Returned ex_mixed)
    as H7 by reflexivity.
  split; [repeat split; assumption |]. split; [reflexivity |].
  destruct (@mixed_bodies_dispatch_raw std false ex_mixed H1 H2 H3) as (Hb & Hafter & Hreq).
  split; [exact Hb |].
  destruct (Hreq H4 H5 H6) as (d & req & Hret & Hio & Rm & Ru & _ & Rb).
  exists d, req. repeat split; try assumption.
  - exact (Rb _ _ _ _ H7).
  - exact (Hafter d Hret).
Defined.

(** C3 fails at its own example.  The JSON decoder refuses the string, the
    form parser accepts it (one key, the whole string, with the empty value):
    [Send] stores that key, sets the target type to form and leaves
    raw-string mode off, and the object sent next is decoded and merged. *)
Lemma hello_world_is_form_data :
  @json_Decode std "hello world" = Err "invalid character in JSON input" ∧
  @url_ParseQuery std "hello world" = ({["hello world" := [EmptyString]]}, None) ∧
  BounceToRawString ex_hello = false ∧
  TargetType ex_hello = "form" ∧
  Data ex_hello = {["hello world" := VString EmptyString]} ∧
  Data (@Send std (CString (dq "{'a':1}")) ex_hello) !! "a" = Some (VNumber "1").
Proof. repeat split; vm_compute; reflexivity. Qed.

(** C3, as amended, at a string that both parsers refuse. *)
Lemma raw_mode_is_permanent_witness :
  (@json_Decode std "%zz" = Err "invalid character in JSON input" ∧
   @url_ParseQuery std "%zz" = (∅, Some "invalid URL escape")) ∧
  BounceToRawString (@Send std (CString "%zz") (Post ex_url New)) = true ∧
  ∀ (ops : list (@op std)) (s2 : SuperAgent),
    @run std ops (@Send std (CString "%zz") (Post ex_url New)) = Returned s2 →
    BounceToRawString s2 = true ∧
    (∀ str' : string,
       @Send std (CString str') s2 = with_RawString (RawString s2 +:+ str') s2) ∧
    (∀ (callback : bool) (d : dispatched),
       @EndBytes std callback s2 = Returned d → BounceToRawString (after d) = true).
Proof.
  assert (@json_Decode std "%zz" = Err "invalid character in JSON input") as H1
    by (vm_compute; reflexivity).
  assert (@url_ParseQuery std "%zz" = (∅, Some "invalid URL escape")) as H2
    by (vm_compute; reflexivity).
  split; [split; assumption |].
  exact (@raw_mode_is_permanent std "%zz" (Post ex_url New) _ _ _ H1 H2).
Defined.

(** C4 fails at a bare scalar.  The string decodes to a JSON number, and the
    form parser would accept it (one key with the empty value); yet [Send]
    turns raw-string mode on, stores nothing and leaves the target type. *)
Lemma scalar_bounces_without_form_parse :
  @json_Decode std "123" = Ok (JNumber "123") ∧
  @url_ParseQuery std "123" = ({["123" := [EmptyString]]}, None) ∧
  BounceToRawString (Post ex_url New) = false ∧
  BounceToRawString ex_scalar = true ∧
  TargetType ex_scalar = "json" ∧
  Data ex_scalar = ∅.
Proof. repeat split; vm_compute; reflexivity. Qed.

(** C4, as amended, at a fresh POST: a form string takes the form branch,
    a string that both parsers refuse and a bare number turn raw-string mode
    on. *)
Lemma SendString_cascade_witness :
  (@range_enumerates std ∧ BounceToRawString (Post ex_url New) = false) ∧
  (TargetType ex_form_once = "form" ∧ BounceToRawString ex_form_once = false ∧
   Data ex_form_once !! "a" = Some (VString "1")) ∧
  @Send std (CString "%zz") (Post ex_url New) =
    with_RawString "%zz" (with_BounceToRawString true (Post ex_url New)) ∧
  ex_scalar = with_RawString "123" (with_BounceToRawString true (Post ex_url New)).
Proof.
  assert (BounceToRawString (Post ex_url New) = false) as H1 by reflexivity.
  split; [split; [exact std_range_enumerates | exact H1] |].
  split; [| split].
  - destruct (@SendString_cascade std "a=1" (Post ex_url New) std_range_enumerates H1)
      as (Hform & _ & _).
    destruct (Hform "invalid character in JSON input" {["a" := ["1"]]})
      as (Ht & Hb & Hk & _); [vm_compute; reflexivity | vm_compute; reflexivity |].
    split; [exact Ht |]. split; [exact Hb |].
    assert ("a" ∈ dom ({["a" := ["1"]]} : Values)) as Hd
      by (apply elem_of_dom; exists ["1"]; vm_compute; reflexivity).
    exact (Hk "a" Hd).
  - destruct (@SendString_cascade std "%zz" (Post ex_url New) std_range_enumerates H1)
      as (_ & Hraw & _).
    apply (Hraw "invalid character in JSON input" "invalid URL escape" ∅);
      vm_compute; reflexivity.
  - destruct (@SendString_cascade std "123" (Post ex_url New) std_range_enumerates H1)
      as (_ & _ & Hscalar).
    apply (Hscalar (JNumber "123")); [vm_compute; reflexivity | exact I].
Defined.

(** C5 fails where the key held something else than a string or a
    [[]string].  Key a held a list (a decoded array of two strings), key n a
    number; after the form is sent each holds the list of the new value
    alone: the list was not appended, the number is gone. *)
Lemma form_merge_drops_other_values :
  Data ex_before_form !! "a" = Some (VSlice [VString "x"; VString "y"]) ∧
  Data ex_before_form !! "n" = Some (VNumber "1") ∧
  BounceToRawString ex_before_form = false ∧
  @json_Decode std "a=2&n=3" = Err "invalid character in JSON input" ∧
  @url_ParseQuery std "a=2&n=3" = ({["a" := ["2"]; "n" := ["3"]]}, None) ∧
  Data ex_after_form !! "a" = Some (VStrings ["2"]) ∧
  Data ex_after_form !! "n" = Some (VStrings ["3"]).
Proof. repeat split; vm_compute; reflexivity. Qed.

(** C5, as amended, at a key that held a string. *)
Lemma form_key_merge_witness :
  (@range_enumerates std ∧ BounceToRawString ex_form_once = false ∧
   @json_Decode std "a=2" = Err "invalid character in JSON input" ∧
   @url_ParseQuery std "a=2" = ({["a" := ["2"]]}, None) ∧
   "a" ∈ dom ({["a" := ["2"]]} : Values)) ∧
  Data (@Send std (CString "a=2") ex_form_once) !! "a" =
    Some match Data ex_form_once !! "a" with
         | None => VString (Values_Get {["a" := ["2"]]} "a")
         | Some (VString oldValue) =>
             VStrings [Values_Get {["a" := ["2"]]} "a"; oldValue]
         | Some (VStrings oldValue) =>
             VStrings (Values_Get {["a" := ["2"]]} "a" :: oldValue)
         | Some _ => VStrings [Values_Get {["a" := ["2"]]} "a"]
         end.
Proof.
  assert (BounceToRawString ex_form_once = false) as H1 by reflexivity.
  assert (@json_Decode std "a=2" = Err "invalid character in JSON input") as H2
    by (vm_compute; reflexivity).
  assert (@url_ParseQuery std "a=2" = ({["a" := ["2"]]}, None)) as H3
    by (vm_compute; reflexivity).
  assert ("a" ∈ dom ({["a" := ["2"]]} : Values)) as H4
    by (apply elem_of_dom; exists ["2"]; vm_compute; reflexivity).
  split; [repeat split; (assumption || exact std_range_enumerates) |].
  exact (@form_key_merge std "a=2" ex_form_once _ _ "a" std_range_enumerates H1 H2 H3 H4).
Defined.

(** C6 fails in the code: [Query] with a struct whose field is a number
    panics at the type assertion; no error is appended, the call does not
    return. *)
Lemma Query_struct_number_panics :
  @json_Marshal_struct std ex_page = Ok (dq "{'Page':1}") ∧
  @Query std (CStruct ex_page) (Get ex_url New) = Panicked.
Proof. split; vm_compute; reflexivity. Qed.

(** C7 fails after a form string.  No type is forced and no header is set,
    and the dispatch resolves form, not the default json: the request says
    so, and the type stays in the builder. *)
Lemma form_string_is_sent_as_form :
  Errors ex_form_once = [] ∧ ForceType ex_form_once = EmptyString ∧
  Header ex_form_once = ∅ ∧
  ∃ (d : dispatched) (req : Request),
    @EndBytes std false ex_form_once = Returned d ∧
    network_io (events d) = [req] ∧
    TargetType (after d) = "form" ∧ TargetType (after d) ≠ "json" ∧
    Request_Header req !! "Content-Type" = Some "application/x-www-form-urlencoded".
Proof.
  split; [reflexivity |]. split; [reflexivity |]. split; [reflexivity |].
  destruct (@EndBytes std false ex_form_once) as [d|] eqn:Hd;
    vm_compute in Hd; [|discriminate Hd].
  injection Hd as <-. eexists. eexists.
  split; [reflexivity |]. split; [reflexivity |].
  split; [reflexivity |]. split; [discriminate | reflexivity].
Qed.

(** What the amended C7 leaves out.  [Type] accepts html without an error,
    and the type that dispatch resolves is json, not the forced one: the
    switch of [EndBytes] on the forced type names four of the seven types
    that [Type] accepts. *)
Lemma forced_html_is_not_adopted :
  Errors ex_html = [] ∧ ForceType ex_html = "html" ∧
  TargetType (@resolveTargetType std ex_html) = "json".
Proof. repeat split; vm_compute; reflexivity. Qed.

Lemma Types_text_alias (k : string) : Types !! k = Some "text/plain" → k = "text".
Proof.
  intros Hk. apply elem_of_list_to_map_2 in Hk. unfold Types_entries in Hk.
  repeat (apply elem_of_cons in Hk as [Heq|Hk];
          [first [discriminate Heq | congruence] |]).
  inversion Hk.
Qed.

(** C7, as amended, at a POST with the header Content-Type: text/plain and
    no forced type: the type is text, the one alias of that value. *)
Lemma dispatch_resolves_target_type_witness :
  (@range_enumerates std ∧ Errors ex_plain = [] ∧ ForceType ex_plain = EmptyString ∧
   Header ex_plain !! "Content-Type" = Some "text/plain") ∧
  ∃ (d : dispatched) (req : Request),
    @EndBytes std false ex_plain = Returned d ∧ network_io (events d) = [req] ∧
    TargetType (after d) = "text" ∧
    Request_Header req !! "Content-Type" = Some "text/plain".
Proof.
  assert (Header ex_plain !! "Content-Type" = Some "text/plain") as Hh
    by (vm_compute; reflexivity).
  split; [repeat split; (exact Hh || exact std_range_enumerates) |].
  destruct (@dispatch_resolves_target_type std false ex_plain std_range_enumerates eq_refl)
    as (t & _ & Halias & _ & _ & Hafter & Hsend).
  rewrite Hh in Halias. cbn [default] in Halias.
  assert (t = "text") as ->.
  { apply (Halias eq_refl); [vm_compute; reflexivity |]. apply Types_text_alias. }
  assert (@MakeRequest std (@bounceMixed (with_TargetType "text" ex_plain)) =
            Returned (Ok {| Request_Method := POST; Request_URL := ex_url;
                            Request_Body := Some EmptyString;
                            Request_Header := {["Content-Type" := "text/plain"]};
                            Request_RawQuery := EmptyString |})) as Hreq
    by (vm_compute; reflexivity).
  rewrite Hreq in Hsend. destruct Hsend as (d & Hret & Hio).
  exists d. eexists. split; [exact Hret |]. split; [exact Hio |].
  split; [exact (Hafter d Hret) | reflexivity].
Defined.

(** C9 fails for the credentials.  Nothing is configured after the verb
    call, and the request that [MakeRequest] builds carries the credentials
    set before it, user and secret, in its Authorization header; without
    them the same verb call gives another builder and a request with no such
    header. *)
Lemma verb_keeps_basic_auth :
  BasicAuth ex_auth = ("user", "secret") ∧
  ex_auth ≠ Get ex_url New ∧
  (∃ req : Request,
     @MakeRequest std ex_auth = Returned (Ok req) ∧
     Request_Header req !! "Authorization" = Some "Basic dXNlcjpzZWNyZXQ=") ∧
  (∃ req : Request,
     @MakeRequest std (Get ex_url New) = Returned (Ok req) ∧
     Request_Header req !! "Authorization" = None).
Proof.
  split; [reflexivity |]. split; [intros Heq; discriminate Heq |].
  split; eexists; (split; [vm_compute; reflexivity | reflexivity]).
Qed.

(** C10 at [ex_get]: the object sent stays in the builder, the request
    that goes out has no body and no header. *)
Lemma bodyless_methods_send_no_body_witness :
  ((Method ex_get ∉ [POST; PUT; PATCH]) ∧ Method ex_get ≠ EmptyString ∧
   @http_NewRequest std (Method ex_get) (Url ex_get) = None ∧
   Errors ex_get = [] ∧ Data ex_get = {["a" := VNumber "1"]}) ∧
  ∃ (d : dispatched) (req : Request),
    @MakeRequest std ex_get = Returned (Ok req) ∧
    @EndBytes std false ex_get = Returned d ∧ network_io (events d) = [req] ∧
    Request_Method req = GET ∧ Request_Body req = None ∧ Request_Header req = ∅.
Proof.
  assert (Method ex_get ∉ [POST; PUT; PATCH]) as H1.
  { intros Hin. vm_compute in Hin.
    repeat (apply elem_of_cons in Hin as [Heq|Hin]; [discriminate Heq |]).
    inversion Hin. }
  assert (Method ex_get ≠ EmptyString) as H2 by (vm_compute; discriminate).
  assert (@http_NewRequest std (Method ex_get) (Url ex_get) = None) as H3
    by (vm_compute; reflexivity).
  assert (Errors ex_get = []) as H4 by reflexivity.
  assert (Data ex_get = {["a" := VNumber "1"]}) as H5 by (vm_compute; reflexivity).
  split; [repeat split; assumption |].
  destruct (proj1 (@bodyless_methods_send_no_body std false ex_get H1) H2 H3)
    as (req & Hreq & Hbody & Hheader & _ & Hsend & _).
  destruct (Hsend H4) as (d & Hret & Hio).
  exists d, req. repeat split; try assumption.
  vm_compute in Hreq. injection Hreq as <-. reflexivity.
Defined.

(** * Further properties of the builder *)

Section Further.

Context `{GoStd}.

(** ** Errors only accumulate *)

Lemma errors_extend_refl (s s' : SuperAgent) : Errors s' = Errors s → errors_extend s s'.
Proof. intros He. exists []. now rewrite app_nil_r. Qed.

Lemma errors_extend_trans (s1 s2 s3 : SuperAgent) :
  errors_extend s1 s2 → errors_extend s2 s3 → errors_extend s1 s3.
Proof.
  intros [m1 H1] [m2 H2]. exists (m1 ++ m2). now rewrite H2, H1, app_assoc.
Qed.

Lemma errors_extend_snoc (s : SuperAgent) (e : error) :
  errors_extend s (with_Errors (Errors s ++ [e]) s).
Proof. now exists [e]. Qed.

Lemma queryStruct_Errors (x : Struct) (s s' : SuperAgent) :
  queryStruct x s = Returned s' → errors_extend s s'.
Proof.
  unfold queryStruct.
  destruct (json_Marshal_struct x) as [b|e];
    [|intros [= <-]; apply errors_extend_snoc].
  destruct (json_Unmarshal b) as [j|e]; [|intros [= <-]; apply errors_extend_snoc].
  destruct (into_map j) as [val|e]; [|intros [= <-]; apply errors_extend_snoc].
  intros Hfold. apply errors_extend_refl. revert Hfold.
  apply (foldl_obind_invariant (λ a, Errors a = Errors s) queryStruct_round).
  - reflexivity.
  - intros a [k v] a' Ha. unfold queryStruct_round. simpl. destruct v; try discriminate.
    intros [= <-]. exact Ha.
Qed.

Lemma queryString_Errors (str : string) (s : SuperAgent) :
  errors_extend s (queryString str s).
Proof.
  unfold queryString.
  destruct (match json_Unmarshal str with Ok j => into_string_map j | Err e => Err e end)
    as [val|e].
  - apply errors_extend_refl.
    apply (foldl_invariant (λ a, Errors a = Errors s)); [reflexivity | intros a b Ha; exact Ha].
  - destruct (url_ParseQuery str) as [queryVal [err|]]; [apply errors_extend_snoc |].
    apply errors_extend_refl.
    apply (foldl_invariant (λ a, Errors a = Errors s)); [reflexivity | intros a b Ha; exact Ha].
Qed.

Lemma SendString_Errors (str : string) (s : SuperAgent) :
  Errors (SendString str s) = Errors s.
Proof.
  unfold SendString. destruct (BounceToRawString s); [reflexivity |].
  destruct (json_Decode str) as [[| | | | |]|]; try reflexivity.
  destruct (url_ParseQuery str) as [formVal [err|]]; reflexivity.
Qed.

Lemma step_Errors (o : op) (s s' : SuperAgent) :
  step o s = Returned s' → errors_extend s s'.
Proof.
  destruct o as [b|b|k v|u p|ck|cks|t|c|k v|u|tm|c]; simpl;
    try (intros [= <-]; now apply errors_extend_refl).
  - intros [= <-]. unfold Type_.
    destruct (Types !! t); [now apply errors_extend_refl | apply errors_extend_snoc].
  - destruct c; simpl.
    + intros [= <-]. apply queryString_Errors.
    + apply queryStruct_Errors.
    + intros [= <-]. now apply errors_extend_refl.
    + intros [= <-]. now apply errors_extend_refl.
  - intros [= <-]. unfold Proxy. destruct (url_Parse u); [apply errors_extend_snoc |].
    destruct (decide (u = EmptyString)); now apply errors_extend_refl.
  - intros [= <-]. destruct c as [str|x|l|]; cbn [Send].
    + apply errors_extend_refl, SendString_Errors.
    + unfold SendStruct. destruct (json_Marshal_struct x) as [b|e];
        [|apply errors_extend_snoc].
      destruct (match json_Decode b with Ok j => into_map j | Err e => Err e end);
        [now apply errors_extend_refl | apply errors_extend_snoc].
    + now apply errors_extend_refl.
    + now apply errors_extend_refl.
Qed.

Lemma run_Errors (ops : list op) (s s' : SuperAgent) :
  run ops s = Returned s' → errors_extend s s'.
Proof.
  revert s. induction ops as [|o ops IH]; intros s.
  - intros [= <-]. now apply errors_extend_refl.
  - rewrite run_cons. destruct (step o s) as [s1|] eqn:E; [simpl | discriminate].
    intros Hrun. eapply errors_extend_trans; [apply (step_Errors _ _ _ E) | now apply IH].
Qed.

(** X1.  No configuration call removes an error: after a chain the error
    list is the one before the chain, followed by what the chain recorded.
    So once an error is recorded, a dispatch after any further chain returns
    at once, with that list, a nil response and a nil body, and nothing
    happens outside. *)
Theorem errors_only_accumulate (callback : bool) (ops : list op) (s s' : SuperAgent) :
  run ops s = Returned s' →
  (∃ more : list error, Errors s' = Errors s ++ more) ∧
  (Errors s ≠ [] →
   ∃ d : dispatched,
     EndBytes callback s' = Returned d ∧ events d = [] ∧
     resp_ret d = None ∧ body_ret d = None ∧ errs_ret d = Errors s').
Proof.
  intros Hrun. destruct (run_Errors _ _ _ Hrun) as [more Hmore].
  split; [now exists more |].
  intros Hne. exists (mkDispatched s' [] None None (Errors s')).
  unfold EndBytes. rewrite bool_decide_eq_true_2; [repeat split |].
  rewrite Hmore. destruct (Errors s); [now destruct Hne | discriminate].
Qed.

(** ** Sends of JSON objects and arrays *)

(** Assigning the entries of a list with distinct keys, in any order, is a
    union that prefers the list. *)
Lemma foldl_insert_union {A : Type} (l : list (string * A)) (d : gmap string A) :
  NoDup l.*1 →
  foldl (λ d kv, <[kv.1 := kv.2]> d) d l = list_to_map l ∪ d.
Proof.
  intros Hnd. revert d. induction l as [|[k v] l IH]; intros d; cbn [foldl].
  - now rewrite list_to_map_nil, (left_id_L ∅ (∪)).
  - inversion Hnd as [|? ? Hk Hnd']; subst. rewrite IH by exact Hnd'.
    cbn [fst snd]. rewrite list_to_map_cons.
    apply map_eq. intros i. rewrite !lookup_union.
    destruct (decide (i = k)) as [->|Hne].
    + rewrite !lookup_insert_eq.
      rewrite (not_elem_of_list_to_map_1 l k Hk). now destruct (d !! k).
    + rewrite !lookup_insert_ne by congruence. reflexivity.
Qed.

(** The loop [for k, v := range val { s.Data[k] = v }]. *)
Lemma assign_range {A : Type} (val d : gmap string A) :
  range_enumerates →
  foldl (λ d kv, <[kv.1 := kv.2]> d) d (range _ val) = val ∪ d.
Proof.
  intros Hrange.
  assert (NoDup (range _ val).*1) as Hnd.
  { rewrite (fmap_Permutation fst _ _ (Hrange _ val)). apply NoDup_fst_map_to_list. }
  rewrite (foldl_insert_union _ _ Hnd).
  rewrite (list_to_map_proper _ _ Hnd (Hrange _ val)), list_to_map_to_list.
  reflexivity.
Qed.

Lemma SendString_object (str : string) (s : SuperAgent) (m : list (string * json)) :
  range_enumerates →
  BounceToRawString s = false → json_Decode str = Ok (JObject m) →
  SendString str s =
    with_RawString (RawString s +:+ str) (with_Data (json_object_map m ∪ Data s) s).
Proof.
  intros Hrange Hb Hj. unfold SendString. rewrite Hb, Hj.
  now rewrite (assign_range _ _ Hrange).
Qed.

Lemma SendString_array (str : string) (s : SuperAgent) (l : list json) :
  BounceToRawString s = false → json_Decode str = Ok (JArray l) →
  SendString str s =
    with_RawString (RawString s +:+ str) (with_SliceData (SliceData s ++ map of_json l) s).
Proof. intros Hb Hj. unfold SendString. now rewrite Hb, Hj. Qed.

Lemma send_all_objects (strs : list string) (ms : list (list (string * json)))
    (s : SuperAgent) :
  range_enumerates →
  BounceToRawString s = false →
  Forall2 (λ str m, json_Decode str = Ok (JObject m)) strs ms →
  send_all strs s =
    with_RawString (RawString s +:+ concat_all strs)
      (with_Data (foldl (λ d m, json_object_map m ∪ d) (Data s) ms) s).
Proof.
  intros Hrange Hb Hall. revert s Hb.
  induction Hall as [|str m strs ms Hj Hall IH]; intros s Hb.
  - cbn. rewrite append_nil_r. now destruct s.
  - rewrite send_all_cons. cbn [foldl].
    rewrite (SendString_object str s m Hrange Hb Hj), IH by exact Hb.
    cbn [RawString Data with_RawString with_Data concat_all foldr].
    rewrite append_assoc. reflexivity.
Qed.

Lemma send_all_arrays (strs : list string) (ls : list (list json)) (s : SuperAgent) :
  BounceToRawString s = false →
  Forall2 (λ str l, json_Decode str = Ok (JArray l)) strs ls →
  send_all strs s =
    with_RawString (RawString s +:+ concat_all strs)
      (with_SliceData (SliceData s ++ concat (map (map of_json) ls)) s).
Proof.
  intros Hb Hall. revert s Hb.
  induction Hall as [|str l strs ls Hj Hall IH]; intros s Hb.
  - cbn. rewrite append_nil_r, app_nil_r. now destruct s.
  - rewrite send_all_cons.
    rewrite (SendString_array str s l Hb Hj), IH by exact Hb.
    cbn [RawString SliceData with_RawString with_SliceData concat_all foldr map concat].
    rewrite append_assoc, app_assoc. reflexivity.
Qed.

(** X2.  Strings that decode to JSON objects, sent one after the other with
    raw-string mode off, merge into [Data]: each object is laid over what
    [Data] holds, so of two values for one key the later one stays and the
    keys not sent again keep their values.  The list body, the target type
    and the mode are left alone. *)
Theorem Send_objects_merge (strs : list string) (ms : list (list (string * json)))
    (s : SuperAgent) :
  range_enumerates →
  BounceToRawString s = false →
  Forall2 (λ str m, json_Decode str = Ok (JObject m)) strs ms →
  let s' := send_all strs s in
  Data s' = foldl (λ d m, json_object_map m ∪ d) (Data s) ms ∧
  SliceData s' = SliceData s ∧ TargetType s' = TargetType s ∧
  BounceToRawString s' = false.
Proof.
  intros Hrange Hb Hall. cbv zeta.
  rewrite (send_all_objects strs ms s Hrange Hb Hall). repeat split. exact Hb.
Qed.

(** X3.  Strings that decode to JSON arrays, sent one after the other with
    raw-string mode off, build one list: [SliceData] grows by the elements
    of each array, in call order.  [Data], the target type and the mode are
    left alone. *)
Theorem Send_arrays_append (strs : list string) (ls : list (list json)) (s : SuperAgent) :
  BounceToRawString s = false →
  Forall2 (λ str l, json_Decode str = Ok (JArray l)) strs ls →
  let s' := send_all strs s in
  SliceData s' = SliceData s ++ concat (map (map of_json) ls) ∧
  Data s' = Data s ∧ TargetType s' = TargetType s ∧
  BounceToRawString s' = false.
Proof.
  intros Hb Hall. cbv zeta.
  rewrite (send_all_arrays strs ls s Hb Hall). repeat split. exact Hb.
Qed.

(** X4.  [SendStruct] of a struct that marshals to a JSON object lays its
    fields over [Data] like a JSON string would, but keeps no text of it:
    the raw string is unchanged, and so are the list body, the mode and the
    target type.  When the struct marshals to null the builder is left as it
    was.  In every other case one error is appended and nothing else
    changes: the error of [json.Marshal], the error of the decoder, or, when
    the marshalled text is a JSON value that is neither an object nor null
    (a string, a number, a bool, an array), the error of storing it in a
    map. *)
Theorem SendStruct_merges_without_raw (x : Struct) (s : SuperAgent) :
  range_enumerates →
  (∀ (b : string) (m : list (string * json)),
     json_Marshal_struct x = Ok b → json_Decode b = Ok (JObject m) →
     Send (CStruct x) s = with_Data (json_object_map m ∪ Data s) s) ∧
  (∀ b : string,
     json_Marshal_struct x = Ok b → json_Decode b = Ok JNull →
     Send (CStruct x) s = s) ∧
  (∀ e : error,
     json_Marshal_struct x = Err e →
     Send (CStruct x) s = with_Errors (Errors s ++ [e]) s) ∧
  (∀ (b : string) (e : error),
     json_Marshal_struct x = Ok b → json_Decode b = Err e →
     Send (CStruct x) s = with_Errors (Errors s ++ [e]) s) ∧
  (∀ (b : string) (j : json),
     json_Marshal_struct x = Ok b → json_Decode b = Ok j →
     (∀ m, j ≠ JObject m) → j ≠ JNull →
     ∃ e : error,
       into_map j = Err e ∧ Send (CStruct x) s = with_Errors (Errors s ++ [e]) s) ∧
  RawString (Send (CStruct x) s) = RawString s ∧
  SliceData (Send (CStruct x) s) = SliceData s ∧
  BounceToRawString (Send (CStruct x) s) = BounceToRawString s ∧
  TargetType (Send (CStruct x) s) = TargetType s.
Proof.
  intros Hrange. cbn [Send]. unfold SendStruct. split; [|split; [|split; [|split; [|split]]]].
  - intros b m -> ->. cbn [into_map]. now rewrite (assign_range _ _ Hrange).
  - intros b -> ->. cbn [into_map]. rewrite (assign_range _ _ Hrange).
    rewrite (left_id_L ∅ (∪)). now destruct s.
  - now intros e ->.
  - now intros b e -> ->.
  - intros b j -> -> Hobj Hnull.
    destruct j as [|bb|n|str|l|m]; cbn [into_map];
      [now destruct Hnull | | | | | now destruct (Hobj m)];
      eexists; (split; reflexivity).
  - destruct (json_Marshal_struct x) as [b|e]; [|repeat split].
    destruct (match json_Decode b with Ok j => into_map j | Err e => Err e end);
      repeat split.
Qed.

(** ** Values built by loops *)

Lemma foldl_pointwise {A B : Type} (f g : A → B → A) (l : list B) (a : A) :
  (∀ a b, f a b = g a b) → foldl f a l = foldl g a l.
Proof.
  intros Hfg. revert a. induction l as [|b l IH]; intros a; cbn [foldl];
    [reflexivity | now rewrite Hfg, IH].
Qed.

Lemma Values_Add_lookup (k x : string) (q : Values) :
  Values_Add k x q !! k = Some (values_at q k ++ [x]).
Proof. unfold Values_Add. apply lookup_insert_eq. Qed.

Lemma Values_Add_lookup_ne (k k' x : string) (q : Values) :
  k ≠ k' → Values_Add k x q !! k' = q !! k'.
Proof. intros Hne. unfold Values_Add. now apply lookup_insert_ne. Qed.

Lemma add_all_lookup_ne (k k' : string) (vs : list string) (q : Values) :
  k ≠ k' → add_all k vs q !! k' = q !! k'.
Proof.
  intros Hne. unfold add_all. revert q.
  induction vs as [|x vs IH]; intros q; cbn [foldl]; [reflexivity |].
  now rewrite IH, Values_Add_lookup_ne.
Qed.

Lemma add_all_lookup (k : string) (vs : list string) (q : Values) :
  add_all k vs q !! k =
    match vs with
    | [] => q !! k
    | _ => Some (values_at q k ++ vs)
    end.
Proof.
  unfold add_all. revert q. induction vs as [|x vs IH]; intros q; cbn [foldl];
    [reflexivity |].
  rewrite IH. unfold values_at at 1. rewrite !Values_Add_lookup. cbn [default].
  destruct vs as [|y vs]; [reflexivity |]. unfold id. now rewrite <- app_assoc.
Qed.

Lemma add_all_values_at (k k' : string) (vs : list string) (q : Values) :
  values_at (add_all k vs q) k' =
    values_at q k' ++ (if decide (k = k') then vs else []).
Proof.
  unfold values_at at 1. destruct (decide (k = k')) as [<-|Hne].
  - rewrite add_all_lookup. destruct vs; [now rewrite app_nil_r | reflexivity].
  - rewrite add_all_lookup_ne by exact Hne. now rewrite app_nil_r.
Qed.

(** A loop that adds, for each entry of a list with distinct keys, some
    values under the key of the entry. *)
Lemma add_all_loop {B : Type} (g : B → list string) (l : list (string * B))
    (q : Values) (k : string) :
  NoDup l.*1 →
  values_at (foldl (λ q kv, add_all kv.1 (g kv.2) q) q l) k =
    values_at q k ++ match (list_to_map l : gmap string B) !! k with
                     | Some b => g b
                     | None => []
                     end.
Proof.
  intros Hnd. revert q. induction l as [|[k1 b1] l IH]; intros q; cbn [foldl].
  - rewrite list_to_map_nil, lookup_empty. now rewrite app_nil_r.
  - inversion Hnd as [|? ? Hk Hnd']; subst. rewrite IH by exact Hnd'.
    cbn [fst snd]. rewrite add_all_values_at, list_to_map_cons.
    destruct (decide (k1 = k)) as [->|Hne].
    + rewrite lookup_insert_eq, (not_elem_of_list_to_map_1 l k Hk).
      now rewrite app_nil_r.
    + rewrite lookup_insert_ne by exact Hne. now rewrite app_nil_r.
Qed.

(** The same loop over [range m]. *)
Lemma add_all_range {B : Type} (g : B → list string) (m : gmap string B)
    (q : Values) (k : string) :
  range_enumerates →
  values_at (foldl (λ q kv, add_all kv.1 (g kv.2) q) q (range _ m)) k =
    values_at q k ++ match m !! k with
                     | Some b => g b
                     | None => []
                     end.
Proof.
  intros Hrange.
  assert (NoDup (range _ m).*1) as Hnd.
  { rewrite (fmap_Permutation fst _ _ (Hrange _ m)). apply NoDup_fst_map_to_list. }
  rewrite (add_all_loop g _ q k Hnd).
  now rewrite (list_to_map_proper _ _ Hnd (Hrange _ m)), list_to_map_to_list.
Qed.

(** A key is in the loop's result when it was there before or the loop
    added a value under it. *)
Lemma add_all_range_None {B : Type} (g : B → list string) (m : gmap string B)
    (k : string) :
  range_enumerates →
  (match m !! k with Some b => g b | None => [] end) = [] →
  foldl (λ q kv, add_all kv.1 (g kv.2) q) ∅ (range _ m) !! k = None.
Proof.
  intros Hrange Hk.
  assert (∀ l (q : Values), q !! k = None →
            (∀ kv, kv ∈ l → kv.1 = k → g kv.2 = []) →
            foldl (λ q kv, add_all kv.1 (g kv.2) q) q l !! k = None) as Hgen.
  { induction l as [|[k1 b1] l IH]; intros q Hq Hl; cbn [foldl]; [exact Hq |].
    apply IH.
    - cbn [fst snd]. destruct (decide (k1 = k)) as [->|Hne].
      + assert (g b1 = []) as ->
          by (apply (Hl (k, b1)); [apply list_elem_of_here | reflexivity]).
        rewrite add_all_lookup. exact Hq.
      + now rewrite add_all_lookup_ne.
    - intros kv Hin. now apply Hl, list_elem_of_further. }
  apply Hgen; [apply lookup_empty |].
  intros [k1 b1] Hin Hk1. cbn [fst snd] in *. subst k1.
  rewrite (Hrange _ m) in Hin. apply elem_of_map_to_list in Hin.
  now rewrite Hin in Hk.
Qed.

Lemma changeMapToURLValues_add_all (data : gmap string value) :
  changeMapToURLValues data =
    foldl (λ q kv, add_all kv.1 (url_values_of kv.2) q) ∅ (range _ data).
Proof.
  unfold changeMapToURLValues. apply foldl_pointwise.
  intros q [k v]. cbn [fst snd]. now destruct v.
Qed.

Lemma changeMapToURLValues_lookup (data : gmap string value) (k : string) :
  range_enumerates →
  changeMapToURLValues data !! k =
    match data !! k with
    | Some v => match url_values_of v with [] => None | vs => Some vs end
    | None => None
    end.
Proof.
  intros Hrange. rewrite changeMapToURLValues_add_all.
  pose proof (add_all_range url_values_of data ∅ k Hrange) as Hat.
  pose proof (add_all_range_None url_values_of data k Hrange) as Hnone.
  unfold values_at in Hat. rewrite lookup_empty in Hat. cbn [default app] in Hat.
  destruct (data !! k) as [v|]; [|now apply Hnone].
  destruct (url_values_of v) as [|x vs] eqn:Ev; [now apply Hnone |].
  destruct (foldl _ ∅ (range _ data) !! k) as [vs'|] eqn:El; simpl in Hat.
  - exact (f_equal Some Hat).
  - discriminate Hat.
Qed.

(** X5.  [changeMapToURLValues] gives each key of [Data] the strings of its
    value: the one string, the strings of a [[]string] in order, the text of
    a number.  A key whose value is of another type (a bool, nil, a decoded
    array or object), or an empty [[]string], is not in the result, and no
    other key is. *)
Theorem changeMapToURLValues_by_type (data : gmap string value) (k : string) :
  range_enumerates →
  changeMapToURLValues data !! k =
    match data !! k with
    | Some (VString val) => Some [val]
    | Some (VNumber val) => Some [val]
    | Some (VStrings (x :: val)) => Some (x :: val)
    | _ => None
    end.
Proof.
  intros Hrange. rewrite (changeMapToURLValues_lookup data k Hrange).
  destruct (data !! k) as [[| | | |[|x l]| |]|]; reflexivity.
Qed.

(** ** What MakeRequest puts on a request *)

Lemma range_empty (A : Type) : range_enumerates → range A ∅ = [].
Proof.
  intros Hrange. apply Permutation_nil_r. rewrite (Hrange A ∅).
  now rewrite map_to_list_empty.
Qed.

Lemma elem_of_Types_entries (k v : string) :
  Types !! k = Some v → (k, v) ∈ Types_entries.
Proof. intros Hk. now apply elem_of_list_to_map_2 in Hk. Qed.

(** No content-type string of [Types] is empty, and text/html has one
    alias. *)
Lemma Types_values_nonempty (k : string) : Types !! k ≠ Some EmptyString.
Proof.
  intros Hk%elem_of_Types_entries. unfold Types_entries in Hk.
  repeat (apply elem_of_cons in Hk as [Heq|Hk]; [discriminate Heq |]).
  inversion Hk.
Qed.

Lemma Types_html_alias (k : string) : Types !! k = Some "text/html" → k = "html".
Proof.
  intros Hk%elem_of_Types_entries. unfold Types_entries in Hk.
  repeat (apply elem_of_cons in Hk as [Heq|Hk];
          [first [discriminate Heq | congruence] |]).
  inversion Hk.
Qed.

(** With no usable forced type and no Content-Type header, dispatch keeps
    the target type. *)
Lemma resolveTargetType_no_header (s : SuperAgent) :
  range_enumerates →
  ForceType s ∉ ["json"; "form"; "xml"; "text"] →
  Header s !! "Content-Type" = None →
  resolveTargetType s = s.
Proof.
  intros Hrange Hf Hh. unfold resolveTargetType.
  rewrite (bool_decide_eq_false_2 _ Hf).
  destruct (resolve_loop (range _ Types) s) as [Hr Hcase].
  rewrite Hr. destruct Hcase as [(kv & Hin & Hkv & _)|[_ ->]].
  - rewrite Hh in Hkv. cbn [default] in Hkv.
    apply elem_of_range_Types in Hin; [|exact Hrange].
    rewrite Hkv in Hin. now destruct (Types_values_nonempty kv.1).
  - apply with_TargetType_same.
Qed.

Lemma empty_string_not_forced : EmptyString ∉ ["json"; "form"; "xml"; "text"].
Proof.
  intros Hin. repeat (apply elem_of_cons in Hin as [Heq|Hin]; [discriminate Heq |]).
  inversion Hin.
Qed.

(** The request of [MakeRequest] is the one its switch made, finished; the
    switch gives it the method and URL of the builder and no header but
    Content-Type. *)
Lemma MakeRequest_inv (s : SuperAgent) (req : Request) :
  MakeRequest s = Returned (Ok req) →
  ∃ req0 : Request,
    req = MakeRequest_finish s req0 ∧
    Request_Method req0 = Method s ∧ Request_URL req0 = Url s ∧
    ∀ c, c ≠ canon "Content-Type" → Request_Header req0 !! c = None.
Proof.
  unfold MakeRequest.
  destruct (MakeRequest_switch s) as [[[req0|]|err]|] eqn:Hsw; try discriminate.
  intros [= <-]. exists req0. split; [reflexivity |].
  revert Hsw. unfold MakeRequest_switch, NewRequest.
  destruct (http_NewRequest (Method s) (Url s)) as [err|];
    repeat (case_bool_decide || case_decide || discriminate);
    try discriminate; intros [= <-]; (split; [reflexivity |]); (split; [reflexivity |]);
    intros c Hc; cbn [Request_Header with_Request_Header]; unfold Header_Set;
    rewrite ?lookup_insert_ne by (intros Hx; now apply Hc); apply lookup_empty.
Qed.

(** The header loop leaves a canonical key as it was when no key of the
    list has that canonical form. *)
Lemma Header_Set_loop_other (l : list (string * string)) (h : gmap string string)
    (c : string) :
  (∀ kv, kv ∈ l → canon kv.1 ≠ c) →
  foldl (λ h kv, Header_Set kv.1 kv.2 h) h l !! c = h !! c.
Proof.
  revert h. induction l as [|x l IH]; intros h Hl; cbn [foldl]; [reflexivity |].
  rewrite IH.
  - unfold Header_Set. apply lookup_insert_ne, Hl, list_elem_of_here.
  - intros kv Hin. now apply Hl, list_elem_of_further.
Qed.

(** A key of the list that shares its canonical form with no other key of
    the list ends up in the header with its value. *)
Lemma Header_Set_loop_key (l : list (string * string)) (h : gmap string string)
    (k v : string) :
  NoDup l.*1 → (k, v) ∈ l →
  (∀ kv, kv ∈ l → canon kv.1 = canon k → kv.1 = k) →
  foldl (λ h kv, Header_Set kv.1 kv.2 h) h l !! canon k = Some v.
Proof.
  intros Hnd. revert h.
  induction l as [|[k1 v1] l IH]; intros h Hin Hl; [inversion Hin |].
  inversion Hnd as [|? ? Hk1 Hnd']; subst. cbn [foldl fst snd].
  apply elem_of_cons in Hin as [[= <- <-]|Hin].
  - rewrite Header_Set_loop_other.
    + unfold Header_Set. apply lookup_insert_eq.
    + intros kv Hkv Hc. apply Hk1.
      rewrite <- (Hl kv (list_elem_of_further _ _ _ Hkv) Hc).
      apply list_elem_of_fmap. now exists kv.
  - apply (IH Hnd' _ Hin). intros kv Hkv. now apply Hl, list_elem_of_further.
Qed.





(** What the header loop leaves under a canonical key that one key of the
    builder has, or none. *)
Lemma header_loop_key (s : SuperAgent) (h : gmap string string) (k v : string) :
  range_enumerates →
  Header s !! k = Some v →
  (∀ k', k' ∈ dom (Header s) → canon k' = canon k → k' = k) →
  foldl (λ h kv, Header_Set kv.1 kv.2 h) h (range _ (Header s)) !! canon k = Some v.
Proof.
  intros Hrange Hk Hothers.
  destruct (range_keys _ (Header s) Hrange) as [Hnd Hdom].
  apply Header_Set_loop_key; [exact Hnd | |].
  - rewrite (Hrange _ (Header s)). now apply elem_of_map_to_list.
  - intros kv Hin. apply Hothers, Hdom, list_elem_of_fmap. now exists kv.
Qed.



(** X7.  A header set on the builder reaches the request under its canonical
    key, with its value, whatever the switch of [MakeRequest] put there
    itself, provided no other header of the builder has the same canonical
    key, and provided the key is not one that [MakeRequest] writes after the
    headers: Authorization when credentials are set, Cookie when cookies
    were added.  So a Content-Type header set by the caller replaces the one
    that follows from the content type. *)
Theorem caller_header_wins (s : SuperAgent) (req : Request) (k v : string) :
  range_enumerates →
  MakeRequest s = Returned (Ok req) →
  Header s !! k = Some v →
  (∀ k', k' ∈ dom (Header s) → canon k' = canon k → k' = k) →
  BasicAuth s = (EmptyString, EmptyString) ∨ canon k ≠ canon "Authorization" →
  Cookies s = [] ∨ canon k ≠ canon "Cookie" →
  Request_Header req !! canon k = Some v.
Proof.
  intros Hrange (req0 & -> & _)%MakeRequest_inv Hk Hothers Hauth Hcookie.
  cbn [MakeRequest_finish Request_Header].
  assert (∀ h, foldl (λ h cookie, Request_AddCookie cookie h) h (Cookies s) !! canon k =
               h !! canon k) as ->.
  { intros h. destruct Hcookie as [-> | Hc]; [reflexivity |].
    now apply AddCookie_loop_lookup_ne. }
  assert (∀ h, with_credentials (BasicAuth s) h !! canon k = h !! canon k) as ->.
  { intros h. destruct Hauth as [He | Ha]; [|now apply with_credentials_lookup_ne].
    unfold with_credentials. now rewrite decide_False by (intros Hx; now apply Hx). }
  now apply header_loop_key.
Qed.

(** The query loop of [MakeRequest], by [add_all]. *)
Lemma query_loop_add_all (q : Values) (l : list (string * list string)) :
  foldl (λ q kv, foldl (λ q vv, Values_Add kv.1 vv q) q kv.2) q l =
    foldl (λ q kv, add_all kv.1 (id kv.2) q) q l.
Proof. apply foldl_pointwise. intros a [k vs]. reflexivity. Qed.

(** X8.  The query string of the request encodes, for every key, the values
    that the URL of the builder had for it, followed by the values added
    with [Query] and [Param], in the order they were added: the parameters
    of the builder are added to those of the URL, they replace none. *)
Theorem query_values_are_added (s : SuperAgent) (req : Request) :
  range_enumerates →
  MakeRequest s = Returned (Ok req) →
  ∃ q : Values,
    Request_RawQuery req = Values_Encode q ∧
    ∀ k, values_at q k = values_at (url_Query (Url s)) k ++ values_at (QueryData s) k.
Proof.
  intros Hrange (req0 & -> & _ & Hu & _)%MakeRequest_inv.
  cbn [MakeRequest_finish Request_RawQuery]. eexists. split; [reflexivity |].
  intros k. rewrite Hu, query_loop_add_all.
  rewrite (add_all_range id (QueryData s) _ k Hrange).
  unfold values_at at 3. now destruct (QueryData s !! k).
Qed.

(** ** Query *)

Lemma foldl_pointwise_in {A B : Type} (f g : A → B → A) (l : list B) (a : A) :
  (∀ a b, b ∈ l → f a b = g a b) → foldl f a l = foldl g a l.
Proof.
  revert a. induction l as [|b l IH]; intros a Hfg; cbn [foldl]; [reflexivity |].
  rewrite Hfg by apply list_elem_of_here.
  apply IH. intros a' b' Hin. now apply Hfg, list_elem_of_further.
Qed.

Lemma with_QueryData_same (s : SuperAgent) : with_QueryData (QueryData s) s = s.
Proof. now destruct s. Qed.

(** A loop that only assigns [QueryData] is a loop on [QueryData]. *)
Lemma QueryData_loop {B : Type} (f : Values → B → Values) (l : list B) (s : SuperAgent) :
  foldl (λ s b, with_QueryData (f (QueryData s) b) s) s l =
    with_QueryData (foldl f (QueryData s) l) s.
Proof.
  revert s. induction l as [|b l IH]; intros s; cbn [foldl].
  - now rewrite with_QueryData_same.
  - now rewrite IH.
Qed.

(** X9.  [Query] with a string.  If the string is a JSON object of strings,
    each of its values is added after the values its key had.  If not, and
    the string parses as a query string, then for each key only its first
    value in the string is added.  If it parses as neither, the parse error
    is appended to the errors.  In the first two cases nothing but the query
    data changes, in the last nothing but the errors. *)
Theorem Query_string_adds (str : string) (s : SuperAgent) :
  range_enumerates →
  (∀ val : gmap string string,
     Unmarshal_string_map str = Ok val →
     ∃ q' : Values,
       Query (CString str) s = Returned (with_QueryData q' s) ∧
       ∀ k, values_at q' k =
              values_at (QueryData s) k ++
              match val !! k with Some v => [v] | None => [] end) ∧
  (∀ (e : error) (queryVal : Values),
     Unmarshal_string_map str = Err e → url_ParseQuery str = (queryVal, None) →
     ∃ q' : Values,
       Query (CString str) s = Returned (with_QueryData q' s) ∧
       ∀ k, values_at q' k =
              values_at (QueryData s) k ++
              match queryVal !! k with
              | Some vs => [default EmptyString (head vs)]
              | None => []
              end) ∧
  (∀ (e e' : error) (queryVal : Values),
     Unmarshal_string_map str = Err e → url_ParseQuery str = (queryVal, Some e') →
     Query (CString str) s = Returned (with_Errors (Errors s ++ [e']) s)).
Proof.
  intros Hrange. cbn [Query]. unfold queryString, Unmarshal_string_map.
  split; [|split].
  - intros val ->. eexists. split.
    + f_equal. apply (QueryData_loop (λ q kv, Values_Add kv.1 kv.2 q)).
    + intros k.
      change (foldl (λ q kv, Values_Add kv.1 kv.2 q) (QueryData s) (range _ val))
        with (foldl (λ q kv, add_all kv.1 ((λ v, [v]) kv.2) q) (QueryData s) (range _ val)).
      apply (add_all_range (λ v : string, [v]) val _ k Hrange).
  - intros e queryVal -> ->. eexists. split.
    + f_equal.
      apply (QueryData_loop (λ q (kv : string * list string),
                               Values_Add kv.1 (Values_Get queryVal kv.1) q)).
    + intros k.
      rewrite (foldl_pointwise_in _
                 (λ q kv, add_all kv.1 ((λ vs, [default EmptyString (head vs)]) kv.2) q)).
      * apply (add_all_range (λ vs : list string, [default EmptyString (head vs)])
                 queryVal _ k Hrange).
      * intros q [k1 vs] Hin. cbn [fst snd].
        rewrite (Hrange _ queryVal) in Hin. apply elem_of_map_to_list in Hin.
        unfold Values_Get. rewrite Hin. now destruct vs.
  - now intros e e' queryVal -> ->.
Qed.

(** When every field is a string the loop of [queryStruct] does not panic,
    and it only assigns [QueryData]. *)
Lemma queryStruct_loop_strings (l : list (string * value)) (s : SuperAgent) :
  (∀ kv, kv ∈ l → ∃ str, kv.2 = VString str) →
  foldl (λ acc kv, obind acc (λ s, queryStruct_round s kv)) (Returned s) l =
    Returned
      (with_QueryData
         (foldl (λ q kv, add_all (strings_ToLower kv.1) (field_strings kv.2) q)
            (QueryData s) l) s).
Proof.
  revert s. induction l as [|[k v] l IH]; intros s Hl; cbn [foldl].
  - now rewrite with_QueryData_same.
  - destruct (Hl (k, v) (list_elem_of_here _ _)) as [str Hv]. cbn [snd] in Hv. subst v.
    cbn [obind]. unfold queryStruct_round at 2. cbn [fst snd].
    rewrite IH; [reflexivity |].
    intros kv Hin. now apply Hl, list_elem_of_further.
Qed.

Lemma lower_loop_prefix (l : list (string * value)) (q : Values) (k : string) :
  values_at q k `prefix_of`
    values_at (foldl (λ q kv, add_all (strings_ToLower kv.1) (field_strings kv.2) q) q l) k.
Proof.
  revert q. induction l as [|[k1 v1] l IH]; intros q; cbn [foldl]; [reflexivity |].
  etransitivity; [|apply IH]. rewrite add_all_values_at. now apply prefix_app_r.
Qed.

Lemma lower_loop_elem (l : list (string * value)) (q : Values) (k str : string) :
  (k, VString str) ∈ l →
  str ∈ values_at (foldl (λ q kv, add_all (strings_ToLower kv.1) (field_strings kv.2) q) q l)
          (strings_ToLower k).
Proof.
  revert q. induction l as [|[k1 v1] l IH]; intros q Hin; [inversion Hin |].
  cbn [foldl]. apply elem_of_cons in Hin as [[= <- <-]|Hin]; [|now apply IH].
  cbn [fst snd].
  destruct (lower_loop_prefix l
              (add_all (strings_ToLower k) (field_strings (VString str)) q)
              (strings_ToLower k)) as [rest ->].
  rewrite add_all_values_at, decide_True by reflexivity.
  cbn [field_strings]. rewrite !elem_of_app. left. right. apply list_elem_of_here.
Qed.

Lemma lower_loop_untouched (l : list (string * value)) (q : Values) (k' : string) :
  (∀ kv, kv ∈ l → strings_ToLower kv.1 ≠ k') →
  values_at (foldl (λ q kv, add_all (strings_ToLower kv.1) (field_strings kv.2) q) q l) k'
  = values_at q k'.
Proof.
  revert q. induction l as [|[k1 v1] l IH]; intros q Hl; cbn [foldl]; [reflexivity |].
  rewrite IH by (intros kv Hin; now apply Hl, list_elem_of_further).
  rewrite add_all_values_at, decide_False, app_nil_r; [reflexivity |].
  apply (Hl (k1, v1)), list_elem_of_here.
Qed.

(** X10.  [Query] with a struct all of whose fields come back from JSON as
    strings returns, and changes nothing but the query data: the values a
    key had stay in front, each field's string is among the values of the
    lower-cased field name, and no key but the lower-cased field names gets a
    value. *)
Theorem Query_struct_of_strings (x : Struct) (s : SuperAgent) (b : string) (j : json)
    (val : gmap string value) :
  range_enumerates →
  json_Marshal_struct x = Ok b → json_Unmarshal b = Ok j → into_map j = Ok val →
  (∀ k v, val !! k = Some v → ∃ str, v = VString str) →
  ∃ q' : Values,
    Query (CStruct x) s = Returned (with_QueryData q' s) ∧
    (∀ k, values_at (QueryData s) k `prefix_of` values_at q' k) ∧
    (∀ k str, val !! k = Some (VString str) → str ∈ values_at q' (strings_ToLower k)) ∧
    (∀ k', (∀ k, k ∈ dom val → strings_ToLower k ≠ k') →
           values_at q' k' = values_at (QueryData s) k').
Proof.
  intros Hrange Hm Hu Hi Hstr. cbn [Query]. unfold queryStruct. rewrite Hm, Hu, Hi.
  assert (∀ kv, kv ∈ range _ val ↔ val !! kv.1 = Some kv.2) as Hin.
  { intros [k v]. rewrite (Hrange _ val). apply elem_of_map_to_list. }
  rewrite queryStruct_loop_strings.
  - eexists. split; [reflexivity |]. split; [|split].
    + intros k. apply lower_loop_prefix.
    + intros k str Hk. apply lower_loop_elem. now apply (Hin (k, VString str)).
    + intros k' Hk'. apply lower_loop_untouched.
      intros kv Hkv. apply Hk', elem_of_dom. exists kv.2. now apply Hin.
  - intros kv Hkv. apply (Hstr kv.1). now apply Hin.
Qed.

(** ** Dispatch, end to end *)

Lemma with_BounceToRawString_same (s : SuperAgent) :
  with_BounceToRawString (BounceToRawString s) s = s.
Proof. now destruct s. Qed.

(** The builder that [MakeRequest] receives, field by field: the resolved
    target type, and raw-string mode on when it was or when both bodies are
    filled. *)
Lemma prepared_shape (s : SuperAgent) :
  prepared s =
    with_BounceToRawString
      (BounceToRawString s || (bool_decide (Data s ≠ ∅) && bool_decide (SliceData s ≠ [])))
      (with_TargetType (TargetType (resolveTargetType s)) s).
Proof.
  unfold prepared, bounceMixed.
  pose proof (resolveTargetType_only_TargetType s) as Hres.
  set (t := TargetType (resolveTargetType s)) in *. rewrite Hres.
  cbn [Data SliceData with_TargetType].
  destruct (bool_decide (Data s ≠ ∅) && bool_decide (SliceData s ≠ [])).
  - now rewrite orb_true_r.
  - rewrite orb_false_r.
    apply (with_BounceToRawString_same (with_TargetType t s)).
Qed.

(** The same for a builder with no forced type and no header. *)
Lemma prepared_plain (s : SuperAgent) :
  range_enumerates →
  ForceType s = EmptyString → Header s = ∅ →
  prepared s =
    with_BounceToRawString
      (BounceToRawString s || (bool_decide (Data s ≠ ∅) && bool_decide (SliceData s ≠ [])))
      s.
Proof.
  intros Hrange Hf Hh. rewrite prepared_shape, resolveTargetType_no_header.
  - now rewrite with_TargetType_same.
  - exact Hrange.
  - rewrite Hf. apply empty_string_not_forced.
  - rewrite Hh. apply lookup_empty.
Qed.

(** With no header and no cookie on the builder the request has the header
    that the switch of [MakeRequest] gave it, and the credentials. *)
Lemma finish_no_header (s : SuperAgent) (req0 : Request) :
  range_enumerates → Header s = ∅ → Cookies s = [] →
  Request_Header (MakeRequest_finish s req0) =
    with_credentials (BasicAuth s) (Request_Header req0) ∧
  Request_Body (MakeRequest_finish s req0) = Request_Body req0.
Proof.
  intros Hrange Hh Hc. cbn [MakeRequest_finish Request_Header Request_Body].
  now rewrite Hh, Hc, (range_empty _ Hrange).
Qed.

(** What [MakeRequest] does for POST, PUT and PATCH, type by type, once
    [http.NewRequest] accepts the method and the URL. *)
Lemma MakeRequest_json (s : SuperAgent) :
  Method s ∈ [POST; PUT; PATCH] → TargetType s = "json" →
  http_NewRequest (Method s) (Url s) = None →
  ∃ req0 : Request,
    MakeRequest s = Returned (Ok (MakeRequest_finish s req0)) ∧
    Request_Header req0 = {[canon "Content-Type" := "application/json"]} ∧
    Request_Body req0 =
      Some (if BounceToRawString s then RawString s
            else if bool_decide (Data s ≠ ∅) then bytes_of (json_Marshal_map (Data s))
            else if bool_decide (SliceData s ≠ []) then bytes_of (json_Marshal_slice (SliceData s))
            else EmptyString).
Proof.
  intros Hm Ht Hn. unfold MakeRequest, MakeRequest_switch, NewRequest.
  rewrite (bool_decide_eq_true_2 _ Hm), Ht, Hn, decide_True by reflexivity.
  eexists. split; [reflexivity |]. split; reflexivity.
Qed.

Lemma MakeRequest_form (s : SuperAgent) :
  Method s ∈ [POST; PUT; PATCH] → TargetType s = "form" →
  http_NewRequest (Method s) (Url s) = None →
  ∃ req0 : Request,
    MakeRequest s = Returned (Ok (MakeRequest_finish s req0)) ∧
    Request_Header req0 = {[canon "Content-Type" := "application/x-www-form-urlencoded"]} ∧
    Request_Body req0 =
      Some (if BounceToRawString s || bool_decide (SliceData s ≠ []) then RawString s
            else Values_Encode (changeMapToURLValues (Data s))).
Proof.
  intros Hm Ht Hn. unfold MakeRequest, MakeRequest_switch, NewRequest.
  rewrite (bool_decide_eq_true_2 _ Hm), Ht, Hn.
  rewrite decide_False by discriminate. rewrite decide_True by reflexivity.
  eexists. split; [reflexivity |]. split; reflexivity.
Qed.

Lemma MakeRequest_text_xml (s : SuperAgent) :
  Method s ∈ [POST; PUT; PATCH] → TargetType s ∈ ["text"; "xml"] →
  http_NewRequest (Method s) (Url s) = None →
  ∃ req0 : Request,
    MakeRequest s = Returned (Ok (MakeRequest_finish s req0)) ∧
    Request_Header req0 =
      {[canon "Content-Type" :=
          if decide (TargetType s = "text") then "text/plain" else "application/xml"]} ∧
    Request_Body req0 = Some (RawString s).
Proof.
  intros Hm Ht Hn. unfold MakeRequest, MakeRequest_switch, NewRequest.
  rewrite (bool_decide_eq_true_2 _ Hm), Hn.
  apply elem_of_cons in Ht as [->|Ht].
  - rewrite decide_False by discriminate. rewrite decide_False by discriminate.
    rewrite !decide_True by reflexivity.
    eexists. split; [reflexivity |]. split; reflexivity.
  - apply list_elem_of_singleton in Ht as ->.
    rewrite !decide_False by discriminate. rewrite decide_True by reflexivity.
    eexists. split; [reflexivity |]. split; reflexivity.
Qed.

(** A form parsed on an empty [Data], flattened again, is the first value
    of each of its keys. *)
Lemma form_on_empty_Data (formVal : Values) :
  range_enumerates →
  changeMapToURLValues (foldl (merge_form_key formVal) ∅ (range _ formVal).*1)
  = first_values formVal.
Proof.
  intros Hrange. apply map_eq. intros k.
  rewrite (changeMapToURLValues_lookup _ k Hrange).
  destruct (range_keys _ formVal Hrange) as [Hnd Hdom].
  rewrite (merge_form_keys formVal _ _ k Hnd), lookup_empty.
  unfold first_values. rewrite lookup_fmap.
  destruct (decide (k ∈ (range _ formVal).*1)) as [Hin|Hin].
  - apply Hdom, elem_of_dom in Hin as [vs Hvs].
    unfold Values_Get. rewrite Hvs. cbn. now destruct vs.
  - destruct (formVal !! k) as [vs|] eqn:Hvs; [|reflexivity].
    destruct Hin. apply Hdom, elem_of_dom. now exists vs.
Qed.

(** X11.  A POST, PUT or PATCH with one form string sent right after the
    verb call: the string is not sent as it was written.  The one request
    that goes out has the content type of forms and, as its body, the
    encoding of the parsed form with only the first value of each key; the
    other values of a repeated key are not sent.  Its header holds the
    content type and, when credentials were set before the verb call, the
    Authorization header made of them; nothing else. *)
Theorem form_string_is_reencoded (callback : bool) (m u str : string)
    (s0 : SuperAgent) (e : error) (formVal : Values) :
  range_enumerates →
  m ∈ [POST; PUT; PATCH] →
  json_Decode str = Err e → url_ParseQuery str = (formVal, None) →
  http_NewRequest m u = None →
  ∃ (d : dispatched) (req : Request),
    EndBytes callback (Send (CString str) (CustomMethod m u s0)) = Returned d ∧
    network_io (events d) = [req] ∧
    Request_Body req = Some (Values_Encode (first_values formVal)) ∧
    Request_Header req =
      with_credentials (BasicAuth s0)
        {[canon "Content-Type" := "application/x-www-form-urlencoded"]}.
Proof.
  intros Hrange Hm Hj Hq Hn. cbn [Send].
  rewrite CustomMethod_setVerb.
  rewrite (SendString_form str (setVerb m u s0) e formVal eq_refl Hj Hq).
  set (s := with_RawString _ _).
  assert (prepared s = s) as Hp.
  { rewrite (prepared_plain s Hrange eq_refl eq_refl).
    assert (SliceData s = []) as Hl by reflexivity.
    rewrite (bool_decide_eq_false_2 (SliceData s ≠ [])) by (rewrite Hl; auto).
    rewrite andb_false_r, orb_false_r. apply with_BounceToRawString_same. }
  destruct (MakeRequest_form s Hm eq_refl Hn) as (req0 & Hreq & Hh & Hb).
  destruct (finish_no_header s req0 Hrange eq_refl eq_refl) as [Fh Fb].
  rewrite <- Hp in Hreq at 1.
  destruct (EndBytes_sends callback s _ eq_refl Hreq) as (d & Hret & Hio & _).
  exists d, (MakeRequest_finish s req0).
  split; [exact Hret |]. split; [exact Hio |]. split.
  - rewrite Fb, Hb. cbn. now rewrite (form_on_empty_Data formVal Hrange).
  - now rewrite Fh, Hh.
Qed.

(** A builder fresh from a verb call after strings that decode to objects,
    or to arrays, is handed to [MakeRequest] as it is. *)
Lemma prepared_one_body (s : SuperAgent) :
  range_enumerates →
  ForceType s = EmptyString → Header s = ∅ → BounceToRawString s = false →
  Data s = ∅ ∨ SliceData s = [] →
  prepared s = s.
Proof.
  intros Hrange Hf Hh Hb Hone. rewrite (prepared_plain s Hrange Hf Hh).
  assert (bool_decide (Data s ≠ ∅) && bool_decide (SliceData s ≠ []) = false) as ->.
  { destruct Hone as [He|He]; rewrite He.
    - now rewrite (bool_decide_eq_false_2 (∅ ≠ ∅)) by auto.
    - rewrite (bool_decide_eq_false_2 ([] ≠ [])) by auto. apply andb_false_r. }
  rewrite orb_false_r. apply with_BounceToRawString_same.
Qed.

(** X12.  A POST, PUT or PATCH with strings that decode to JSON objects sent
    right after the verb call: one request goes out, of content type json,
    whose body is [json.Marshal] of the merged map.  If the merged map is
    empty (only empty objects were sent) the body is empty: the two
    braces are not sent.  The header holds the content type and, when
    credentials were set before the verb call, the Authorization header made
    of them; nothing else. *)
Theorem objects_are_sent_merged (callback : bool) (m u : string) (s0 : SuperAgent)
    (strs : list string) (ms : list (list (string * json))) :
  range_enumerates →
  m ∈ [POST; PUT; PATCH] →
  Forall2 (λ str m, json_Decode str = Ok (JObject m)) strs ms →
  http_NewRequest m u = None →
  let merged := foldl (λ d m, json_object_map m ∪ d) ∅ ms in
  ∃ (d : dispatched) (req : Request),
    EndBytes callback (send_all strs (CustomMethod m u s0)) = Returned d ∧
    network_io (events d) = [req] ∧
    Request_Body req =
      Some (if bool_decide (merged ≠ ∅) then bytes_of (json_Marshal_map merged)
            else EmptyString) ∧
    Request_Header req =
      with_credentials (BasicAuth s0) {[canon "Content-Type" := "application/json"]}.
Proof.
  intros Hrange Hm Hall Hn. cbv zeta.
  rewrite CustomMethod_setVerb.
  rewrite (send_all_objects strs ms (setVerb m u s0) Hrange eq_refl Hall).
  set (s := with_RawString _ _).
  assert (Data s = foldl (λ d m, json_object_map m ∪ d) ∅ ms) as HD by reflexivity.
  assert (SliceData s = []) as HL by reflexivity.
  assert (BounceToRawString s = false) as HB by reflexivity.
  assert (prepared s = s) as Hp
    by (apply prepared_one_body; [exact Hrange | reflexivity .. | now right]).
  destruct (MakeRequest_json s Hm eq_refl Hn) as (req0 & Hreq & Hh & Hb).
  destruct (finish_no_header s req0 Hrange eq_refl eq_refl) as [Fh Fb].
  rewrite <- Hp in Hreq at 1.
  destruct (EndBytes_sends callback s _ eq_refl Hreq) as (d & Hret & Hio & _).
  exists d, (MakeRequest_finish s req0).
  split; [exact Hret |]. split; [exact Hio |]. split.
  - rewrite Fb, Hb, HB, HD, HL.
    now rewrite (bool_decide_eq_false_2 ([] ≠ [])) by auto.
  - now rewrite Fh, Hh.
Qed.

(** X13.  The same with strings that decode to JSON arrays: the body is
    [json.Marshal] of the list of all their elements in call order, and it
    is empty when only empty arrays were sent.  The header is as for
    objects. *)
Theorem arrays_are_sent_joined (callback : bool) (m u : string) (s0 : SuperAgent)
    (strs : list string) (ls : list (list json)) :
  range_enumerates →
  m ∈ [POST; PUT; PATCH] →
  Forall2 (λ str l, json_Decode str = Ok (JArray l)) strs ls →
  http_NewRequest m u = None →
  let elems := concat (map (map of_json) ls) in
  ∃ (d : dispatched) (req : Request),
    EndBytes callback (send_all strs (CustomMethod m u s0)) = Returned d ∧
    network_io (events d) = [req] ∧
    Request_Body req =
      Some (if bool_decide (elems ≠ []) then bytes_of (json_Marshal_slice elems)
            else EmptyString) ∧
    Request_Header req =
      with_credentials (BasicAuth s0) {[canon "Content-Type" := "application/json"]}.
Proof.
  intros Hrange Hm Hall Hn. cbv zeta.
  rewrite CustomMethod_setVerb.
  rewrite (send_all_arrays strs ls (setVerb m u s0) eq_refl Hall).
  set (s := with_RawString _ _).
  assert (Data s = ∅) as HD by reflexivity.
  assert (SliceData s = concat (map (map of_json) ls)) as HL by reflexivity.
  assert (BounceToRawString s = false) as HB by reflexivity.
  assert (prepared s = s) as Hp
    by (apply prepared_one_body; [exact Hrange | reflexivity .. | now left]).
  destruct (MakeRequest_json s Hm eq_refl Hn) as (req0 & Hreq & Hh & Hb).
  destruct (finish_no_header s req0 Hrange eq_refl eq_refl) as [Fh Fb].
  rewrite <- Hp in Hreq at 1.
  destruct (EndBytes_sends callback s _ eq_refl Hreq) as (d & Hret & Hio & _).
  exists d, (MakeRequest_finish s req0).
  split; [exact Hret |]. split; [exact Hio |]. split.
  - rewrite Fb, Hb, HB, HD, HL.
    now rewrite (bool_decide_eq_false_2 (∅ ≠ ∅)) by auto.
  - now rewrite Fh, Hh.
Qed.

Lemma resolveTargetType_forced (s : SuperAgent) :
  ForceType s ∈ ["json"; "form"; "xml"; "text"] →
  TargetType (resolveTargetType s) = ForceType s.
Proof.
  intros Hf. unfold resolveTargetType. now rewrite (bool_decide_eq_true_2 _ Hf).
Qed.

Lemma prepared_TargetType (s : SuperAgent) :
  TargetType (prepared s) = TargetType (resolveTargetType s).
Proof. now rewrite prepared_shape. Qed.

(** For POST, PUT and PATCH a target type that is none of json, form, text
    and xml leaves [MakeRequest] with a nil request, which it dereferences. *)
Lemma MakeRequest_unsupported (s : SuperAgent) :
  Method s ∈ [POST; PUT; PATCH] →
  TargetType s ∉ ["json"; "form"; "text"; "xml"] →
  MakeRequest s = Panicked.
Proof.
  intros Hm Ht. unfold MakeRequest, MakeRequest_switch.
  rewrite (bool_decide_eq_true_2 _ Hm).
  rewrite !decide_False; [reflexivity | | | |];
    intros Hx; apply Ht; rewrite Hx;
    repeat (first [apply list_elem_of_here | apply list_elem_of_further]).
Qed.

Lemma EndBytes_panics (callback : bool) (s : SuperAgent) :
  Errors s = [] → MakeRequest (prepared s) = Panicked → EndBytes callback s = Panicked.
Proof.
  intros He Hp. unfold EndBytes.
  rewrite bool_decide_eq_false_2 by (rewrite He; auto).
  fold (prepared s). now rewrite Hp.
Qed.

(** X14.  A POST, PUT or PATCH without recorded errors whose resolved type
    is none of json, form, text and xml does not return: dispatch panics
    on the request that was never made.  A Content-Type header text/html,
    with no forced type among the four, resolves to such a type, html. *)
Theorem unsupported_type_panics (callback : bool) (s : SuperAgent) :
  Errors s = [] → Method s ∈ [POST; PUT; PATCH] →
  (TargetType (prepared s) ∉ ["json"; "form"; "text"; "xml"] →
   EndBytes callback s = Panicked) ∧
  (range_enumerates →
   ForceType s ∉ ["json"; "form"; "xml"; "text"] →
   Header s !! "Content-Type" = Some "text/html" →
   TargetType (prepared s) = "html" ∧ EndBytes callback s = Panicked).
Proof.
  intros He Hm.
  assert (TargetType (prepared s) ∉ ["json"; "form"; "text"; "xml"] →
          EndBytes callback s = Panicked) as Hpanic.
  { intros Ht. apply EndBytes_panics; [exact He |].
    apply MakeRequest_unsupported; [|exact Ht].
    now rewrite (proj1 (prepared_fields s)). }
  split; [exact Hpanic |].
  intros Hrange Hf Hh.
  assert (TargetType (prepared s) = "html") as Hhtml.
  { rewrite prepared_TargetType. unfold resolveTargetType.
    rewrite (bool_decide_eq_false_2 _ Hf).
    destruct (resolve_loop (range _ Types) s) as [_ Hcase].
    rewrite Hh in Hcase. cbn [default] in Hcase.
    destruct Hcase as [(kv & Hin & Hkv & ->)|[Hno _]].
    - apply elem_of_range_Types in Hin; [|exact Hrange].
      apply Types_html_alias. now rewrite Hin, Hkv.
    - destruct (Hno ("html", "text/html")); [|reflexivity].
      now apply elem_of_range_Types. }
  split; [exact Hhtml |]. apply Hpanic. rewrite Hhtml.
  intros Hin. repeat (apply elem_of_cons in Hin as [Heq|Hin]; [discriminate Heq |]).
  inversion Hin.
Qed.

(** X15.  When [http.NewRequest] refuses the method or the URL: for a method
    other than POST, PUT and PATCH, and for these with the json or form
    type, dispatch returns a nil response, a nil body and that one error,
    which stays recorded in the builder, and nothing happens outside; with
    the text or xml type the error is not looked at and dispatch panics. *)
Theorem NewRequest_error_is_returned_or_panics (callback : bool) (s : SuperAgent)
    (err : error) :
  Errors s = [] → Method s ≠ EmptyString →
  http_NewRequest (Method s) (Url s) = Some err →
  ((Method s ∉ [POST; PUT; PATCH]) ∨ TargetType (prepared s) ∈ ["json"; "form"] →
   ∃ d : dispatched,
     EndBytes callback s = Returned d ∧ events d = [] ∧
     resp_ret d = None ∧ body_ret d = None ∧ errs_ret d = [err] ∧
     Errors (after d) = [err]) ∧
  (Method s ∈ [POST; PUT; PATCH] → TargetType (prepared s) ∈ ["text"; "xml"] →
   EndBytes callback s = Panicked).
Proof.
  intros He Hne Hn.
  destruct (prepared_fields s) as (Pm & Pu & _ & _ & _ & _ & _ & Pe & _).
  split.
  - intros Hcase.
    assert (MakeRequest (prepared s) = Returned (Err err)) as Hreq.
    { unfold MakeRequest, MakeRequest_switch, NewRequest. rewrite Pm, Pu, Hn.
      destruct Hcase as [Hm|Ht].
      - rewrite (bool_decide_eq_false_2 _ Hm). now rewrite decide_False.
      - case_bool_decide; [|now rewrite decide_False].
        apply elem_of_cons in Ht as [->|Ht]; [now rewrite decide_True |].
        apply list_elem_of_singleton in Ht as ->.
        rewrite decide_False by discriminate. now rewrite decide_True. }
    unfold EndBytes. rewrite bool_decide_eq_false_2 by (rewrite He; auto).
    fold (prepared s). rewrite Hreq. eexists. split; [reflexivity |].
    cbn [events resp_ret body_ret errs_ret after Errors with_Errors].
    rewrite Pe, He. repeat split.
  - intros Hm Ht. apply EndBytes_panics; [exact He |].
    unfold MakeRequest, MakeRequest_switch, NewRequest. rewrite Pm, Pu, Hn.
    rewrite (bool_decide_eq_true_2 _ Hm).
    apply elem_of_cons in Ht as [->|Ht].
    + rewrite !decide_False by discriminate. now rewrite decide_True.
    + apply list_elem_of_singleton in Ht as ->.
      rewrite !decide_False by discriminate. now rewrite decide_True.
Qed.

Lemma prepared_seen_by_hook (dialed : list error) (s : SuperAgent) :
  seen_by_hook dialed (prepared s) = seen_by_hook dialed s.
Proof. now rewrite prepared_shape. Qed.

(** X16.  When the exchange on the network fails, dispatch returns a nil
    response, a nil body and the errors then recorded, after the one request
    it sent: the error of [Client.Do], alone when [Timeout] was never called,
    and after the errors of the failed dials when it was, since its hook
    records each of them as well.  These errors stay in the builder: a
    dispatch of the same builder again, with no verb call in between, sends
    nothing and returns them. *)
Theorem transport_error_sticks (callback : bool) (s : SuperAgent) (req : Request)
    (dialed : list error) (e : error) :
  Errors s = [] →
  MakeRequest (prepared s) = Returned (Ok req) →
  Client_Do req = (dialed, Err e) →
  ∃ d : dispatched,
    EndBytes callback s = Returned d ∧ network_io (events d) = [req] ∧
    resp_ret d = None ∧ body_ret d = None ∧
    errs_ret d = seen_by_hook dialed s ++ [e] ∧
    Errors (after d) = errs_ret d ∧
    ∀ callback' : bool,
      ∃ d2 : dispatched,
        EndBytes callback' (after d) = Returned d2 ∧ events d2 = [] ∧
        resp_ret d2 = None ∧ body_ret d2 = None ∧ errs_ret d2 = errs_ret d.
Proof.
  intros He Hreq Hdo.
  destruct (prepared_fields s) as (_ & _ & _ & _ & _ & _ & _ & Pe & _).
  unfold EndBytes at 1. rewrite bool_decide_eq_false_2 by (rewrite He; auto).
  fold (prepared s). rewrite Hreq, Hdo. eexists. split; [reflexivity |].
  cbn [events resp_ret body_ret errs_ret after Errors with_Errors].
  rewrite dial_hook_appends, prepared_seen_by_hook, Pe, He. cbn [app].
  split; [|split; [reflexivity |split; [reflexivity |split; [reflexivity |split;
    [reflexivity |]]]]].
  - now destruct (Debug (prepared s)), (CurlCommand (prepared s)).
  - intros callback'. eexists. unfold EndBytes.
    rewrite bool_decide_eq_true_2; [repeat split |].
    cbn [Errors with_Errors]. now destruct (seen_by_hook dialed s).
Qed.

Lemma finish_Body (s : SuperAgent) (req0 : Request) :
  Request_Body (MakeRequest_finish s req0) = Request_Body req0.
Proof. reflexivity. Qed.

(** X17.  A POST, PUT or PATCH of type form whose builder is in raw-string
    mode, or holds an element in its list body, sends the raw string as its
    body, and not the encoded form. *)
Theorem form_with_list_sends_raw (callback : bool) (s : SuperAgent) :
  Errors s = [] → Method s ∈ [POST; PUT; PATCH] →
  TargetType (prepared s) = "form" →
  BounceToRawString s = true ∨ SliceData s ≠ [] →
  http_NewRequest (Method s) (Url s) = None →
  ∃ (d : dispatched) (req : Request),
    EndBytes callback s = Returned d ∧ network_io (events d) = [req] ∧
    Request_Body req = Some (RawString s).
Proof.
  intros He Hm Ht Hraw Hn.
  destruct (prepared_fields s) as (Pm & Pu & _ & _ & _ & _ & Pr & _ & _ & Pb).
  assert (BounceToRawString (prepared s) || bool_decide (SliceData (prepared s) ≠ [])
          = true) as Hflag.
  { destruct Hraw as [Hb|Hl]; [now rewrite (Pb Hb) |].
    rewrite prepared_shape. cbn [SliceData with_BounceToRawString with_TargetType].
    rewrite (bool_decide_eq_true_2 _ Hl). apply orb_true_r. }
  rewrite <- Pm in Hm. rewrite <- Pm, <- Pu in Hn.
  destruct (MakeRequest_form (prepared s) Hm Ht Hn) as (req0 & Hreq & _ & Hb).
  destruct (EndBytes_sends callback s _ He Hreq) as (d & Hret & Hio & _).
  exists d, (MakeRequest_finish (prepared s) req0).
  split; [exact Hret |]. split; [exact Hio |].
  now rewrite finish_Body, Hb, Hflag, Pr.
Qed.

(** X18.  A POST, PUT or PATCH with the forced type text or xml sends the raw
    string as its body, whatever the structured bodies hold; the request
    says text/plain or application/xml, unless a header of the builder has
    the canonical key Content-Type. *)
Theorem text_and_xml_send_raw (callback : bool) (s : SuperAgent) :
  range_enumerates →
  Errors s = [] → Method s ∈ [POST; PUT; PATCH] →
  ForceType s ∈ ["text"; "xml"] →
  http_NewRequest (Method s) (Url s) = None →
  ∃ (d : dispatched) (req : Request),
    EndBytes callback s = Returned d ∧ network_io (events d) = [req] ∧
    Request_Body req = Some (RawString s) ∧
    ((∀ k, k ∈ dom (Header s) → canon k ≠ canon "Content-Type") →
     Request_Header req !! canon "Content-Type" =
       Some (if decide (ForceType s = "text") then "text/plain" else "application/xml")).
Proof.
  intros Hrange He Hm Hf Hn.
  destruct (prepared_fields s) as (Pm & Pu & Ph & _ & _ & _ & Pr & _ & Pt & _).
  assert (TargetType (prepared s) = ForceType s) as Ht.
  { rewrite Pt. apply resolveTargetType_forced.
    apply elem_of_cons in Hf as [->|Hf].
    - repeat (first [apply list_elem_of_here | apply list_elem_of_further]).
    - apply list_elem_of_singleton in Hf as ->.
      repeat (first [apply list_elem_of_here | apply list_elem_of_further]). }
  rewrite <- Pm in Hm. rewrite <- Pm, <- Pu in Hn. rewrite <- Ht in Hf.
  destruct (MakeRequest_text_xml (prepared s) Hm Hf Hn) as (req0 & Hreq & Hh & Hb).
  destruct (EndBytes_sends callback s _ He Hreq) as (d & Hret & Hio & _).
  exists d, (MakeRequest_finish (prepared s) req0).
  split; [exact Hret |]. split; [exact Hio |]. split.
  - now rewrite finish_Body, Hb, Pr.
  - intros Hothers. destruct canon_Content_Type_ne as (Hta & Htc & _).
    rewrite (finish_lookup_other _ _ _ Hta Htc).
    rewrite Header_Set_loop_other.
    + rewrite Hh, Ht. apply lookup_singleton_eq.
    + intros kv Hin. apply Hothers. rewrite <- Ph.
      destruct (range_keys _ (Header (prepared s)) Hrange) as [_ Hdom].
      apply Hdom, list_elem_of_fmap. now exists kv.
Qed.

(** X19.  [callCatRequest] sends one GET with no body, no header and no
    credentials to the URI it builds from the endpoint, the API and the
    options, and returns the body of the response.  The query of the request
    is not the text after the question mark but its parsed form encoded
    again.  When [http.NewRequest] refuses the URI, or when the exchange on
    the network fails, it panics. *)
Theorem callCatRequest_sends_one_get (endpoint api : string) (options : list string) :
  range_enumerates →
  match http_NewRequest GET (cat_uri endpoint api options) with
  | Some _ => callCatRequest endpoint api options = Panicked
  | None =>
      match Client_Do (cat_request (cat_uri endpoint api options)) with
      | (_, Err _) => callCatRequest endpoint api options = Panicked
      | (_, Ok resp) =>
          callCatRequest endpoint api options =
            Returned (Response_Body resp,
                      [EvDo (cat_request (cat_uri endpoint api options))])
      end
  end.
Proof.
  intros Hrange. unfold callCatRequest, End, EndBytes.
  set (uri := cat_uri endpoint api options).
  set (s := Get uri New).
  rewrite (bool_decide_eq_false_2 (Errors s ≠ [])) by (intros Hx; now apply Hx).
  fold (prepared s).
  rewrite (prepared_one_body s Hrange eq_refl eq_refl eq_refl (or_introl eq_refl)).
  rewrite MakeRequest_bodyless; [| |discriminate].
  2:{ intros Hin. repeat (apply elem_of_cons in Hin as [Heq|Hin]; [discriminate Heq |]).
      inversion Hin. }
  unfold NewRequest. change (Method s) with GET. change (Url s) with uri.
  destruct (http_NewRequest GET uri) as [err|]; [reflexivity |].
  assert (MakeRequest_finish s
            {| Request_Method := GET; Request_URL := uri; Request_Body := None;
               Request_Header := ∅; Request_RawQuery := Values_Encode (url_Query uri) |}
          = cat_request uri) as ->.
  { unfold MakeRequest_finish, cat_request.
    change (Header s) with (∅ : gmap string string).
    change (QueryData s) with (∅ : Values).
    rewrite !(range_empty _ Hrange). reflexivity. }
  destruct (Client_Do (cat_request uri)) as [dialed [resp|err]];
    unfold dial_hook; reflexivity.
Qed.








End Further.

(** * Concrete runs of the further properties *)

Lemma POST_has_body : POST ∈ [POST; PUT; PATCH].
Proof. apply list_elem_of_here. Qed.

(** X1 at [ex_bad_type]: the error of [Type] stays first through the chain,
    and the dispatch after the chain returns it. *)
Lemma errors_only_accumulate_witness :
  @run std ex_bad_ops ex_bad_type = Returned ex_bad_sent ∧
  Errors ex_bad_type ≠ [] ∧
  (∃ more : list error, Errors ex_bad_sent = Errors ex_bad_type ++ more) ∧
  ∃ d : dispatched,
    @EndBytes std false ex_bad_sent = Returned d ∧ events d = [] ∧
    resp_ret d = None ∧ body_ret d = None ∧ errs_ret d = Errors ex_bad_sent.
Proof.
  assert (@run std ex_bad_ops ex_bad_type = Returned ex_bad_sent) as Hrun
    by (vm_compute; reflexivity).
  assert (Errors ex_bad_type ≠ []) as He by (vm_compute; discriminate).
  destruct (@errors_only_accumulate std false ex_bad_ops ex_bad_type ex_bad_sent Hrun)
    as [Hmore Hend].
  split; [exact Hrun |]. split; [exact He |]. split; [exact Hmore | exact (Hend He)].
Defined.

Lemma ex_objects_decode :
  Forall2 (λ str m, @json_Decode std str = Ok (JObject m)) ex_objects ex_objects_decoded.
Proof. repeat constructor. Qed.

Lemma ex_arrays_decode :
  Forall2 (λ str l, @json_Decode std str = Ok (JArray l)) ex_arrays ex_arrays_decoded.
Proof. repeat constructor. Qed.

(** X2 at [ex_objects]: the second object wins on the common key. *)
Lemma Send_objects_merge_witness :
  BounceToRawString (Post ex_url New) = false ∧
  Data (@send_all std ex_objects (Post ex_url New)) =
    {["a" := VNumber "2"; "b" := VString "x"]} ∧
  SliceData (@send_all std ex_objects (Post ex_url New)) = [] ∧
  BounceToRawString (@send_all std ex_objects (Post ex_url New)) = false.
Proof.
  destruct (@Send_objects_merge std ex_objects ex_objects_decoded (Post ex_url New)
              std_range_enumerates eq_refl ex_objects_decode) as (Hd & Hl & _ & Hb).
  split; [reflexivity |]. split; [|split; [exact Hl | exact Hb]].
  rewrite Hd. vm_compute. reflexivity.
Defined.

(** X3 at [ex_arrays]. *)
Lemma Send_arrays_append_witness :
  BounceToRawString (Post ex_url New) = false ∧
  SliceData (@send_all std ex_arrays (Post ex_url New)) =
    [VNumber "1"; VNumber "2"; VString "x"] ∧
  Data (@send_all std ex_arrays (Post ex_url New)) = ∅ ∧
  BounceToRawString (@send_all std ex_arrays (Post ex_url New)) = false.
Proof.
  destruct (@Send_arrays_append std ex_arrays ex_arrays_decoded (Post ex_url New)
              eq_refl ex_arrays_decode) as (Hl & Hd & _ & Hb).
  split; [reflexivity |]. split; [exact Hl |]. split; [exact Hd | exact Hb].
Defined.

(** X4 at [ex_page]. *)
Lemma SendStruct_merges_without_raw_witness :
  @json_Marshal_struct std ex_page = Ok (dq "{'Page':1}") ∧
  @Send std (CStruct ex_page) (Post ex_url New) =
    with_Data (json_object_map [("Page", JNumber "1")] ∪ ∅) (Post ex_url New) ∧
  RawString (@Send std (CStruct ex_page) (Post ex_url New)) = EmptyString ∧
  BounceToRawString (@Send std (CStruct ex_page) (Post ex_url New)) = false.
Proof.
  destruct (@SendStruct_merges_without_raw std ex_page (Post ex_url New)
              std_range_enumerates) as (Hok & _ & _ & _ & _ & Hr & _ & Hb & _).
  assert (@json_Marshal_struct std ex_page = Ok (dq "{'Page':1}")) as Hm
    by (vm_compute; reflexivity).
  assert (@json_Decode std (dq "{'Page':1}") = Ok (JObject [("Page", JNumber "1")])) as Hj
    by (vm_compute; reflexivity).
  split; [exact Hm |]. split; [exact (Hok _ _ Hm Hj) |]. split; [exact Hr | exact Hb].
Defined.

(** X5 at [ex_data]: the list is kept, the bool and the empty list are left
    out. *)
Lemma changeMapToURLValues_by_type_witness :
  @changeMapToURLValues std ex_data !! "a" = Some ["1"] ∧
  @changeMapToURLValues std ex_data !! "n" = Some ["2"] ∧
  @changeMapToURLValues std ex_data !! "l" = Some ["x"; "y"] ∧
  @changeMapToURLValues std ex_data !! "b" = None ∧
  @changeMapToURLValues std ex_data !! "e" = None.
Proof.
  pose proof (λ k, @changeMapToURLValues_by_type std ex_data k std_range_enumerates) as Hk.
  split; [exact (Hk "a") |]. split; [exact (Hk "n") |]. split; [exact (Hk "l") |].
  split; [exact (Hk "b") | exact (Hk "e")].
Defined.


(** X7 at [ex_vendor]: the type is json, the request says what the caller
    set. *)
Lemma caller_header_wins_witness :
  TargetType (@prepared std ex_vendor) = "json" ∧
  ∃ req : Request,
    @MakeRequest std ex_vendor = Returned (Ok req) ∧
    Request_Header req !! "Content-Type" = Some "application/vnd.api+json".
Proof.
  split; [vm_compute; reflexivity |].
  assert (@MakeRequest std ex_vendor =
            Returned (Ok {| Request_Method := POST; Request_URL := ex_url;
                            Request_Body := Some EmptyString;
                            Request_Header :=
                              {["Content-Type" := "application/vnd.api+json"]};
                            Request_RawQuery := EmptyString |})) as Hreq
    by (vm_compute; reflexivity).
  eexists. split; [exact Hreq |].
  apply (@caller_header_wins std ex_vendor _ "Content-Type" "application/vnd.api+json"
           std_range_enumerates Hreq); [vm_compute; reflexivity | | now left | now left].
  intros k' Hin _. apply elem_of_dom in Hin as [v Hv].
  change (Header ex_vendor)
    with (<["Content-Type" := "application/vnd.api+json"]> (∅ : gmap string string)) in Hv.
  apply lookup_insert_Some in Hv as [[<- _]|[_ Hv]]; [reflexivity |].
  now rewrite lookup_empty in Hv.
Defined.

(** X8 at [ex_paged]: the value of the URL first, then the parameter. *)
Lemma query_values_are_added_witness :
  ∃ (req : Request) (q : Values),
    @MakeRequest std ex_paged = Returned (Ok req) ∧
    Request_RawQuery req = @Values_Encode std q ∧
    values_at q "page" = ["1"; "2"] ∧
    Request_RawQuery req = "page=1&page=2".
Proof.
  assert (@MakeRequest std ex_paged =
            Returned (Ok {| Request_Method := GET;
                            Request_URL := "http://example.com/items?page=1";
                            Request_Body := None; Request_Header := ∅;
                            Request_RawQuery := "page=1&page=2" |})) as Hreq
    by (vm_compute; reflexivity).
  destruct (@query_values_are_added std ex_paged _ std_range_enumerates Hreq)
    as (q & Hq & Hk).
  eexists. exists q. split; [exact Hreq |]. split; [exact Hq |].
  split; [|reflexivity]. rewrite (Hk "page"). vm_compute. reflexivity.
Defined.

(** X9 at a form with a repeated key: the first value is added. *)
Lemma Query_string_adds_witness :
  ∃ q' : Values,
    @Query std (CString "q=a&q=b") (Get ex_url New) =
      Returned (with_QueryData q' (Get ex_url New)) ∧
    values_at q' "q" = ["a"].
Proof.
  destruct (@Query_string_adds std "q=a&q=b" (Get ex_url New) std_range_enumerates)
    as (_ & Hform & _).
  destruct (@Unmarshal_string_map std "q=a&q=b") as [val|e] eqn:Hu;
    [vm_compute in Hu; discriminate Hu |].
  assert (@url_ParseQuery std "q=a&q=b" = ({["q" := ["a"; "b"]]}, None)) as Hp
    by (vm_compute; reflexivity).
  destruct (Hform e _ eq_refl Hp) as (q' & Hq & Hk).
  exists q'. split; [exact Hq |]. rewrite (Hk "q"). vm_compute. reflexivity.
Defined.

(** X10 at [ex_person]: the values are found under the lower-cased names. *)
Lemma Query_struct_of_strings_witness :
  ∃ q' : Values,
    @Query std (CStruct ex_person) (Get ex_url New) =
      Returned (with_QueryData q' (Get ex_url New)) ∧
    "Ann" ∈ values_at q' "name" ∧ "Rome" ∈ values_at q' "city" ∧
    values_at q' "Name" = [].
Proof.
  set (val := ({["Name" := VString "Ann"; "City" := VString "Rome"]} : gmap string value)).
  assert (∀ k v, val !! k = Some v → (k = "Name" ∨ k = "City") ∧ ∃ str, v = VString str)
    as Hval.
  { intros k v Hkv. apply lookup_insert_Some in Hkv as [[<- <-]|[_ Hkv]]; [eauto |].
    apply lookup_singleton_Some in Hkv as [<- <-]. eauto. }
  destruct (@Query_struct_of_strings std ex_person (Get ex_url New)
              (dq "{'Name':'Ann','City':'Rome'}")
              (JObject [("Name", JString "Ann"); ("City", JString "Rome")]) val
              std_range_enumerates) as (q' & Hq & _ & Hin & Hout).
  - vm_compute. reflexivity.
  - vm_compute. reflexivity.
  - vm_compute. reflexivity.
  - intros k v Hkv. exact (proj2 (Hval k v Hkv)).
  - exists q'. split; [exact Hq |].
    split; [exact (Hin "Name" "Ann" eq_refl) |].
    split; [exact (Hin "City" "Rome" eq_refl) |].
    rewrite (Hout "Name"); [reflexivity |].
    intros k [v Hv]%elem_of_dom.
    destruct (proj1 (Hval k v Hv)) as [-> | ->]; vm_compute; discriminate.
Defined.

(** X11 at a form with a repeated key and an escaped space: the second
    value of the key is not sent, the space goes out as a plus sign. *)
Lemma form_string_is_reencoded_witness :
  ∃ (d : dispatched) (req : Request),
    @EndBytes std false
      (@Send std (CString "a=1&a=2&b=x%20y") (CustomMethod POST ex_url New)) = Returned d ∧
    network_io (events d) = [req] ∧
    Request_Body req = Some "a=1&b=x+y" ∧
    Request_Header req = {["Content-Type" := "application/x-www-form-urlencoded"]}.
Proof.
  destruct (@json_Decode std "a=1&a=2&b=x%20y") as [j|e] eqn:Hj;
    [vm_compute in Hj; discriminate Hj |].
  assert (@url_ParseQuery std "a=1&a=2&b=x%20y" =
            ({["a" := ["1"; "2"]; "b" := ["x y"]]}, None)) as Hp
    by (vm_compute; reflexivity).
  destruct (@form_string_is_reencoded std false POST ex_url "a=1&a=2&b=x%20y" New e _
              std_range_enumerates POST_has_body Hj Hp eq_refl)
    as (d & req & Hret & Hio & Hb & Hh).
  exists d, req. split; [exact Hret |]. split; [exact Hio |]. split.
  - rewrite Hb. vm_compute. reflexivity.
  - rewrite Hh. vm_compute. reflexivity.
Defined.

(** X12 at [ex_objects]: one object goes out, its keys in byte order. *)
Lemma objects_are_sent_merged_witness :
  ∃ (d : dispatched) (req : Request),
    @EndBytes std false (@send_all std ex_objects (CustomMethod POST ex_url New)) =
      Returned d ∧
    network_io (events d) = [req] ∧
    Request_Body req = Some (dq "{'a':2,'b':'x'}") ∧
    Request_Header req = {["Content-Type" := "application/json"]}.
Proof.
  destruct (@objects_are_sent_merged std false POST ex_url New ex_objects ex_objects_decoded
              std_range_enumerates POST_has_body ex_objects_decode eq_refl)
    as (d & req & Hret & Hio & Hb & Hh).
  exists d, req. split; [exact Hret |]. split; [exact Hio |]. split.
  - rewrite Hb. vm_compute. reflexivity.
  - rewrite Hh. vm_compute. reflexivity.
Defined.

(** X13 at [ex_arrays]: one array goes out. *)
Lemma arrays_are_sent_joined_witness :
  ∃ (d : dispatched) (req : Request),
    @EndBytes std false (@send_all std ex_arrays (CustomMethod POST ex_url New)) =
      Returned d ∧
    network_io (events d) = [req] ∧
    Request_Body req = Some (dq "[1,2,'x']") ∧
    Request_Header req = {["Content-Type" := "application/json"]}.
Proof.
  destruct (@arrays_are_sent_joined std false POST ex_url New ex_arrays ex_arrays_decoded
              std_range_enumerates POST_has_body ex_arrays_decode eq_refl)
    as (d & req & Hret & Hio & Hb & Hh).
  exists d, req. split; [exact Hret |]. split; [exact Hio |]. split.
  - rewrite Hb. vm_compute. reflexivity.
  - rewrite Hh. vm_compute. reflexivity.
Defined.

(** X14 at [ex_html_header]. *)
Lemma unsupported_type_panics_witness :
  Errors ex_html_header = [] ∧
  Header ex_html_header !! "Content-Type" = Some "text/html" ∧
  TargetType (@prepared std ex_html_header) = "html" ∧
  @EndBytes std false ex_html_header = Panicked.
Proof.
  assert (Header ex_html_header !! "Content-Type" = Some "text/html") as Hh
    by (vm_compute; reflexivity).
  destruct (@unsupported_type_panics std false ex_html_header eq_refl POST_has_body)
    as [_ Hhtml].
  split; [reflexivity |]. split; [exact Hh |].
  exact (Hhtml std_range_enumerates empty_string_not_forced Hh).
Defined.

(** X15 at a URL with a space in the host: the error comes back with the
    type json, dispatch panics with the type text. *)
Lemma NewRequest_error_is_returned_or_panics_witness :
  ∃ err : error,
    @http_NewRequest std POST "http://exa mple.com" = Some err ∧
    (∃ d : dispatched,
       @EndBytes std false ex_bad_url = Returned d ∧ events d = [] ∧
       resp_ret d = None ∧ body_ret d = None ∧ errs_ret d = [err] ∧
       Errors (after d) = [err]) ∧
    @EndBytes std false ex_bad_url_text = Panicked.
Proof.
  destruct (@http_NewRequest std POST "http://exa mple.com") as [err|] eqn:Hn;
    [|vm_compute in Hn; discriminate Hn].
  assert (POST ≠ EmptyString) as Hne by discriminate.
  assert (TargetType (@prepared std ex_bad_url) ∈ ["json"; "form"]) as Hj.
  { assert (TargetType (@prepared std ex_bad_url) = "json") as -> by (vm_compute; reflexivity).
    apply list_elem_of_here. }
  assert (TargetType (@prepared std ex_bad_url_text) ∈ ["text"; "xml"]) as Ht.
  { assert (TargetType (@prepared std ex_bad_url_text) = "text") as ->
      by (vm_compute; reflexivity).
    apply list_elem_of_here. }
  exists err. split; [reflexivity |]. split.
  - exact (proj1 (@NewRequest_error_is_returned_or_panics std false ex_bad_url err
                    eq_refl Hne Hn) (or_intror Hj)).
  - exact (proj2 (@NewRequest_error_is_returned_or_panics std false ex_bad_url_text err
                    eq_refl Hne Hn) POST_has_body Ht).
Defined.

Lemma std_offline_range_enumerates : @range_enumerates std_offline.
Proof. intros A m. reflexivity. Qed.

(** X16 with the network that refuses every connection: two errors with
    the hook of [Timeout], one without it. *)
Lemma transport_error_sticks_witness :
  (∃ d : dispatched,
     @EndBytes std_offline false ex_timeout = Returned d ∧
     length (network_io (events d)) = 1 ∧
     errs_ret d =
       ["dial tcp: connection refused";
        "POST http://example.com/items: dial tcp: connection refused"] ∧
     ∃ d2 : dispatched,
       @EndBytes std_offline true (after d) = Returned d2 ∧ events d2 = [] ∧
       errs_ret d2 = errs_ret d) ∧
  ∃ d : dispatched,
    @EndBytes std_offline false (Post ex_url New) = Returned d ∧
    errs_ret d = ["POST http://example.com/items: dial tcp: connection refused"].
Proof.
  set (req := {| Request_Method := POST; Request_URL := ex_url;
                 Request_Body := Some EmptyString;
                 Request_Header := {["Content-Type" := "application/json"]};
                 Request_RawQuery := EmptyString |}).
  assert (@MakeRequest std_offline (@prepared std_offline ex_timeout) = Returned (Ok req))
    as Hreq by (vm_compute; reflexivity).
  assert (@MakeRequest std_offline (@prepared std_offline (Post ex_url New)) =
            Returned (Ok req)) as Hreq' by (vm_compute; reflexivity).
  split.
  - destruct (@transport_error_sticks std_offline false ex_timeout req _ _
                eq_refl Hreq eq_refl)
      as (d & Hret & Hio & _ & _ & He & _ & Hagain).
    destruct (Hagain true) as (d2 & Hret2 & Hev2 & _ & _ & He2).
    exists d. split; [exact Hret |]. split; [now rewrite Hio |]. split; [exact He |].
    exists d2. split; [exact Hret2 |]. split; [exact Hev2 | exact He2].
  - destruct (@transport_error_sticks std_offline false (Post ex_url New) req _ _
                eq_refl Hreq' eq_refl)
      as (d & Hret & _ & _ & _ & He & _).
    exists d. split; [exact Hret | exact He].
Defined.

(** X17 at [ex_form_array]: the form and the array go out as they were
    written. *)
Lemma form_with_list_sends_raw_witness :
  TargetType (@prepared std ex_form_array) = "form" ∧ SliceData ex_form_array ≠ [] ∧
  ∃ (d : dispatched) (req : Request),
    @EndBytes std false ex_form_array = Returned d ∧ network_io (events d) = [req] ∧
    Request_Body req = Some "a=1[1]".
Proof.
  assert (Errors ex_form_array = []) as He by (vm_compute; reflexivity).
  assert (Method ex_form_array ∈ [POST; PUT; PATCH]) as Hm
    by (vm_compute; apply list_elem_of_here).
  assert (TargetType (@prepared std ex_form_array) = "form") as Ht
    by (vm_compute; reflexivity).
  assert (SliceData ex_form_array ≠ []) as Hl by (vm_compute; discriminate).
  assert (@http_NewRequest std (Method ex_form_array) (Url ex_form_array) = None) as Hn
    by (vm_compute; reflexivity).
  destruct (@form_with_list_sends_raw std false ex_form_array He Hm Ht (or_intror Hl) Hn)
    as (d & req & Hret & Hio & Hb).
  split; [exact Ht |]. split; [exact Hl |].
  exists d, req. split; [exact Hret |]. split; [exact Hio |].
  rewrite Hb. vm_compute. reflexivity.
Defined.

(** X18 at [ex_xml]: the document is stored as a form key as well, and goes
    out as it was written. *)
Lemma text_and_xml_send_raw_witness :
  Data ex_xml ≠ ∅ ∧
  ∃ (d : dispatched) (req : Request),
    @EndBytes std false ex_xml = Returned d ∧ network_io (events d) = [req] ∧
    Request_Body req = Some "<a/>" ∧
    Request_Header req !! "Content-Type" = Some "application/xml".
Proof.
  assert (Data ex_xml ≠ ∅) as Hd by (vm_compute; discriminate).
  assert (Errors ex_xml = []) as He by (vm_compute; reflexivity).
  assert (Method ex_xml ∈ [POST; PUT; PATCH]) as Hm
    by (vm_compute; apply list_elem_of_here).
  assert (ForceType ex_xml = "xml") as Hx by (vm_compute; reflexivity).
  assert (ForceType ex_xml ∈ ["text"; "xml"]) as Hf
    by (rewrite Hx; apply list_elem_of_further, list_elem_of_here).
  assert (@http_NewRequest std (Method ex_xml) (Url ex_xml) = None) as Hn
    by (vm_compute; reflexivity).
  assert (Header ex_xml = ∅) as Hh by (vm_compute; reflexivity).
  assert (@canon std "Content-Type" = "Content-Type") as Hc by (vm_compute; reflexivity).
  destruct (@text_and_xml_send_raw std false ex_xml std_range_enumerates He Hm Hf Hn)
    as (d & req & Hret & Hio & Hb & Hct).
  split; [exact Hd |].
  exists d, req. split; [exact Hret |]. split; [exact Hio |]. split.
  - rewrite Hb. vm_compute. reflexivity.
  - rewrite Hc, Hx in Hct. apply Hct.
    intros k Hin. rewrite Hh, dom_empty in Hin. now apply not_elem_of_empty in Hin.
Defined.

(** X19 at an endpoint with a port and one option with a comma: the query
    goes out in key order, the comma escaped and the bare key with an equals
    sign; with the network that refuses every connection the call panics. *)
Lemma callCatRequest_sends_one_get_witness :
  cat_uri "localhost:9200" "master" ["h=ip,name"] =
    "http://localhost:9200/_cat/master?v&h=ip,name" ∧
  @callCatRequest std "localhost:9200" "master" ["h=ip,name"] =
    Returned (EmptyString,
              [EvDo (@cat_request std "http://localhost:9200/_cat/master?v&h=ip,name")]) ∧
  Request_RawQuery (@cat_request std "http://localhost:9200/_cat/master?v&h=ip,name") =
    "h=ip%2Cname&v=" ∧
  @callCatRequest std_offline "localhost:9200" "master" ["h=ip,name"] = Panicked.
Proof.
  assert (cat_uri "localhost:9200" "master" ["h=ip,name"] =
            "http://localhost:9200/_cat/master?v&h=ip,name") as Hu
    by (vm_compute; reflexivity).
  pose proof (@callCatRequest_sends_one_get std "localhost:9200" "master" ["h=ip,name"]
                std_range_enumerates) as Hon.
  pose proof (@callCatRequest_sends_one_get std_offline "localhost:9200" "master"
                ["h=ip,name"] std_offline_range_enumerates) as Hoff.
  rewrite Hu in Hon, Hoff.
  assert (@http_NewRequest std GET "http://localhost:9200/_cat/master?v&h=ip,name" = None)
    as Hn by (vm_compute; reflexivity).
  assert (@http_NewRequest std_offline GET
            "http://localhost:9200/_cat/master?v&h=ip,name" = None) as Hn'
    by (vm_compute; reflexivity).
  rewrite Hn in Hon. rewrite Hn' in Hoff.
  split; [exact Hu |]. split; [exact Hon |]. split; [vm_compute; reflexivity | exact Hoff].
Defined.
